(** * quantmod.chart: a shallow embedding of [Chart]

    The development follows [src/quantmod/chart.py]: the [Chart] constructor,
    the column-presence properties, the two adjustment methods and the
    figure assembly of [to_figure].  Python objects that flow through the
    code untyped (keyword arguments, template dictionaries, traces, layout)
    are values of one type [pyobj]; exceptions are values of [exn] and a
    raising computation returns [inl e]. *)

From Stdlib Require Import String Ascii List ZArith Bool Lia.
From Stdlib Require Import Floats Uint63 DecimalString.
From Stdlib Require QArith Qcanon.
Import ListNotations.
Open Scope string_scope.

Set Implicit Arguments.
Set Warnings "-register-all".


(** ** Cell arithmetic

    A pandas column is generic in its dtype.  The embedding is parametric in
    the arithmetic of the cells: the operations [chart.py] applies to cell
    values and to the numbers stored in a layout. *)

Class Arith : Type := {
  num : Type;
  (** the float a Python int converts to *)
  of_int : Z -> num;
  (** the float written [m]e-[k] as a decimal literal, e.g. [0.30] is [lit 30 2] *)
  lit : Z -> nat -> num;
  nsub : num -> num -> num;
  nmul : num -> num -> num;
  ndiv : num -> num -> num;
  (** Python's [==] and [<=] on two numbers *)
  neqb : num -> num -> bool;
  nleb : num -> num -> bool;
  (** [numpy.isfinite] *)
  finite : num -> bool
}.

(** A cell that is finite and not zero. *)
Definition regular {A : Arith} (x : num) : bool :=
  finite x && negb (neqb x (of_int 0)).

(** The two facts about division the adjustment relies on when the close and
    the adjusted close agree.  Both hold of IEEE-754 binary64 division, which
    is correctly rounded. *)
Class ArithLaws (A : Arith) : Prop := {
  ndiv_self : forall x : num, regular x = true -> ndiv x x = of_int 1;
  ndiv_one : forall x : num, ndiv x (of_int 1) = x
}.

(** ** Exceptions and the error monad *)

Inductive exn : Type :=
| TypeError (msg : string)
| Exception (msg : string)
| KeyError (key : string)
| IndexError (msg : string)
| AttributeError (msg : string)
| NameError (name : string)
| ValueError (msg : string).

Definition result (A : Type) : Type := (exn + A)%type.

Definition ok {A : Type} (a : A) : result A := inr a.
Definition raise {A : Type} (e : exn) : result A := inl e.

Definition bind {A B : Type} (m : result A) (k : A -> result B) : result B :=
  match m with
  | inl e => inl e
  | inr a => k a
  end.

Declare Scope py_scope.
Delimit Scope py_scope with py.
Notation "x <- m ;; k" := (bind m (fun x => k))
  (at level 61, m at next level, right associativity) : py_scope.
Notation "m ;;; k" := (bind m (fun _ => k))
  (at level 61, right associativity) : py_scope.
Open Scope py_scope.

(** [for x in l: ...] with a body that may raise: the first exception ends
    the loop. *)
Fixpoint traverse {A B : Type} (f : A -> result B) (l : list A) : result (list B) :=
  match l with
  | [] => ok []
  | x :: l' => y <- f x ;; ys <- traverse f l' ;; ok (y :: ys)
  end.

(** [enumerate(l)] counting from [i]. *)
Fixpoint enumerate_from {A : Type} (i : nat) (l : list A) : list (nat * A) :=
  match l with
  | [] => []
  | x :: l' => (i, x) :: enumerate_from (S i) l'
  end.

(** A method that reads and writes [self] (or prints): the state survives an
    exception, as the attributes of a Python object do. *)
Definition M (S A : Type) : Type := S -> S * result A.

Definition retM {S A : Type} (a : A) : M S A := fun s => (s, inr a).
Definition raiseM {S A : Type} (e : exn) : M S A := fun s => (s, inl e).
Definition liftM {S A : Type} (r : result A) : M S A := fun s => (s, r).
Definition getM {S : Type} : M S S := fun s => (s, inr s).
Definition putM {S : Type} (s' : S) : M S unit := fun _ => (s', inr tt).
Definition bindM {S A B : Type} (m : M S A) (k : A -> M S B) : M S B :=
  fun s =>
    match m s with
    | (s', inl e) => (s', inl e)
    | (s', inr a) => k a s'
    end.

Declare Scope pym_scope.
Delimit Scope pym_scope with pym.
Notation "x <~ m ;; k" := (bindM m (fun x => k))
  (at level 61, m at next level, right associativity) : pym_scope.
Notation "m ~;; k" := (bindM m (fun _ => k))
  (at level 61, right associativity) : pym_scope.
Open Scope pym_scope.

(** ** Strings *)

(** [sub in s] for two strings. *)
Fixpoint contains (sub s : string) : bool :=
  String.prefix sub s ||
  match s with
  | EmptyString => false
  | String _ s' => contains sub s'
  end.

(** [x in l] for a list (or set) of strings. *)
Definition mem_str (x : string) (l : list string) : bool :=
  existsb (String.eqb x) l.

(** [str(n)] for a non-negative int. *)
Definition str_of_nat (n : nat) : string :=
  NilEmpty.string_of_uint (Nat.to_uint n).

(** Association lists stand for Python dicts: keys are unique, the order is
    the insertion order, and an update keeps the position of the key. *)
Fixpoint assoc_get {V : Type} (k : string) (d : list (string * V)) : option V :=
  match d with
  | [] => None
  | (k', v) :: d' => if String.eqb k k' then Some v else assoc_get k d'
  end.

Fixpoint assoc_set {V : Type} (k : string) (v : V) (d : list (string * V))
  : list (string * V) :=
  match d with
  | [] => [(k, v)]
  | (k', v') :: d' =>
      if String.eqb k k' then (k, v) :: d' else (k', v') :: assoc_set k v d'
  end.

Definition keys {V : Type} (d : list (string * V)) : list string := map fst d.

Section Embedding.

Context {A : Arith}.

(** ** Python values

    [PTime] is a [datetime] or pandas [Timestamp] (seconds since the epoch),
    [PSeries] the values of a column and [PIndex] a time index.  The
    operations below follow Python on scalars, lists, tuples and dicts, which
    is what templates, traces and layouts are made of. *)

Inductive pyobj : Type :=
| PNone
| PBool (b : bool)
| PInt (z : Z)
| PNum (x : num)
| PStr (s : string)
| PTime (t : Z)
| PList (l : list pyobj)
| PTuple (l : list pyobj)
| PDict (d : list (string * pyobj))
| PSeries (v : list num)
| PIndex (v : list Z).

Definition ambiguous : exn :=
  ValueError "The truth value of an array is ambiguous.".

(** [bool(o)], as an [if] evaluates it. *)
Definition truthy (o : pyobj) : result bool :=
  match o with
  | PNone => ok false
  | PBool b => ok b
  | PInt z => ok (negb (z =? 0)%Z)
  | PNum x => ok (negb (neqb x (of_int 0)))
  | PStr s => ok (negb (String.eqb s ""))
  | PTime _ => ok true
  | PList l | PTuple l => ok (negb (Nat.eqb (length l) 0))
  | PDict d => ok (negb (Nat.eqb (length d) 0))
  | PSeries _ | PIndex _ => raise ambiguous
  end.

(** [if o == False:]; an array compares elementwise and has no truth value. *)
Definition py_eq_False (o : pyobj) : result bool :=
  match o with
  | PBool b => ok (negb b)
  | PInt z => ok (z =? 0)%Z
  | PNum x => ok (neqb x (of_int 0))
  | PSeries _ | PIndex _ => raise ambiguous
  | _ => ok false
  end.

(** [isinstance(o, six.string_types)], [isinstance(o, bool)] and
    [isinstance(o, tuple)]. *)
Definition is_str (o : pyobj) : bool :=
  match o with PStr _ => true | _ => false end.
Definition is_bool (o : pyobj) : bool :=
  match o with PBool _ => true | _ => false end.

Definition not_subscriptable : exn := TypeError "object is not subscriptable".
Definition no_item_assignment : exn :=
  TypeError "object does not support item assignment".

(** [o[k]] for a string key. *)
Definition py_getitem (o : pyobj) (k : string) : result pyobj :=
  match o with
  | PDict d =>
      match assoc_get k d with
      | Some v => ok v
      | None => raise (KeyError k)
      end
  | PSeries _ => raise (KeyError k)
  | PIndex _ => raise (IndexError "only integers and slices are valid indices")
  | _ => raise not_subscriptable
  end.

(** [o[k] = v] for a string key. *)
Definition py_setitem (o : pyobj) (k : string) (v : pyobj) : result pyobj :=
  match o with
  | PDict d => ok (PDict (assoc_set k v d))
  | _ => raise no_item_assignment
  end.

(** [o[k1][k2]...] and [o[k1][k2]... = v]: the inner objects are fetched
    first, the assignment is made on the innermost one. *)
Fixpoint py_getpath (o : pyobj) (path : list string) : result pyobj :=
  match path with
  | [] => ok o
  | k :: path' => inner <- py_getitem o k ;; py_getpath inner path'
  end.

Fixpoint py_setpath (o : pyobj) (path : list string) (v : pyobj) : result pyobj :=
  match path with
  | [] => ok v
  | [k] => py_setitem o k v
  | k :: path' =>
      inner <- py_getitem o k ;;
      inner' <- py_setpath inner path' v ;;
      py_setitem o k inner'
  end.

Definition last_opt {T : Type} (l : list T) : option T :=
  match rev l with
  | [] => None
  | x :: _ => Some x
  end.

Definition out_of_range : exn := IndexError "index out of range".

(** [o[-1]]. *)
Definition py_last (o : pyobj) : result pyobj :=
  match o with
  | PList l | PTuple l =>
      match last_opt l with Some x => ok x | None => raise out_of_range end
  | PStr s =>
      match last_opt (list_ascii_of_string s) with
      | Some c => ok (PStr (String c EmptyString))
      | None => raise out_of_range
      end
  | PSeries v =>
      match last_opt v with Some x => ok (PNum x) | None => raise out_of_range end
  | PIndex v =>
      match last_opt v with Some t => ok (PTime t) | None => raise out_of_range end
  | PDict _ => raise (KeyError "-1")
  | _ => raise not_subscriptable
  end.

Definition bad_operand : exn := TypeError "unsupported operand type(s)".

(** [o - y] for a float [y]. *)
Definition py_sub_float (o : pyobj) (y : num) : result pyobj :=
  match o with
  | PNum x => ok (PNum (nsub x y))
  | PInt z => ok (PNum (nsub (of_int z) y))
  | PBool b => ok (PNum (nsub (of_int (Z.b2z b)) y))
  | PSeries v => ok (PSeries (map (fun x => nsub x y) v))
  | _ => raise bad_operand
  end.

(** [n * o] for a non-negative int [n]: numbers multiply, sequences repeat. *)
Definition py_mul_int (n : nat) (o : pyobj) : result pyobj :=
  match o with
  | PInt z => ok (PInt (Z.of_nat n * z))
  | PBool b => ok (PInt (Z.of_nat n * Z.b2z b))
  | PNum x => ok (PNum (nmul (of_int (Z.of_nat n)) x))
  | PStr s => ok (PStr (String.concat "" (repeat s n)))
  | PList l => ok (PList (concat (repeat l n)))
  | PTuple l => ok (PTuple (concat (repeat l n)))
  | PSeries v => ok (PSeries (map (nmul (of_int (Z.of_nat n))) v))
  | _ => raise bad_operand
  end.

(** [o.append(v)]. *)
Definition py_append (o v : pyobj) : result pyobj :=
  match o with
  | PList l => ok (PList (l ++ [v]))
  | PSeries _ | PIndex _ => raise (TypeError "cannot concatenate")
  | _ => raise (AttributeError "object has no attribute 'append'")
  end.

(** [k in o] for a string [k]. *)
Definition py_contains (k : string) (o : pyobj) : result bool :=
  match o with
  | PDict d => ok (mem_str k (keys d))
  | PList l | PTuple l =>
      ok (existsb (fun e => match e with PStr s => String.eqb s k | _ => false end) l)
  | PStr s => ok (contains k s)
  | PSeries _ | PIndex _ => ok false
  | _ => raise (TypeError "argument is not iterable")
  end.

(** ** The underlying table

    A [DataFrame] is a time index and the labelled columns in their order.
    pandas accepts a label more than once, so the labels are a list.
    Selecting [df[name]] returns the first column labelled [name]; that is
    the column pandas returns when the label is unique (with a repeated
    label pandas returns a sub-frame, which the embedding does not follow:
    statements about selected columns assume distinct labels). *)

Record DataFrame : Type := {
  index : list Z;
  columns : list (string * list num)
}.

Definition labels (d : DataFrame) : list string := keys (columns d).

(** Every column has one cell per index entry. *)
Definition wf_DataFrame (d : DataFrame) : Prop :=
  Forall (fun c => length (snd c) = length (index d)) (columns d).

(** [df[name]] *)
Definition df_getitem (d : DataFrame) (name : string) : result (list num) :=
  match assoc_get name (columns d) with
  | Some v => ok v
  | None => raise (KeyError name)
  end.

(** [df[name] = v] *)
Definition df_setitem (d : DataFrame) (name : string) (v : list num) : DataFrame :=
  {| index := index d; columns := assoc_set name v (columns d) |}.

(** [a / b] on two columns of one table (same index, so cell by cell). *)
Definition series_div (a b : list num) : list num :=
  map (fun p => ndiv (fst p) (snd p)) (combine a b).

(** ** External collaborators

    [tools], [factory] and [valid] are not part of [chart.py]; neither is
    Python's [str.format].  The embedding takes them as an environment. *)

Record Env : Type := {
  (** [tools.get_config_file()] *)
  get_config_file : result pyobj;
  (** [factory.get_source(name)]: the column mapping of a data vendor *)
  get_source : pyobj -> result (list (string * string));
  (** [factory.get_template(theme=..., layout=..., ...)] on its keyword arguments *)
  get_template : list (string * pyobj) -> result pyobj;
  (** [valid.VALID_FIGURE_KWARGS] and [valid.OHLC_TRACES] *)
  VALID_FIGURE_KWARGS : list string;
  OHLC_TRACES : list string;
  (** ['{0:,.02f}'.format(x)] and ['{0:,}'.format(x)] *)
  format_price : num -> string;
  format_volume : num -> string
}.

Variable env : Env.

(** ** Chart *)

(** An entry of [self.pri] or [self.sec]: the dict [add_*] stores, with its
    keys ['type'], ['color'] and the optional ['fillcolor']. *)
Record Indicator : Type := {
  ind_type : string;
  ind_color : string;
  ind_fillcolor : option string
}.

Record Chart : Type := {
  df : DataFrame;
  ticker : pyobj;
  start : pyobj;
  end_ : pyobj;
  op : string;
  hi : string;
  lo : string;
  cl : string;
  aop : string;
  ahi : string;
  alo : string;
  acl : string;
  vo : string;
  di : string;
  ind : DataFrame;
  pri : list (string * Indicator);
  sec : list (string * Indicator)
}.

(** The [src] argument of the constructor: [None], a vendor name, a dict
    from the ten field keys to column labels, or anything else. *)
Inductive src_arg : Type :=
| SrcNone
| SrcName (s : string)
| SrcDict (d : list (string * string))
| SrcOther (o : pyobj).

(** [src[k]] on the resolved mapping. *)
Definition src_getitem (d : list (string * string)) (k : string) : result string :=
  match assoc_get k d with
  | Some v => ok v
  | None => raise (KeyError k)
  end.

(** Lines 92-120: the check of [start] and of [end].  The third test
    evaluates [dt.dateime], an attribute the [datetime] module does not
    have, so every value that reaches it raises [AttributeError]; the
    [TypeError] of the last branch is never reached. *)
Definition check_boundary (v : pyobj) (default : result pyobj) : result pyobj :=
  match v with
  | PNone => default
  | _ =>
      is_false <- py_eq_False v ;;
      if is_false then ok v
      else if is_str v then ok v
      else raise (AttributeError "module 'datetime' has no attribute 'dateime'")
  end.

(** A value of [start] or [end] that is neither [None], nor a string, nor
    equal to [False]. *)
Definition rejected_boundary (v : pyobj) : Prop :=
  v <> PNone /\ is_str v = false /\ py_eq_False v <> ok true.

(** [Chart.__init__], lines 33-139. *)
Definition Chart_init (d : DataFrame) (src : src_arg)
    (ticker0 start0 end0 : pyobj) : result Chart :=
  src <- match src with
         | SrcNone =>
             cfg <- get_config_file env ;;
             name <- py_getitem cfg "source" ;;
             get_source env name
         | SrcName s => get_source env (PStr s)
         | SrcDict m => ok m
         | SrcOther _ =>
             raise (TypeError "Invalid src '{0}'. It should be string or dict.")
         end ;;
  ticker1 <- match ticker0 with
             | PNone => ok (PBool false)
             | _ =>
                 is_false <- py_eq_False ticker0 ;;
                 if is_false then ok ticker0
                 else if is_str ticker0 then ok ticker0
                 else raise (TypeError "Invalid ticker '{0}'. It should be string or dict.")
             end ;;
  start1 <- check_boundary start0
              match index d with
              | t :: _ => ok (PTime t)
              | [] => raise out_of_range
              end ;;
  end1 <- check_boundary end0
            match last_opt (index d) with
            | Some t => ok (PTime t)
            | None => raise out_of_range
            end ;;
  op1 <- src_getitem src "op" ;;
  hi1 <- src_getitem src "hi" ;;
  lo1 <- src_getitem src "lo" ;;
  cl1 <- src_getitem src "cl" ;;
  aop1 <- src_getitem src "aop" ;;
  ahi1 <- src_getitem src "ahi" ;;
  alo1 <- src_getitem src "alo" ;;
  acl1 <- src_getitem src "acl" ;;
  vo1 <- src_getitem src "vo" ;;
  di1 <- src_getitem src "di" ;;
  ok {| df := d; ticker := ticker1; start := start1; end_ := end1;
        op := op1; hi := hi1; lo := lo1; cl := cl1;
        aop := aop1; ahi := ahi1; alo := alo1; acl := acl1;
        vo := vo1; di := di1;
        ind := {| index := index d; columns := [] |};
        pri := []; sec := [] |}.

(** Lines 154-232: the single-column properties test membership. *)
Definition has_open (self : Chart) : bool := mem_str (op self) (labels (df self)).
Definition has_high (self : Chart) : bool := mem_str (hi self) (labels (df self)).
Definition has_low (self : Chart) : bool := mem_str (lo self) (labels (df self)).
Definition has_close (self : Chart) : bool := mem_str (cl self) (labels (df self)).
Definition has_adjusted_open (self : Chart) : bool :=
  mem_str (aop self) (labels (df self)).
Definition has_adjusted_high (self : Chart) : bool :=
  mem_str (ahi self) (labels (df self)).
Definition has_adjusted_low (self : Chart) : bool :=
  mem_str (alo self) (labels (df self)).
Definition has_adjusted_close (self : Chart) : bool :=
  mem_str (acl self) (labels (df self)).
Definition has_volume (self : Chart) : bool := mem_str (vo self) (labels (df self)).
Definition has_dividend (self : Chart) : bool := mem_str (di self) (labels (df self)).

(** A Python set display [{a, b, ...}]: equal elements collapse. *)
Definition py_set (l : list string) : list string := nodup string_dec l.

(** [columns.isin(cols)]: one boolean per column label. *)
Definition isin (lbls cols : list string) : list bool :=
  map (fun c => mem_str c cols) lbls.

(** [sum(arr)] of a boolean array. *)
Definition sum_bool (arr : list bool) : nat :=
  fold_right (fun b n => Nat.b2n b + n) 0 arr.

(** Lines 234-246: the two combined properties count the labels that fall
    in the set and compare the count with the size of the set. *)
Definition has_OHLC (self : Chart) : bool :=
  let cols := py_set [op self; hi self; lo self; cl self] in
  let arr := isin (labels (df self)) cols in
  (length cols <=? sum_bool arr)%nat.

Definition has_OHLCV (self : Chart) : bool :=
  let cols := py_set [op self; hi self; lo self; cl self; vo self] in
  let arr := isin (labels (df self)) cols in
  (length cols <=? sum_bool arr)%nat.

(** ** Adjustment

    [adjust] and [adjust_volume] run on the receiver: the state of the
    computation is [self], and the value is what the method returns ([None]
    on the in-place path, the new [Chart] otherwise). *)

Definition insufficient_OHLC : exn :=
  Exception "Insufficient data to adjust OHLC data.".
Definition insufficient_volume : exn :=
  Exception "Insufficient data to adjust volume.".

(** The receiver with [self.df] replaced. *)
Definition set_df (self : Chart) (d : DataFrame) : Chart :=
  {| df := d; ticker := ticker self; start := start self; end_ := end_ self;
     op := op self; hi := hi self; lo := lo self; cl := cl self;
     aop := aop self; ahi := ahi self; alo := alo self; acl := acl self;
     vo := vo self; di := di self;
     ind := ind self; pri := pri self; sec := sec self |}.

(** [ratio = (self.df[self.cl] / self.df[self.acl])] *)
Definition ratio_of (self : Chart) : result (list num) :=
  c <- df_getitem (df self) (cl self) ;;
  a <- df_getitem (df self) (acl self) ;;
  ok (series_div c a).

(** [self.df[name] = self.df[name] / ratio] *)
Definition divide_inplace (name : string) (ratio : list num) : M Chart unit :=
  self <~ getM ;;
  col <~ liftM (df_getitem (df self) name) ;;
  putM (set_df self (df_setitem (df self) name (series_div col ratio))).

(** [df2[name] = self.df[name] / ratio] *)
Definition divide_into (self : Chart) (df2 : DataFrame) (name : string)
    (ratio : list num) : result DataFrame :=
  col <- df_getitem (df self) name ;;
  ok (df_setitem df2 name (series_div col ratio)).

(** Lines 271-275: the table the copy path hands to the constructor. *)
Definition adjust_copy (self : Chart) (ratio : list num) : result DataFrame :=
  let df2 := df self in
  df2 <- divide_into self df2 (op self) ratio ;;
  df2 <- divide_into self df2 (hi self) ratio ;;
  df2 <- divide_into self df2 (lo self) ratio ;;
  divide_into self df2 (cl self) ratio.

(** [Chart.adjust], lines 248-276.  The guard reads
    [not self.has_OHLC and self.has_adjusted_close], in which [not] binds
    tighter than [and]. *)
Definition adjust (inplace : bool) : M Chart (option Chart) :=
  self <~ getM ;;
  if negb (has_OHLC self) && has_adjusted_close self then
    raiseM insufficient_OHLC
  else
    ratio <~ liftM (ratio_of self) ;;
    if inplace then
      divide_inplace (op self) ratio ~;;
      divide_inplace (hi self) ratio ~;;
      divide_inplace (lo self) ratio ~;;
      divide_inplace (cl self) ratio ~;;
      retM None
    else
      df2 <~ liftM (adjust_copy self ratio) ;;
      c <~ liftM (Chart_init df2 SrcNone PNone PNone PNone) ;;
      retM (Some c).

(** [Chart.adjust_volume], lines 278-300. *)
Definition adjust_volume (inplace : bool) : M Chart (option Chart) :=
  self <~ getM ;;
  if negb (has_volume self) && has_close self && has_adjusted_close self then
    raiseM insufficient_volume
  else
    ratio <~ liftM (ratio_of self) ;;
    if inplace then
      divide_inplace (vo self) ratio ~;;
      retM None
    else
      df2 <~ liftM (divide_into self (df self) (vo self) ratio) ;;
      c <~ liftM (Chart_init df2 SrcNone PNone PNone PNone) ;;
      retM (Some c).

(** ** Figure assembly *)

(** The arguments of [to_figure]; an argument left out is [PNone]. *)
Record figure_args : Type := {
  arg_type : pyobj;
  arg_volume : pyobj;
  arg_theme : pyobj;
  arg_layout : pyobj;
  arg_title : pyobj;
  arg_subtitle : pyobj;
  arg_hovermode : pyobj;
  arg_legend : pyobj;
  arg_annotations : pyobj;
  arg_shapes : pyobj;
  arg_dimensions : pyobj;
  arg_width : pyobj;
  arg_height : pyobj;
  arg_margin : pyobj;
  kwargs : list (string * pyobj)
}.

(** What the first part of [to_figure] leaves in its local variables. *)
Record resolved : Type := {
  r_type : string;
  r_volume : bool;
  r_title : pyobj;
  r_subtitle : bool;
  r_legend : pyobj;
  r_dimensions : pyobj
}.

(** Lines 372-374. *)
Definition check_kwargs (kw : list (string * pyobj)) : result unit :=
  traverse (fun p : string * pyobj =>
              if mem_str (fst p) (VALID_FIGURE_KWARGS env) then ok tt
              else raise (Exception "Invalid keyword '{0}'.")) kw ;;;
  ok tt.

(** Lines 383-395: [dimensions = tuple(80 * i for i in figsize)]. *)
Definition figsize_dimensions (figsize : pyobj) : result pyobj :=
  match figsize with
  | PTuple l =>
      if Nat.eqb (length l) 2 then
        t <- traverse (py_mul_int 80) l ;; ok (PTuple t)
      else raise (Exception "Invalid figsize '{0}'. It should be tuple of len 2.")
  | _ => raise (TypeError "Invalid figsize '{0}'. It should be tuple.")
  end.

(** Lines 406-410: the volume toggle after defaulting. *)
Definition resolve_volume (self : Chart) (a : figure_args) : pyobj :=
  match arg_volume a with
  | PNone => PBool (has_volume self)
  | v => v
  end.

(** Lines 412-416.  The branch taken for a chart with a ticker reads the
    name [ticker], which is neither a parameter nor a local of [to_figure]
    nor a name [chart.py] binds: Python raises [NameError]. *)
Definition resolve_title (self : Chart) (a : figure_args) : result pyobj :=
  match arg_title a with
  | PNone =>
      has_ticker <- truthy (ticker self) ;;
      if has_ticker then raise (NameError "ticker") else ok (PStr "")
  | t => ok t
  end.

(** Lines 371-452.  The membership and data checks of lines 429-442 are
    indented under the [raise] of line 426 and never run; they have no
    counterpart here. *)
Definition resolve_arguments (self : Chart) (a : figure_args) : result resolved :=
  check_kwargs (kwargs a) ;;;
  let type0 := match assoc_get "kind" (kwargs a) with
               | Some v => v
               | None => arg_type a
               end in
  let legend0 := match assoc_get "showlegend" (kwargs a) with
                 | Some v => v
                 | None => arg_legend a
                 end in
  dimensions0 <- match assoc_get "figsize" (kwargs a) with
                 | Some figsize => figsize_dimensions figsize
                 | None => ok (arg_dimensions a)
                 end ;;
  type1 <- match type0 with
           | PNone =>
               if has_OHLC self then ok (PStr "candlestick")
               else if has_close self then ok (PStr "line")
               else raise (Exception "Chart has neither OLHC nor close data.")
           | t => ok t
           end ;;
  let volume1 := resolve_volume self a in
  title1 <- resolve_title self a ;;
  let subtitle1 := match arg_subtitle a with PNone => PBool true | v => v end in
  let legend1 := match legend0 with PNone => PBool true | v => v end in
  type2 <- match type1 with
           | PStr s => ok s
           | _ => raise (TypeError "Invalid type '{0}'. It should be string.")
           end ;;
  volume2 <- match volume1 with
             | PBool b => ok b
             | _ => raise (TypeError "Invalid volume'{0}'. It should be bool.")
             end ;;
  subtitle2 <- match subtitle1 with
               | PBool b => ok b
               | _ => raise (TypeError "Invalid subtitle'{0}'. It should be bool.")
               end ;;
  ok {| r_type := type2; r_volume := volume2; r_title := title1;
        r_subtitle := subtitle2; r_legend := legend1;
        r_dimensions := dimensions0 |}.

(** Lines 455-461: the call of [factory.get_template]. *)
Definition load_template (a : figure_args) (r : resolved) : result pyobj :=
  get_template env
    [("theme", arg_theme a); ("layout", arg_layout a); ("title", r_title r);
     ("hovermode", arg_hovermode a); ("legend", r_legend r);
     ("annotations", arg_annotations a); ("shapes", arg_shapes a);
     ("dimensions", r_dimensions r);
     ("width", arg_width a); ("height", arg_height a);
     ("margin", arg_margin a)].

(** [trace[k] = self.df[name]] *)
Definition bind_column (self : Chart) (trace : pyobj) (k name : string)
  : result pyobj :=
  col <- df_getitem (df self) name ;;
  py_setitem trace k (PSeries col).

(** [trace[path] = colors[key]] *)
Definition bind_color (colors trace : pyobj) (path : list string) (key : string)
  : result pyobj :=
  c <- py_getitem colors key ;;
  py_setpath trace path c.

(** Lines 499-503, shared by the line, area and scatter branches. *)
Definition close_trace (self : Chart) (r : resolved) (traces : pyobj)
  : result pyobj :=
  trace <- py_getitem traces (r_type r) ;;
  trace <- py_setitem trace "x" (PIndex (index (df self))) ;;
  trace <- bind_column self trace "y" (cl self) ;;
  trace <- py_setitem trace "name" (r_title r) ;;
  trace <- py_setitem trace "yaxis" (PStr "y1") ;;
  py_setitem trace "showlegend" (PBool false).

(** Lines 470-539: the main trace. *)
Definition main_trace (self : Chart) (r : resolved) (colors traces : pyobj)
  : result pyobj :=
  if mem_str (r_type r) (OHLC_TRACES env) then
    trace <- py_getitem traces (r_type r) ;;
    trace <- py_setitem trace "x" (PIndex (index (df self))) ;;
    trace <- bind_column self trace "open" (op self) ;;
    trace <- bind_column self trace "high" (hi self) ;;
    trace <- bind_column self trace "low" (lo self) ;;
    trace <- bind_column self trace "close" (cl self) ;;
    trace <- py_setitem trace "name" (r_title r) ;;
    trace <- py_setitem trace "yaxis" (PStr "y1") ;;
    trace <- py_setitem trace "showlegend" (PBool false) ;;
    trace <- (if String.eqb (r_type r) "candlestick" then
                trace <- bind_color colors trace ["increasing"; "fillcolor"] "increasing" ;;
                trace <- bind_color colors trace ["increasing"; "line"; "color"] "border" ;;
                trace <- bind_color colors trace ["decreasing"; "fillcolor"] "decreasing" ;;
                bind_color colors trace ["decreasing"; "line"; "color"] "border"
              else ok trace) ;;
    if String.eqb (r_type r) "ohlc" then
      trace <- bind_color colors trace ["increasing"; "line"; "color"] "increasing" ;;
      bind_color colors trace ["decreasing"; "line"; "color"] "decreasing"
    else ok trace
  else if contains "line" (r_type r) then
    trace <- close_trace self r traces ;;
    bind_color colors trace ["line"; "color"] "primary"
  else if contains "area" (r_type r) then
    trace <- close_trace self r traces ;;
    bind_color colors trace ["line"; "color"] "primary"
  else if contains "scatter" (r_type r) then
    trace <- close_trace self r traces ;;
    bind_color colors trace ["scatter"; "color"] "primary"
  else raise (Exception "Cannot plot this chart type '{0}'.").

(** Lines 542-558 and 597-612: the trace of one indicator on axis [yaxis]. *)
Definition indicator_trace (self : Chart) (colors traces : pyobj)
    (yaxis : string) (name : string) (i : Indicator) : result pyobj :=
  trace <- py_getitem traces (ind_type i) ;;
  trace <- py_setitem trace "x" (PIndex (index (ind self))) ;;
  y <- df_getitem (ind self) name ;;
  trace <- py_setitem trace "y" (PSeries y) ;;
  trace <- py_setitem trace "name" (PStr name) ;;
  trace <- py_setitem trace "yaxis" (PStr yaxis) ;;
  trace <- bind_color colors trace ["line"; "color"] (ind_color i) ;;
  if contains "area" (ind_type i) then
    match ind_fillcolor i with
    | Some key => bind_color colors trace ["fillcolor"] key
    | None => ok trace
    end
  else ok trace.

Definition primary_traces (self : Chart) (colors traces : pyobj)
  : result (list pyobj) :=
  traverse (fun e => indicator_trace self colors traces "y1" (fst e) (snd e))
           (pri self).

(** [self.df[name].values[i]] *)
Definition value_at (self : Chart) (name : string) (i : nat) : result num :=
  col <- df_getitem (df self) name ;;
  match nth_error col i with
  | Some x => ok x
  | None => raise out_of_range
  end.

(** [self.df[name][-1]] on a time-indexed column, and [.values[-1]]. *)
Definition last_value (self : Chart) (name : string) : result num :=
  col <- df_getitem (df self) name ;;
  match last_opt col with
  | Some x => ok x
  | None => raise out_of_range
  end.

(** Lines 570-579: one colour per bar, or one colour for all. *)
Definition volume_color (self : Chart) (r : resolved) (colors : pyobj)
  : result pyobj :=
  if mem_str (r_type r) (OHLC_TRACES env) && has_open self && has_close self then
    closes <- df_getitem (df self) (cl self) ;;
    cs <- traverse
            (fun p : nat * num =>
               o <- value_at self (op self) (fst p) ;;
               if nleb (of_int 0) (nsub (snd p) o)
               then py_getitem colors "increasing"
               else py_getitem colors "decreasing")
            (enumerate_from 0 closes) ;;
    ok (PList cs)
  else py_getitem colors "primary".

(** Lines 561-588: the volume bars. *)
Definition volume_trace (self : Chart) (r : resolved) (colors traces : pyobj)
  : result (list pyobj) :=
  if r_volume r then
    trace <- py_getitem traces "bar" ;;
    trace <- py_setitem trace "x" (PIndex (index (df self))) ;;
    trace <- bind_column self trace "y" (vo self) ;;
    trace <- py_setitem trace "name" (PStr "Volume") ;;
    trace <- py_setitem trace "yaxis" (PStr "y2") ;;
    trace <- py_setitem trace "showlegend" (PBool false) ;;
    color <- volume_color self r colors ;;
    trace <- (if String.eqb (r_type r) "candlestick" then
                trace <- py_setpath trace ["marker"; "color"] color ;;
                bind_color colors trace ["marker"; "line"; "color"] "border"
              else
                trace <- py_setpath trace ["marker"; "color"] color ;;
                py_setpath trace ["marker"; "line"; "color"] color) ;;
    ok [trace]
  else ok [].

(** Lines 591-594. *)
Definition delta (volume : bool) : nat := if volume then 1 else 0.

(** [len(self.sec) + delta]: the number of stacked sub-series. *)
Definition stacked (self : Chart) (volume : bool) : nat :=
  length (sec self) + delta volume.

(** Lines 597-612. *)
Definition secondary_traces (self : Chart) (r : resolved) (colors traces : pyobj)
  : result (list pyobj) :=
  traverse (fun p : nat * (string * Indicator) =>
              indicator_trace self colors traces
                ("y" ++ str_of_nat (fst p + delta (r_volume r) + 2))
                (fst (snd p)) (snd (snd p)))
           (enumerate_from 0 (sec self)).

(** A two-element list of float literals, e.g. [[0.30, 1.0]]. *)
Definition domain (a b : num) : pyobj := PList [PNum a; PNum b].

(** [layout[k] = copy.deepcopy(additions['yaxis'])] *)
Definition new_yaxis (additions layout : pyobj) (k : string) : result pyobj :=
  y <- py_getitem additions "yaxis" ;;
  py_setitem layout k y.

(** [print(line)] *)
Definition print (line : string) : M (list string) unit :=
  fun out => ((out ++ [line])%list, inr tt).

(** Lines 617-636: the axes and their domains. *)
Definition axis_layout (self : Chart) (r : resolved) (additions layout : pyobj)
  : M (list string) pyobj :=
  layout <~ liftM (x <- py_getitem additions "xaxis" ;;
                   py_setitem layout "xaxis" x) ;;
  layout <~ liftM (new_yaxis additions layout "yaxis") ;;
  if r_volume r || negb (Nat.eqb (length (sec self)) 0) then
    if Nat.eqb (stacked self (r_volume r)) 1 then
      liftM (layout <- new_yaxis additions layout "yaxis2" ;;
             layout <- py_setpath layout ["yaxis"; "domain"]
                         (domain (lit 30 2) (lit 10 1)) ;;
             py_setpath layout ["yaxis2"; "domain"]
               (domain (lit 0 1) (lit 25 2)))
    else if Nat.eqb (stacked self (r_volume r)) 2 then
      liftM (layout <- new_yaxis additions layout "yaxis2" ;;
             layout <- new_yaxis additions layout "yaxis3" ;;
             layout <- py_setpath layout ["yaxis"; "domain"]
                         (domain (lit 5 1) (lit 10 1)) ;;
             layout <- py_setpath layout ["yaxis2"; "domain"]
                         (domain (lit 25 2) (lit 45 2)) ;;
             py_setpath layout ["yaxis3"; "domain"]
               (domain (lit 0 1) (lit 20 2)))
    else
      print "Quantmod does not yet support plotting 3+ indicators." ~;;
      retM layout
  else retM layout.

(** Lines 639-640. *)
Definition margin_layout (layout : pyobj) : result pyobj :=
  title <- py_getitem layout "title" ;;
  has_title <- truthy title ;;
  if negb has_title then
    b <- py_getpath layout ["margin"; "b"] ;;
    py_setpath layout ["margin"; "t"] b
  else ok layout.

(** Lines 648-654. *)
Definition annotations_color (self : Chart) (r : resolved) (colors : pyobj)
  : result pyobj :=
  if mem_str (r_type r) (OHLC_TRACES env) then
    c <- last_value self (cl self) ;;
    o <- last_value self (op self) ;;
    if nleb (of_int 0) (nsub c o)
    then py_getitem colors "increasing"
    else py_getitem colors "decreasing"
  else py_getitem colors "primary".

(** Lines 656-668: the annotation of the last price, and the legend moved
    down by [0.03]. *)
Definition last_price_annotation (self : Chart) (color layout : pyobj)
  : result pyobj :=
  x <- py_getpath layout ["legend"; "x"] ;;
  xanchor <- py_getpath layout ["legend"; "xanchor"] ;;
  y <- py_getpath layout ["legend"; "y"] ;;
  yanchor <- py_getpath layout ["legend"; "yanchor"] ;;
  c <- last_value self (cl self) ;;
  let last_price :=
    PDict [("x", x); ("xanchor", xanchor); ("xref", PStr "paper");
           ("y", y); ("yanchor", yanchor); ("yref", PStr "paper");
           ("showarrow", PBool false);
           ("text", PStr ("Last " ++ format_price env c));
           ("font", PDict [("color", color)])] in
  anns <- py_getitem layout "annotations" ;;
  anns <- py_append anns last_price ;;
  layout <- py_setitem layout "annotations" anns ;;
  legend_y <- py_getpath layout ["legend"; "y"] ;;
  legend_y <- py_sub_float legend_y (lit 3 2) ;;
  py_setpath layout ["legend"; "y"] legend_y.

(** Lines 670-682: the annotation of the last volume, placed under the top
    of the domain of [yaxis2]. *)
Definition last_volume_annotation (self : Chart) (color layout : pyobj)
  : result pyobj :=
  x <- py_getpath layout ["legend"; "x"] ;;
  xanchor <- py_getpath layout ["legend"; "xanchor"] ;;
  dom <- py_getpath layout ["yaxis2"; "domain"] ;;
  top <- py_last dom ;;
  y <- py_sub_float top (lit 1 2) ;;
  yanchor <- py_getpath layout ["legend"; "yanchor"] ;;
  v <- last_value self (vo self) ;;
  let last_volume :=
    PDict [("x", x); ("xanchor", xanchor); ("xref", PStr "paper");
           ("y", y); ("yanchor", yanchor); ("yref", PStr "paper");
           ("showarrow", PBool false);
           ("text", PStr ("Volume " ++ format_volume env v));
           ("font", PDict [("color", color)])] in
  anns <- py_getitem layout "annotations" ;;
  anns <- py_append anns last_volume ;;
  py_setitem layout "annotations" anns.

(** Lines 643-682. *)
Definition subtitle_layout (self : Chart) (r : resolved) (colors layout : pyobj)
  : result pyobj :=
  showlegend <- py_getitem layout "showlegend" ;;
  shown <- truthy showlegend ;;
  if shown && r_subtitle r then
    present <- py_contains "annotations" layout ;;
    layout <- (if negb present then py_setitem layout "annotations" (PList [])
               else ok layout) ;;
    color <- annotations_color self r colors ;;
    layout <- last_price_annotation self color layout ;;
    if r_volume r then last_volume_annotation self color layout
    else ok layout
  else ok layout.

(** Lines 468-612: [data], in the order main trace, primary indicators,
    volume, secondary indicators. *)
Definition build_data (self : Chart) (r : resolved) (colors traces : pyobj)
  : result (list pyobj) :=
  main <- main_trace self r colors traces ;;
  primary <- primary_traces self colors traces ;;
  vol <- volume_trace self r colors traces ;;
  secondary <- secondary_traces self r colors traces ;;
  ok ([main] ++ primary ++ vol ++ secondary)%list.

(** [Chart.to_figure], lines 307-685.  The state is what the call has
    printed; the value is the figure [dict(data=data, layout=layout)]. *)
Definition to_figure (self : Chart) (a : figure_args) : M (list string) pyobj :=
  r <~ liftM (resolve_arguments self a) ;;
  template <~ liftM (load_template a r) ;;
  colors <~ liftM (py_getitem template "colors") ;;
  traces <~ liftM (py_getitem template "traces") ;;
  additions <~ liftM (py_getitem template "additions") ;;
  layout <~ liftM (py_getitem template "layout") ;;
  data <~ liftM (build_data self r colors traces) ;;
  layout <~ axis_layout self r additions layout ;;
  layout <~ liftM (margin_layout layout) ;;
  layout <~ liftM (subtitle_layout self r colors layout) ;;
  retM (PDict [("data", PList data); ("layout", layout)]).

(** The y-axes a layout declares: its keys [yaxis], [yaxis2], ... *)
Definition yaxes (layout : pyobj) : list string :=
  match layout with
  | PDict d => filter (String.prefix "yaxis") (keys d)
  | _ => []
  end.

(** Two layouts with the same y-axes: the same axis keys in the same order,
    and the same object under each. *)
Definition same_axes (layout layout' : pyobj) : Prop :=
  (forall k, String.prefix "yaxis" k = true ->
             py_getitem layout' k = py_getitem layout k) /\
  yaxes layout' = yaxes layout.

(** ** Presentation

    [plot] and [iplot] hand the figure to plotly.  The renderers, the
    offline flag of [tools] and the clock are collaborators; a call of a
    renderer is an effect, recorded in the order of the calls next to what
    has been printed. *)

(** A call of [pyo.plot] / [pyo.iplot] ([Offline]) or of [py.plot] /
    [py.iplot] ([Online]) with its arguments; [notebook] tells [iplot]
    from [plot]. *)
Inductive render_call : Type :=
| Offline (notebook : bool) (figure : pyobj) (filename : string)
          (show_link link_text : pyobj)
| Online (notebook : bool) (figure : pyobj) (filename : string).

Record Backend : Type := {
  (** [tools.is_offline()] *)
  is_offline : bool;
  (** [dt.datetime.now().strftime("%Y-%m-%d %H:%M:%S")] at the call *)
  now : string;
  (** what the renderer returns, or raises *)
  respond : render_call -> result pyobj
}.

Variable backend : Backend.

Record World : Type := {
  stdout : list string;
  rendered : list render_call
}.

(** A computation that only prints, run in the world. *)
Definition on_stdout {T : Type} (m : M (list string) T) : M World T :=
  fun w =>
    let (out, r) := m (stdout w) in
    ({| stdout := out; rendered := rendered w |}, r).

(** The call of a renderer. *)
Definition render (call : render_call) : M World pyobj :=
  fun w =>
    ({| stdout := stdout w; rendered := (rendered w ++ [call])%list |},
     respond backend call).

(** The body [plot] (lines 757-795) and [iplot] (lines 870-905) share: the
    two differ in the renderers they call and in nothing else. *)
Definition present (notebook : bool) (self : Chart) (a : figure_args)
    (filename online : pyobj) : M World pyobj :=
  figure <~ on_stdout (to_figure self a) ;;
  let filename1 := match filename with
                   | PNone => PStr ("Quantmod Chart " ++ now backend)
                   | f => f
                   end in
  let online1 := match online with PNone => PBool false | o => o end in
  name <~ match filename1 with
          | PStr s => retM s
          | _ => raiseM (TypeError "Invalid filename '{0}'. It should be string.")
          end ;;
  on <~ match online1 with
        | PBool b => retM b
        | _ => raiseM (TypeError "Invalid online '{0}'. It should be bool.")
        end ;;
  if is_offline backend && negb on then
    show_link <~ liftM (cfg <- get_config_file env ;;
                        py_getitem cfg "offline_show_link") ;;
    link_text <~ liftM (cfg <- get_config_file env ;;
                        py_getitem cfg "offline_link_text") ;;
    render (Offline notebook figure name show_link link_text)
  else render (Online notebook figure name).

(** [Chart.plot], lines 687-795. *)
Definition plot (self : Chart) (a : figure_args) (filename online : pyobj)
  : M World pyobj :=
  present false self a filename online.

(** [Chart.iplot], lines 797-905. *)
Definition iplot (self : Chart) (a : figure_args) (filename online : pyobj)
  : M World pyobj :=
  present true self a filename online.

(** What the source mapping of a successful construction is: the dict
    given, or what [factory.get_source] answers for the name given or for
    the configured default. *)
Definition resolved_source (src : src_arg) (m : list (string * string)) : Prop :=
  match src with
  | SrcNone =>
      exists cfg name,
        get_config_file env = inr cfg /\ py_getitem cfg "source" = inr name /\
        get_source env name = inr m
  | SrcName s => get_source env (PStr s) = inr m
  | SrcDict m0 => m = m0
  | SrcOther _ => False
  end.

(** The legend [to_figure] goes on with: [kwargs['showlegend']] if given,
    else [legend] (lines 380-381). *)
Definition given_legend (a : figure_args) : pyobj :=
  match assoc_get "showlegend" (kwargs a) with
  | Some v => v
  | None => arg_legend a
  end.

(** Every keyword is one of [VALID_FIGURE_KWARGS]. *)
Definition valid_kwargs (a : figure_args) : Prop :=
  Forall (fun k => mem_str k (VALID_FIGURE_KWARGS env) = true) (keys (kwargs a)).

(** The ten keys [__init__] reads from the source mapping, in the order of
    lines 126-135. *)
Definition source_keys : list string :=
  ["op"; "hi"; "lo"; "cl"; "aop"; "ahi"; "alo"; "acl"; "vo"; "di"].

(** The kind [to_figure] goes on with: [kwargs['kind']] if given, else
    [type] (lines 377-378). *)
Definition given_type (a : figure_args) : pyobj :=
  match assoc_get "kind" (kwargs a) with
  | Some v => v
  | None => arg_type a
  end.

End Embedding.

Arguments PNone {A}.
Arguments SrcNone {A}.

(** ** Two arithmetics

    [float64] is IEEE-754 binary64, the dtype of a price column, on the
    kernel's primitive floats.  [rational] is exact arithmetic on fractions
    with one not-a-number that absorbs every operation and is the quotient
    by zero. *)

(** [float(z)], exact for [|z| < 2^53] and rounded to nearest below [2^63]. *)
Definition float_of_Z (z : Z) : float :=
  match z with
  | Z0 => PrimFloat.of_uint63 0
  | Zpos _ => PrimFloat.of_uint63 (Uint63.of_Z z)
  | Zneg p => PrimFloat.opp (PrimFloat.of_uint63 (Uint63.of_Z (Zpos p)))
  end.

(** The float nearest to [m / 10^k]: the quotient of two exactly
    represented integers, correctly rounded. *)
Definition float_lit (m : Z) (k : nat) : float :=
  PrimFloat.div (float_of_Z m) (float_of_Z (10 ^ Z.of_nat k)).

Definition float64 : Arith := {|
  num := float;
  of_int := float_of_Z;
  lit := float_lit;
  nsub := PrimFloat.sub;
  nmul := PrimFloat.mul;
  ndiv := PrimFloat.div;
  neqb := PrimFloat.eqb;
  nleb := PrimFloat.leb;
  finite := fun x => negb (PrimFloat.is_nan x) && negb (PrimFloat.is_infinity x)
|}.

Module Rational.
Import QArith Qcanon.

Definition lift2 (f : Qc -> Qc -> Qc) (x y : option Qc) : option Qc :=
  match x, y with
  | Some p, Some q => Some (f p q)
  | _, _ => None
  end.

Definition div (x y : option Qc) : option Qc :=
  match x, y with
  | Some p, Some q => if Qeq_bool (this q) 0 then None else Some (p / q)%Qc
  | _, _ => None
  end.

Definition rel2 (f : Q -> Q -> bool) (x y : option Qc) : bool :=
  match x, y with
  | Some p, Some q => f (this p) (this q)
  | _, _ => false
  end.

Definition of_Z (z : Z) : option Qc := Some (Q2Qc (inject_Z z)).

Definition decimal (m : Z) (k : nat) : option Qc :=
  Some (Q2Qc (m # Pos.of_nat (10 ^ k))).

Definition is_number (x : option Qc) : bool :=
  match x with Some _ => true | None => false end.

End Rational.

Definition rational : Arith := {|
  num := option Qcanon.Qc;
  of_int := Rational.of_Z;
  lit := Rational.decimal;
  nsub := Rational.lift2 Qcanon.Qcminus;
  nmul := Rational.lift2 Qcanon.Qcmult;
  ndiv := Rational.div;
  neqb := Rational.rel2 QArith_base.Qeq_bool;
  nleb := Rational.rel2 QArith_base.Qle_bool;
  finite := Rational.is_number
|}.

(** ** A sample environment

    A vendor mapping, a configuration file and a template in the shape
    [to_figure] expects of [factory.get_template]: colours, one skeleton per
    trace kind, the axis skeletons and a layout that carries the title, the
    legend and the margins. *)

Module Sample.

Section Provider.

Context {A : Arith}.
Variables price_text volume_text : num -> string.

Definition yahoo : list (string * string) :=
  [("op", "Open"); ("hi", "High"); ("lo", "Low"); ("cl", "Close");
   ("aop", "Adj Open"); ("ahi", "Adj High"); ("alo", "Adj Low");
   ("acl", "Adj Close"); ("vo", "Volume"); ("di", "Dividend")].

Definition sources (name : pyobj) : result (list (string * string)) :=
  match name with
  | PStr "yahoo" => ok yahoo
  | PStr _ => raise (Exception "Invalid source.")
  | _ => raise (TypeError "Invalid source. It should be string.")
  end.

Definition colors : pyobj :=
  PDict [("increasing", PStr "#00CC00"); ("decreasing", PStr "#FF7700");
         ("border", PStr "#444444"); ("primary", PStr "#252585");
         ("secondary", PStr "#0044FF")].

Definition bars_skeleton (kind : string) : pyobj :=
  PDict [("type", PStr kind);
         ("increasing", PDict [("line", PDict [])]);
         ("decreasing", PDict [("line", PDict [])])].

Definition traces : pyobj :=
  PDict [("candlestick", bars_skeleton "candlestick");
         ("ohlc", bars_skeleton "ohlc");
         ("line", PDict [("type", PStr "scatter"); ("mode", PStr "lines");
                         ("line", PDict [])]);
         ("area", PDict [("type", PStr "scatter"); ("mode", PStr "lines");
                         ("fill", PStr "tozeroy"); ("line", PDict [])]);
         ("scatter", PDict [("type", PStr "scatter"); ("mode", PStr "markers");
                            ("scatter", PDict [])]);
         ("bar", PDict [("type", PStr "bar");
                        ("marker", PDict [("line", PDict [])])])].

Definition additions : pyobj :=
  PDict [("xaxis", PDict [("showgrid", PBool true)]);
         ("yaxis", PDict [("showgrid", PBool true); ("side", PStr "right")])].

(** The layout skeleton: the title as given, [showlegend] toggled by a
    bool [legend] argument. *)
Definition base_layout (kw : list (string * pyobj)) : pyobj :=
  let title := match assoc_get "title" kw with Some t => t | None => PStr "" end in
  let shown := match assoc_get "legend" kw with
               | Some (PBool b) => PBool b
               | _ => PBool true
               end in
  PDict [("title", title); ("showlegend", shown);
         ("legend", PDict [("x", PNum (lit 1 2)); ("xanchor", PStr "left");
                           ("y", PNum (lit 99 2)); ("yanchor", PStr "top")]);
         ("margin", PDict [("t", PNum (of_int 60)); ("b", PNum (of_int 30));
                           ("l", PNum (of_int 30)); ("r", PNum (of_int 30))])].

Definition template (kw : list (string * pyobj)) : result pyobj :=
  ok (PDict [("colors", colors); ("traces", traces);
             ("additions", additions); ("layout", base_layout kw)]).

Definition env : Env := {|
  get_config_file := ok (PDict [("source", PStr "yahoo")]);
  get_source := sources;
  get_template := template;
  VALID_FIGURE_KWARGS := ["kind"; "showlegend"; "figsize"];
  OHLC_TRACES := ["candlestick"; "ohlc"];
  format_price := price_text;
  format_volume := volume_text
|}.

Definition column (name : string) (cells : list Z) : string * list num :=
  (name, map of_int cells).

(** The chart [Chart(d, src='yahoo', ticker=t)] on a table with rows. *)
Definition chart_on (d : DataFrame) (t : pyobj) (secondary : list (string * Indicator))
  : Chart := {|
  df := d; ticker := t;
  start := match index d with t0 :: _ => PTime t0 | [] => PBool false end;
  end_ := match last_opt (index d) with Some t1 => PTime t1 | None => PBool false end;
  op := "Open"; hi := "High"; lo := "Low"; cl := "Close";
  aop := "Adj Open"; ahi := "Adj High"; alo := "Adj Low"; acl := "Adj Close";
  vo := "Volume"; di := "Dividend";
  ind := {| index := index d;
            columns := map (fun e => (fst e, map (fun _ => of_int 50) (index d)))
                           secondary |};
  pri := []; sec := secondary
|}.

Definition two_days : list Z := [1483315200; 1483401600]%Z.

(** The table of the end-to-end scenario: two rows of OHLCV. *)
Definition ohlcv : DataFrame := {|
  index := two_days;
  columns := [column "Open" [10; 11]%Z; column "High" [12; 12]%Z;
              column "Low" [9; 10]%Z; column "Close" [11; 10]%Z;
              column "Volume" [1000; 1500]%Z]
|}.

(** The same with an adjusted close that is half the close (a 2:1 split). *)
Definition ohlcv_adjusted : DataFrame := {|
  index := two_days;
  columns := columns ohlcv ++ [("Adj Close", [lit 55 1; of_int 5])]
|}.

(** The adjusted close equal to the close. *)
Definition ohlcv_unsplit : DataFrame := {|
  index := two_days;
  columns := columns ohlcv ++ [column "Adj Close" [11; 10]%Z]
|}.

Definition close_only : DataFrame := {|
  index := two_days;
  columns := [column "Close" [11; 10]%Z]
|}.

(** Four columns that all carry the label [Open]. *)
Definition four_opens : DataFrame := {|
  index := two_days;
  columns := [column "Open" [10; 11]%Z; column "Open" [12; 12]%Z;
              column "Open" [9; 10]%Z; column "Open" [11; 10]%Z]
|}.

(** Every column present, no row. *)
Definition no_rows : DataFrame := {|
  index := [];
  columns := [column "Open" []; column "High" []; column "Low" [];
              column "Close" []; column "Volume" []; column "Adj Close" []]
|}.

(** One row whose close and adjusted close are both zero. *)
Definition zero_close : DataFrame := {|
  index := [1483315200%Z];
  columns := [column "Open" [1]%Z; column "High" [1]%Z; column "Low" [1]%Z;
              column "Close" [0]%Z; column "Adj Close" [0]%Z]
|}.

Definition rsi (n : string) : string * Indicator :=
  ("RSI" ++ n,
   {| ind_type := "line"; ind_color := "secondary"; ind_fillcolor := None |}).

Definition no_args : figure_args := {|
  arg_type := PNone; arg_volume := PNone; arg_theme := PNone;
  arg_layout := PNone; arg_title := PNone; arg_subtitle := PNone;
  arg_hovermode := PNone; arg_legend := PNone; arg_annotations := PNone;
  arg_shapes := PNone; arg_dimensions := PNone; arg_width := PNone;
  arg_height := PNone; arg_margin := PNone; kwargs := []
|}.

(** [to_figure(type=t)] and [to_figure(subtitle=s)] *)
Definition with_type (t : string) : figure_args := {|
  arg_type := PStr t; arg_volume := PNone; arg_theme := PNone;
  arg_layout := PNone; arg_title := PNone; arg_subtitle := PNone;
  arg_hovermode := PNone; arg_legend := PNone; arg_annotations := PNone;
  arg_shapes := PNone; arg_dimensions := PNone; arg_width := PNone;
  arg_height := PNone; arg_margin := PNone; kwargs := []
|}.

Definition with_subtitle (s : bool) : figure_args := {|
  arg_type := PNone; arg_volume := PNone; arg_theme := PNone;
  arg_layout := PNone; arg_title := PNone; arg_subtitle := PBool s;
  arg_hovermode := PNone; arg_legend := PNone; arg_annotations := PNone;
  arg_shapes := PNone; arg_dimensions := PNone; arg_width := PNone;
  arg_height := PNone; arg_margin := PNone; kwargs := []
|}.

End Provider.

(** Decimal digits with a comma between groups of three. *)
Fixpoint group3 (rev_digits : list ascii) (n : nat) : list ascii :=
  match rev_digits with
  | [] => []
  | c :: rest =>
      match n, rest with
      | 2, _ :: _ => c :: ","%char :: group3 rest 0
      | _, _ => c :: group3 rest (S n)
      end
  end.

Definition thousands (n : BinNums.N) : string :=
  string_of_list_ascii
    (rev (group3 (rev (list_ascii_of_string
                         (NilZero.string_of_uint (BinNat.N.to_uint n)))) 0)).

(** [m * 2^e * scale] rounded to the nearest integer, ties to even. *)
Definition round_scaled (m e scale : Z) : Z :=
  if (0 <=? e)%Z then (scale * m * 2 ^ e)%Z
  else
    let den := (2 ^ (- e))%Z in
    let q := (scale * m / den)%Z in
    let r := (scale * m mod den)%Z in
    if (2 * r <? den)%Z then q
    else if (den <? 2 * r)%Z then (q + 1)%Z
    else if Z.even q then q else (q + 1)%Z.

Definition signed (neg : bool) (s : string) : string :=
  if neg then "-" ++ s else s.

Definition two_digits (n : Z) : string :=
  (if (n <? 10)%Z then "0" else "")
  ++ NilZero.string_of_uint (BinNat.N.to_uint (Z.to_N n)).

(** ['{0:,.02f}'.format(x)] for a float. *)
Definition price_text (x : float) : string :=
  match Prim2SF x with
  | S754_zero s => signed s "0.00"
  | S754_infinity s => signed s "inf"
  | S754_nan => "nan"
  | S754_finite s m e =>
      let n := round_scaled (Zpos m) e 100 in
      signed s (thousands (Z.to_N (n / 100)) ++ "." ++ two_digits (n mod 100))
  end.

(** ['{0:,}'.format(v)] for a volume, a whole number of shares ([int64]
    in the vendor's table). *)
Definition volume_text (x : float) : string :=
  match Prim2SF x with
  | S754_zero s => "0"
  | S754_infinity s => signed s "inf"
  | S754_nan => "nan"
  | S754_finite s m e => signed s (thousands (Z.to_N (round_scaled (Zpos m) e 1)))
  end.

(** The environment on [float64] cells. *)
Definition env64 : Env (A := float64) :=
  env (A := float64) price_text volume_text.

(** The environment on [rational] cells; its charts are not rendered. *)
Definition envQ : Env (A := rational) :=
  env (A := rational) (fun _ => "") (fun _ => "").

End Sample.

(** ** Sample charts

    Each is the chart [Chart(table, src='yahoo', ticker=...)] builds, with
    the secondary indicators [add_RSI] would register where given. *)

Module Cases.
Import Sample.

(** [src='yahoo'] written out as a dict. *)
Definition yahoo_src : src_arg (A := float64) := SrcDict yahoo.

Definition plain : Chart (A := float64) := chart_on ohlcv (PBool false) [].
Definition adjusted : Chart (A := float64) :=
  chart_on ohlcv_adjusted (PBool false) [].
Definition closes : Chart (A := float64) := chart_on close_only (PBool false) [].
Definition named : Chart (A := float64) := chart_on ohlcv (PStr "AAPL") [].
Definition repeated : Chart (A := float64) := chart_on four_opens (PBool false) [].
Definition rowless : Chart (A := float64) := chart_on no_rows (PBool false) [].
Definition worthless : Chart (A := float64) :=
  chart_on zero_close (PBool false) [].
Definition one_rsi : Chart (A := float64) :=
  chart_on ohlcv (PBool false) [rsi "14"].
Definition two_rsi : Chart (A := float64) :=
  chart_on ohlcv (PBool false) [rsi "14"; rsi "28"].
Definition unsplit : Chart (A := rational) :=
  chart_on ohlcv_unsplit (PBool false) [].

(** The figure of a call that returned one. *)
Definition figure_of {A : Arith} (r : list string * result pyobj) : pyobj :=
  match snd r with
  | inr fig => fig
  | inl _ => PNone
  end.

Definition plain_figure : pyobj (A := float64) :=
  figure_of (to_figure env64 plain no_args []).
Definition one_rsi_figure : pyobj (A := float64) :=
  figure_of (to_figure env64 one_rsi no_args []).
Definition two_rsi_figure : pyobj (A := float64) :=
  figure_of (to_figure env64 two_rsi (with_subtitle false) []).

End Cases.

(** ** Further sample inputs *)

Module Scenes.
Import Sample.

(** The sample environment with a configuration file that has the link
    settings of the offline renderer. *)
Definition desk : Env (A := float64) := {|
  get_config_file :=
    ok (PDict [("source", PStr "yahoo");
               ("offline_show_link", PBool false);
               ("offline_link_text", PStr "Export to plot.ly")]);
  get_source := get_source env64;
  get_template := get_template env64;
  VALID_FIGURE_KWARGS := VALID_FIGURE_KWARGS env64;
  OHLC_TRACES := OHLC_TRACES env64;
  format_price := format_price env64;
  format_volume := format_volume env64
|}.

(** A renderer that answers with the address of what it drew. *)
Definition answer (call : render_call (A := float64)) : result (pyobj (A := float64)) :=
  match call with
  | Offline _ _ name _ _ => ok (PStr ("file://" ++ name ++ ".html"))
  | Online _ _ name => ok (PStr ("https://plot.ly/~quantmod/" ++ name))
  end.

Definition offline : Backend (A := float64) :=
  {| is_offline := true; now := "2017-01-03 09:30:00"; respond := answer |}.

Definition signed_in : Backend (A := float64) :=
  {| is_offline := false; now := "2017-01-03 09:30:00"; respond := answer |}.

(** Nothing printed, nothing rendered. *)
Definition quiet : World (A := float64) := {| stdout := []; rendered := [] |}.

(** [to_figure(volume=v)], and [to_figure] with the keyword arguments
    [kw]. *)
Definition with_volume (v : pyobj (A := float64)) : figure_args := {|
  arg_type := PNone; arg_volume := v; arg_theme := PNone;
  arg_layout := PNone; arg_title := PNone; arg_subtitle := PNone;
  arg_hovermode := PNone; arg_legend := PNone; arg_annotations := PNone;
  arg_shapes := PNone; arg_dimensions := PNone; arg_width := PNone;
  arg_height := PNone; arg_margin := PNone; kwargs := []
|}.

Definition with_kwargs (kw : list (string * pyobj (A := float64))) : figure_args := {|
  arg_type := PNone; arg_volume := PNone; arg_theme := PNone;
  arg_layout := PNone; arg_title := PNone; arg_subtitle := PNone;
  arg_hovermode := PNone; arg_legend := PNone; arg_annotations := PNone;
  arg_shapes := PNone; arg_dimensions := PNone; arg_width := PNone;
  arg_height := PNone; arg_margin := PNone; kwargs := kw
|}.

(** [to_figure(title=t)] *)
Definition with_title (t : string) : figure_args (A := float64) := {|
  arg_type := PNone; arg_volume := PNone; arg_theme := PNone;
  arg_layout := PNone; arg_title := PStr t; arg_subtitle := PNone;
  arg_hovermode := PNone; arg_legend := PNone; arg_annotations := PNone;
  arg_shapes := PNone; arg_dimensions := PNone; arg_width := PNone;
  arg_height := PNone; arg_margin := PNone; kwargs := []
|}.

(** A table with a volume column only. *)
Definition volume_only : DataFrame (A := float64) := {|
  index := two_days;
  columns := [column "Volume" [1000; 1500]%Z]
|}.

Definition volumes : Chart (A := float64) := chart_on volume_only (PBool false) [].

(** The chart of the end-to-end scenario after [add_SMA] and [add_RSI]:
    one primary and one secondary indicator. *)
Definition studied : Chart (A := float64) := {|
  df := ohlcv; ticker := PBool false;
  start := PTime 1483315200; end_ := PTime 1483401600;
  op := "Open"; hi := "High"; lo := "Low"; cl := "Close";
  aop := "Adj Open"; ahi := "Adj High"; alo := "Adj Low"; acl := "Adj Close";
  vo := "Volume"; di := "Dividend";
  ind := {| index := two_days;
            columns := [column "SMA20" [10; 11]%Z; column "RSI14" [50; 50]%Z] |};
  pri := [("SMA20", {| ind_type := "line"; ind_color := "primary";
                       ind_fillcolor := None |})];
  sec := [rsi "14"]
|}.

Definition studied_figure : pyobj (A := float64) :=
  Cases.figure_of (to_figure env64 studied no_args []).

Definition titled_figure : pyobj (A := float64) :=
  Cases.figure_of (to_figure env64 Cases.plain (with_title "Apple") []).

Definition hidden_figure : pyobj (A := float64) :=
  Cases.figure_of (to_figure env64 Cases.plain (with_subtitle false) []).

Definition desk_figure : pyobj (A := float64) :=
  Cases.figure_of (to_figure desk Cases.plain no_args []).

End Scenes.

(** * Properties *)

(** ** The monads *)

Lemma bind_inr {A B : Type} (m : result A) (k : A -> result B) (b : B) :
  bind m k = inr b -> exists a, m = inr a /\ k a = inr b.
Proof.
  destruct m as [e | a]; simpl; intros H.
  - discriminate.
  - exists a. split; [reflexivity | exact H].
Qed.

Lemma bindM_inr {S A B : Type} (m : M S A) (k : A -> M S B) (s s' : S) (b : B) :
  bindM m k s = (s', inr b) ->
  exists a s1, m s = (s1, inr a) /\ k a s1 = (s', inr b).
Proof.
  unfold bindM. destruct (m s) as [s1 [e | a]]; intros H.
  - inversion H.
  - exists a, s1. split; [reflexivity | exact H].
Qed.

Lemma liftM_inr {S A : Type} (r : result A) (s s' : S) (a : A) :
  liftM r s = (s', inr a) -> s' = s /\ r = inr a.
Proof.
  unfold liftM. intros H. inversion H. split; reflexivity.
Qed.

(** Splits a hypothesis [x <- m ;; k = inr b] into its two steps. *)
Tactic Notation "bind_inv" hyp(H) "as" ident(x) ident(Hx) :=
  apply bind_inr in H; destruct H as [x [Hx H]].

Tactic Notation "bindM_inv" hyp(H) "as" ident(x) ident(s) ident(Hx) :=
  apply bindM_inr in H; destruct H as [x [s [Hx H]]].

(** ** Strings, association lists *)

Lemma mem_str_In (x : string) (l : list string) :
  mem_str x l = true <-> In x l.
Proof.
  unfold mem_str. rewrite existsb_exists. split.
  - intros [y [Hy Heq]]. apply String.eqb_eq in Heq. subst y. exact Hy.
  - intros Hx. exists x. split; [exact Hx | apply String.eqb_refl].
Qed.

Lemma mem_str_false (x : string) (l : list string) :
  mem_str x l = false <-> ~ In x l.
Proof.
  rewrite <- mem_str_In. destruct (mem_str x l); split; intros H;
    try reflexivity; try discriminate; try (intro; discriminate).
  exfalso. apply H. reflexivity.
Qed.

Lemma assoc_get_In {V : Type} (k : string) (d : list (string * V)) :
  In k (keys d) <-> exists v, assoc_get k d = Some v.
Proof.
  induction d as [| [k' v'] d IH]; simpl.
  - split; [intros [] | intros [v Hv]; discriminate].
  - destruct (String.eqb_spec k k') as [-> | Hne].
    + split; [intros _; exists v'; reflexivity | intros _; left; reflexivity].
    + rewrite <- IH. split.
      * intros [Heq | Hin]; [congruence | exact Hin].
      * intros Hin. right. exact Hin.
Qed.

Lemma assoc_get_set_same {V : Type} (k : string) (v : V) (d : list (string * V)) :
  assoc_get k (assoc_set k v d) = Some v.
Proof.
  induction d as [| [k' v'] d IH]; simpl.
  - rewrite String.eqb_refl. reflexivity.
  - destruct (String.eqb_spec k k') as [-> | Hne]; simpl.
    + rewrite String.eqb_refl. reflexivity.
    + destruct (String.eqb_spec k k'); [contradiction | exact IH].
Qed.

Lemma assoc_get_set_other {V : Type} (k k' : string) (v : V)
    (d : list (string * V)) :
  k <> k' -> assoc_get k (assoc_set k' v d) = assoc_get k d.
Proof.
  intros Hne. induction d as [| [k0 v0] d IH]; simpl.
  - destruct (String.eqb_spec k k'); [contradiction | reflexivity].
  - destruct (String.eqb_spec k' k0) as [-> | Hne0]; simpl.
    + destruct (String.eqb_spec k k0); [contradiction | reflexivity].
    + destruct (String.eqb_spec k k0); [reflexivity | exact IH].
Qed.

(** Writing back the value a key already has changes nothing. *)
Lemma assoc_set_get {V : Type} (k : string) (v : V) (d : list (string * V)) :
  assoc_get k d = Some v -> assoc_set k v d = d.
Proof.
  induction d as [| [k0 v0] d IH]; simpl.
  - discriminate.
  - destruct (String.eqb_spec k k0) as [-> | Hne].
    + intros H. inversion H. reflexivity.
    + intros H. rewrite (IH H). reflexivity.
Qed.

(** An update of a present key keeps the keys; of an absent key, appends it. *)
Lemma keys_assoc_set {V : Type} (k : string) (v : V) (d : list (string * V)) :
  keys (assoc_set k v d) = if mem_str k (keys d) then keys d else (keys d ++ [k])%list.
Proof.
  unfold keys, mem_str. induction d as [| [k0 v0] d IH]; simpl.
  - reflexivity.
  - destruct (String.eqb_spec k k0) as [-> | Hne]; simpl.
    + reflexivity.
    + rewrite IH. destruct (existsb (String.eqb k) (map fst d)); reflexivity.
Qed.

(** ** Counting labels *)

Lemma sum_bool_isin (lbls cols : list string) :
  sum_bool (isin lbls cols) = length (filter (fun c => mem_str c cols) lbls).
Proof.
  unfold sum_bool, isin. induction lbls as [| l lbls IH]; simpl.
  - reflexivity.
  - rewrite IH. destruct (mem_str l cols); reflexivity.
Qed.

Lemma filter_length_le {T : Type} (f : T -> bool) (l : list T) :
  length (filter f l) <= length l.
Proof.
  induction l as [| x l IH]; simpl.
  - lia.
  - destruct (f x); simpl; lia.
Qed.

Lemma filter_length_all {T : Type} (f : T -> bool) (l : list T) :
  length l <= length (filter f l) -> forall x, In x l -> f x = true.
Proof.
  induction l as [| y l IH]; simpl.
  - intros _ x [].
  - destruct (f y) eqn:Hy; simpl; intros Hlen x [Hx | Hx].
    + subst x. exact Hy.
    + apply IH; [lia | exact Hx].
    + pose proof (filter_length_le f l). lia.
    + pose proof (filter_length_le f l). lia.
Qed.

(** With distinct labels, the count reaches the size of the set only when
    every member of the set is a label. *)
Lemma count_reaches_members (lbls cols : list string) :
  NoDup lbls ->
  length cols <= sum_bool (isin lbls cols) ->
  forall c, In c cols -> In c lbls.
Proof.
  intros Hnd Hlen c Hc.
  rewrite sum_bool_isin in Hlen.
  assert (Hincl : incl (filter (fun l => mem_str l cols) lbls)
                       (filter (fun c => mem_str c lbls) cols)).
  { intros x Hx. apply filter_In in Hx. destruct Hx as [H1 H2].
    apply filter_In. split.
    - apply mem_str_In. exact H2.
    - apply mem_str_In. exact H1. }
  pose proof (NoDup_incl_length (NoDup_filter _ Hnd) Hincl) as Hle.
  apply mem_str_In.
  apply (filter_length_all (fun c => mem_str c lbls) cols); [lia | exact Hc].
Qed.

(** Conversely the count reaches the size of a duplicate-free set whose
    members are all labels, whatever the labels. *)
Lemma members_reach_count (lbls cols : list string) :
  NoDup cols ->
  (forall c, In c cols -> In c lbls) ->
  length cols <= sum_bool (isin lbls cols).
Proof.
  intros Hnd Hall. rewrite sum_bool_isin.
  apply NoDup_incl_length; [exact Hnd |].
  intros x Hx. apply filter_In. split.
  - apply Hall. exact Hx.
  - apply mem_str_In. exact Hx.
Qed.

Section Properties.

Context {A : Arith}.
Variable env : Env.

(** On a table with distinct labels [has_OHLC] is the conjunction of the
    four single-column properties. *)
Lemma has_OHLC_distinct_labels (self : Chart) :
  NoDup (labels (df self)) ->
  has_OHLC self = true <->
  has_open self = true /\ has_high self = true /\
  has_low self = true /\ has_close self = true.
Proof.
  intros Hnd. unfold has_OHLC, has_open, has_high, has_low, has_close, py_set.
  rewrite Nat.leb_le. repeat rewrite mem_str_In. split.
  - intros Hlen.
    pose proof (count_reaches_members _ Hnd Hlen) as Hall.
    repeat split; apply Hall; apply nodup_In; simpl; auto.
  - intros [Ho [Hh [Hl Hc]]].
    apply members_reach_count; [apply NoDup_nodup |].
    intros c Hin. apply nodup_In in Hin. simpl in Hin.
    destruct Hin as [<- | [<- | [<- | [<- | []]]]]; assumption.
Qed.

Lemma has_OHLCV_distinct_labels (self : Chart) :
  NoDup (labels (df self)) ->
  has_OHLCV self = true <->
  has_OHLC self = true /\ has_volume self = true.
Proof.
  intros Hnd. rewrite (has_OHLC_distinct_labels self Hnd).
  unfold has_OHLCV, has_open, has_high, has_low, has_close, has_volume, py_set.
  rewrite Nat.leb_le. repeat rewrite mem_str_In. split.
  - intros Hlen.
    pose proof (count_reaches_members _ Hnd Hlen) as Hall.
    repeat split; apply Hall; apply nodup_In; simpl; auto 6.
  - intros [[Ho [Hh [Hl Hc]]] Hv].
    apply members_reach_count; [apply NoDup_nodup |].
    intros c Hin. apply nodup_In in Hin. simpl in Hin.
    destruct Hin as [<- | [<- | [<- | [<- | [<- | []]]]]]; assumption.
Qed.

(** ** Selecting and assigning columns *)

Lemma df_getitem_present (d : DataFrame) (name : string) :
  mem_str name (labels d) = true -> exists col, df_getitem d name = inr col.
Proof.
  intros H. apply mem_str_In in H. apply assoc_get_In in H.
  destruct H as [v Hv]. exists v. unfold df_getitem. rewrite Hv. reflexivity.
Qed.

Lemma df_getitem_absent (d : DataFrame) (name : string) :
  mem_str name (labels d) = false -> df_getitem d name = inl (KeyError name).
Proof.
  intros H. unfold df_getitem.
  destruct (assoc_get name (columns d)) as [v |] eqn:Hv; [| reflexivity].
  apply mem_str_false in H. exfalso. apply H.
  apply assoc_get_In. exists v. exact Hv.
Qed.

Lemma df_getitem_labels (d : DataFrame) (name : string) (col : list num) :
  df_getitem d name = inr col -> mem_str name (labels d) = true.
Proof.
  unfold df_getitem. intros H.
  destruct (assoc_get name (columns d)) as [v |] eqn:Hv; [| discriminate].
  apply mem_str_In. apply assoc_get_In. exists v. exact Hv.
Qed.

Lemma df_getitem_setitem (d : DataFrame) (k n : string) (v : list num) :
  df_getitem (df_setitem d k v) n =
  if String.eqb n k then inr v else df_getitem d n.
Proof.
  unfold df_getitem, df_setitem. simpl.
  destruct (String.eqb_spec n k) as [-> | Hne].
  - rewrite assoc_get_set_same. reflexivity.
  - rewrite (assoc_get_set_other v (columns d) Hne). reflexivity.
Qed.

Lemma labels_df_setitem (d : DataFrame) (k : string) (v : list num) :
  mem_str k (labels d) = true -> labels (df_setitem d k v) = labels d.
Proof.
  intros H. unfold labels, df_setitem. simpl.
  rewrite keys_assoc_set. unfold labels in H. rewrite H. reflexivity.
Qed.

Lemma df_setitem_same (d : DataFrame) (k : string) (v : list num) :
  df_getitem d k = inr v -> df_setitem d k v = d.
Proof.
  unfold df_getitem, df_setitem. intros H.
  destruct (assoc_get k (columns d)) as [w |] eqn:Hw; [| discriminate].
  inversion H. subst w. rewrite (assoc_set_get _ _ Hw).
  destruct d. reflexivity.
Qed.

Lemma assoc_get_Some_In {V : Type} (k : string) (v : V) (d : list (string * V)) :
  assoc_get k d = Some v -> In (k, v) d.
Proof.
  induction d as [| [k0 v0] d IH]; simpl.
  - discriminate.
  - destruct (String.eqb_spec k k0) as [-> | Hne].
    + intros H. inversion H. left. reflexivity.
    + intros H. right. apply IH. exact H.
Qed.

Lemma wf_column_length (d : DataFrame) (name : string) (col : list num) :
  wf_DataFrame d -> df_getitem d name = inr col ->
  length col = length (index d).
Proof.
  unfold wf_DataFrame, df_getitem. intros Hwf H.
  destruct (assoc_get name (columns d)) as [v |] eqn:Hv; [| discriminate].
  inversion H. subst v.
  apply assoc_get_Some_In in Hv.
  rewrite Forall_forall in Hwf. apply (Hwf _ Hv).
Qed.

Lemma set_df_same (self : Chart) : set_df self (df self) = self.
Proof. destruct self. reflexivity. Qed.

(** ** The constructor *)

Lemma check_boundary_rejects (v : pyobj) (default : result pyobj) :
  v <> PNone -> is_str v = false -> py_eq_False v <> ok true ->
  exists x, check_boundary v default = inl x.
Proof.
  intros Hnone Hstr Hfalse. unfold check_boundary.
  destruct v; try contradiction; simpl in *;
    try discriminate;
    try (eexists; reflexivity).
  - destruct b; [eexists; reflexivity | exfalso; apply Hfalse; reflexivity].
  - destruct (z =? 0)%Z; [exfalso; apply Hfalse; reflexivity | eexists; reflexivity].
  - destruct (neqb x (of_int 0));
      [exfalso; apply Hfalse; reflexivity | eexists; reflexivity].
Qed.

(** The constructor reads the table only through its index. *)
Lemma Chart_init_same_index (d d' : DataFrame) (src : src_arg)
    (tk s e : pyobj) (c : Chart) :
  index d' = index d ->
  Chart_init env d src tk s e = inr c ->
  Chart_init env d' src tk s e = inr (set_df c d').
Proof.
  intros Hidx. unfold Chart_init. rewrite Hidx.
  repeat match goal with
         | |- bind ?m _ = inr _ -> _ =>
             destruct m; simpl; [intros ?; discriminate |]
         end.
  intros H. inversion H. unfold set_df. simpl. reflexivity.
Qed.

Lemma Chart_init_df (d : DataFrame) (src : src_arg) (tk s e : pyobj) (c : Chart) :
  Chart_init env d src tk s e = inr c -> df c = d.
Proof.
  unfold Chart_init.
  repeat match goal with
         | |- bind ?m _ = inr _ -> _ =>
             destruct m; simpl; [intros ?; discriminate |]
         end.
  intros H. inversion H. reflexivity.
Qed.

(** ** The guards of the adjustment *)

Lemma adjust_guard_raises (self : Chart) (inplace : bool) :
  has_OHLC self = false -> has_adjusted_close self = true ->
  adjust env inplace self = (self, inl insufficient_OHLC).
Proof.
  intros H1 H2. unfold adjust, bindM, getM. rewrite H1, H2. reflexivity.
Qed.

(** Without an adjusted close the guard of [adjust] lets the call through,
    whatever the other columns; the selection of the column raises. *)
Lemma adjust_without_adjusted_close (self : Chart) (inplace : bool) :
  has_close self = true -> has_adjusted_close self = false ->
  adjust env inplace self = (self, inl (KeyError (acl self))).
Proof.
  intros Hc Ha. unfold adjust, bindM, getM. rewrite Ha, andb_false_r.
  unfold liftM, ratio_of.
  destruct (df_getitem_present _ _ Hc) as [col Hcol]. rewrite Hcol.
  rewrite (df_getitem_absent _ _ Ha). reflexivity.
Qed.

Lemma adjust_volume_guard_raises (self : Chart) (inplace : bool) :
  has_volume self = false -> has_close self = true ->
  has_adjusted_close self = true ->
  adjust_volume env inplace self = (self, inl insufficient_volume).
Proof.
  intros H1 H2 H3. unfold adjust_volume, bindM, getM.
  rewrite H1, H2, H3. reflexivity.
Qed.

Lemma adjust_volume_without_adjusted_close (self : Chart) (inplace : bool) :
  has_close self = true -> has_adjusted_close self = false ->
  adjust_volume env inplace self = (self, inl (KeyError (acl self))).
Proof.
  intros Hc Ha. unfold adjust_volume, bindM, getM. rewrite Ha, andb_false_r.
  unfold liftM, ratio_of.
  destruct (df_getitem_present _ _ Hc) as [col Hcol]. rewrite Hcol.
  rewrite (df_getitem_absent _ _ Ha). reflexivity.
Qed.

(** C10. A [Chart] cannot be constructed with a [start] or an [end] that is
    a datetime, or any other value that is neither [None], nor a string, nor
    equal to [False]: whatever the other arguments, the constructor raises
    an exception instead of returning a [Chart]. *)
Theorem Chart_init_rejects_datetime (d : DataFrame) (src : src_arg)
    (tk s e : pyobj) :
  rejected_boundary s \/ rejected_boundary e ->
  exists x, Chart_init env d src tk s e = inl x.
Proof.
  intros H. unfold Chart_init.
  match goal with
  | |- exists x, bind ?m _ = inl x =>
      destruct m as [x0 | m0]; simpl; [exists x0; reflexivity |]
  end.
  match goal with
  | |- exists x, bind ?m _ = inl x =>
      destruct m as [x1 | tk1]; simpl; [exists x1; reflexivity |]
  end.
  destruct H as [[Hn [Hs Hf]] | [Hn [Hs Hf]]].
  - match goal with
    | |- exists x, bind (check_boundary s ?dflt) _ = inl x =>
        destruct (check_boundary_rejects dflt Hn Hs Hf) as [x2 Hx2]
    end.
    rewrite Hx2. exists x2. reflexivity.
  - match goal with
    | |- exists x, bind ?m _ = inl x =>
        destruct m as [x2 | s1]; simpl; [exists x2; reflexivity |]
    end.
    match goal with
    | |- exists x, bind (check_boundary e ?dflt) _ = inl x =>
        destruct (check_boundary_rejects dflt Hn Hs Hf) as [x3 Hx3]
    end.
    rewrite Hx3. exists x3. reflexivity.
Qed.

(** With a source and a ticker the constructor accepts, a datetime [start]
    is answered by the [AttributeError] of the misspelt [dt.dateime]. *)
Lemma Chart_init_datetime_start (d : DataFrame) (m : list (string * string))
    (t : Z) (e : pyobj) :
  Chart_init env d (SrcDict m) PNone (PTime t) e =
  inl (AttributeError "module 'datetime' has no attribute 'dateime'").
Proof. reflexivity. Qed.

(** ** The copy path of the adjustment *)

Lemma divide_into_inr (self : Chart) (d2 : DataFrame) (name : string)
    (ratio col : list num) :
  df_getitem (df self) name = inr col ->
  divide_into self d2 name ratio = inr (df_setitem d2 name (series_div col ratio)).
Proof. intros H. unfold divide_into. rewrite H. reflexivity. Qed.

(** On the copy path neither method writes to the receiver, also when it
    raises. *)
Lemma adjust_copy_path_state (self : Chart) :
  fst (adjust env false self) = self /\ fst (adjust_volume env false self) = self.
Proof.
  unfold adjust, adjust_volume, bindM, getM, liftM, raiseM, retM. split.
  - destruct (negb (has_OHLC self) && has_adjusted_close self); [reflexivity |].
    destruct (ratio_of self) as [x | ratio]; [reflexivity |].
    destruct (adjust_copy self ratio) as [x | d2]; [reflexivity |].
    destruct (Chart_init env d2 SrcNone PNone PNone PNone); reflexivity.
  - destruct (negb (has_volume self) && has_close self && has_adjusted_close self);
      [reflexivity |].
    destruct (ratio_of self) as [x | ratio]; [reflexivity |].
    destruct (divide_into self (df self) (vo self) ratio) as [x | d2];
      [reflexivity |].
    destruct (Chart_init env d2 SrcNone PNone PNone PNone); reflexivity.
Qed.

Lemma ratio_of_inr (self : Chart) :
  has_close self = true -> has_adjusted_close self = true ->
  exists c a, df_getitem (df self) (cl self) = inr c /\
              df_getitem (df self) (acl self) = inr a /\
              ratio_of self = inr (series_div c a).
Proof.
  intros Hc Ha.
  destruct (df_getitem_present _ _ Hc) as [c Hcol].
  destruct (df_getitem_present _ _ Ha) as [a Hacl].
  exists c, a. unfold ratio_of. rewrite Hcol, Hacl. repeat split; reflexivity.
Qed.

(** C8 (amended). On a table with distinct labels from which a [Chart] can
    be constructed with the default arguments (the table has a row and the
    default source resolves), [adjust] and [adjust_volume] with
    [inplace=False], under their preconditions, return a new [Chart] of the
    default source that wraps a copy of the table in which the adjusted
    columns are the original ones divided by the ratio and every other
    column, the labels and the index are the original ones; and on every
    call of the copy path, also a raising one, the receiver is unchanged. *)
Theorem adjust_copy_path (self c0 : Chart) :
  NoDup (labels (df self)) ->
  Chart_init env (df self) SrcNone PNone PNone PNone = inr c0 ->
  (has_OHLC self = true -> has_adjusted_close self = true ->
   exists ratio d2,
     ratio_of self = inr ratio /\
     adjust env false self = (self, inr (Some (set_df c0 d2))) /\
     index d2 = index (df self) /\ labels d2 = labels (df self) /\
     (forall name col,
        In name [op self; hi self; lo self; cl self] ->
        df_getitem (df self) name = inr col ->
        df_getitem d2 name = inr (series_div col ratio)) /\
     (forall name,
        ~ In name [op self; hi self; lo self; cl self] ->
        df_getitem d2 name = df_getitem (df self) name)) /\
  (has_volume self = true -> has_close self = true ->
   has_adjusted_close self = true ->
   exists ratio d2,
     ratio_of self = inr ratio /\
     adjust_volume env false self = (self, inr (Some (set_df c0 d2))) /\
     index d2 = index (df self) /\ labels d2 = labels (df self) /\
     (forall col,
        df_getitem (df self) (vo self) = inr col ->
        df_getitem d2 (vo self) = inr (series_div col ratio)) /\
     (forall name,
        name <> vo self ->
        df_getitem d2 name = df_getitem (df self) name)) /\
  fst (adjust env false self) = self /\
  fst (adjust_volume env false self) = self.
Proof.
  intros Hnd Hinit. split; [| split; [| apply adjust_copy_path_state]].
  - intros Hohlc Hacl.
    apply (has_OHLC_distinct_labels self Hnd) in Hohlc.
    destruct Hohlc as [Ho [Hh [Hl Hc]]].
    destruct (ratio_of_inr self Hc Hacl) as [c [a [Hcc [Haa Hr]]]].
    destruct (df_getitem_present _ _ Ho) as [co Hco].
    destruct (df_getitem_present _ _ Hh) as [ch Hch].
    destruct (df_getitem_present _ _ Hl) as [cw Hcw].
    set (ratio := series_div c a) in *.
    set (d2 := df_setitem
                 (df_setitem
                    (df_setitem
                       (df_setitem (df self) (op self) (series_div co ratio))
                       (hi self) (series_div ch ratio))
                    (lo self) (series_div cw ratio))
                 (cl self) (series_div c ratio)).
    assert (Hcopy : adjust_copy self ratio = inr d2).
    { unfold adjust_copy.
      rewrite (@divide_into_inr self _ _ ratio _ Hco). simpl.
      rewrite (@divide_into_inr self _ _ ratio _ Hch). simpl.
      rewrite (@divide_into_inr self _ _ ratio _ Hcw). simpl.
      rewrite (@divide_into_inr self _ _ ratio _ Hcc). reflexivity. }
    assert (Hlabels : labels d2 = labels (df self)).
    { unfold d2.
      assert (L1 : labels (df_setitem (df self) (op self) (series_div co ratio))
                   = labels (df self)) by (apply labels_df_setitem; exact Ho).
      assert (L2 : labels (df_setitem
                             (df_setitem (df self) (op self) (series_div co ratio))
                             (hi self) (series_div ch ratio))
                   = labels (df self))
        by (rewrite labels_df_setitem; [exact L1 | rewrite L1; exact Hh]).
      rewrite labels_df_setitem.
      - rewrite labels_df_setitem; [exact L2 | rewrite L2; exact Hl].
      - rewrite labels_df_setitem; [rewrite L2; exact Hc | rewrite L2; exact Hl]. }
    exists ratio, d2. split; [exact Hr |]. split; [| split; [| split; [| split]]].
    + unfold adjust, bindM, getM, liftM, retM.
      rewrite Hacl, andb_true_r.
      assert (Hg : has_OHLC self = true)
        by (apply (has_OHLC_distinct_labels self Hnd); auto).
      rewrite Hg. simpl. rewrite Hr, Hcopy.
      rewrite (@Chart_init_same_index (df self) d2 SrcNone PNone PNone PNone
                 c0 eq_refl Hinit).
      reflexivity.
    + reflexivity.
    + exact Hlabels.
    + intros name col Hin Hcol. unfold d2.
      repeat rewrite df_getitem_setitem.
      destruct (String.eqb_spec name (cl self)) as [-> | N1].
      { rewrite Hcc in Hcol. inversion Hcol. reflexivity. }
      destruct (String.eqb_spec name (lo self)) as [-> | N2].
      { rewrite Hcw in Hcol. inversion Hcol. reflexivity. }
      destruct (String.eqb_spec name (hi self)) as [-> | N3].
      { rewrite Hch in Hcol. inversion Hcol. reflexivity. }
      destruct (String.eqb_spec name (op self)) as [-> | N4].
      { rewrite Hco in Hcol. inversion Hcol. reflexivity. }
      simpl in Hin. exfalso. intuition congruence.
    + intros name Hnot. unfold d2. simpl in Hnot.
      repeat rewrite df_getitem_setitem.
      destruct (String.eqb_spec name (cl self)); [exfalso; intuition congruence |].
      destruct (String.eqb_spec name (lo self)); [exfalso; intuition congruence |].
      destruct (String.eqb_spec name (hi self)); [exfalso; intuition congruence |].
      destruct (String.eqb_spec name (op self)); [exfalso; intuition congruence |].
      reflexivity.
  - intros Hv Hc Hacl.
    destruct (ratio_of_inr self Hc Hacl) as [c [a [Hcc [Haa Hr]]]].
    destruct (df_getitem_present _ _ Hv) as [cv Hcv].
    set (ratio := series_div c a) in *.
    exists ratio, (df_setitem (df self) (vo self) (series_div cv ratio)).
    split; [exact Hr |]. split; [| split; [| split; [| split]]].
    + unfold adjust_volume, bindM, getM, liftM, retM.
      rewrite Hv, Hc, Hacl. simpl. rewrite Hr.
      rewrite (@divide_into_inr self _ _ ratio _ Hcv).
      rewrite (@Chart_init_same_index
                 (df self)
                 (df_setitem (df self) (vo self) (series_div cv ratio))
                 SrcNone PNone PNone PNone c0 eq_refl Hinit).
      reflexivity.
    + reflexivity.
    + apply labels_df_setitem. exact Hv.
    + intros col Hcol. rewrite df_getitem_setitem, String.eqb_refl.
      rewrite Hcv in Hcol. inversion Hcol. reflexivity.
    + intros name Hne. rewrite df_getitem_setitem.
      destruct (String.eqb_spec name (vo self)); [contradiction | reflexivity].
Qed.

(** ** A ratio of one *)

Lemma series_div_self (L : ArithLaws A) (col : list num) :
  Forall (fun x => regular x = true) col ->
  series_div col col = map (fun _ => of_int 1) col.
Proof.
  unfold series_div. induction 1 as [| x col Hx _ IH]; simpl.
  - reflexivity.
  - rewrite (ndiv_self x Hx). f_equal. exact IH.
Qed.

Lemma series_div_ones (L : ArithLaws A) (col : list num) :
  forall r : list num,
    length col = length r ->
    series_div col (map (fun _ => of_int 1) r) = col.
Proof.
  unfold series_div. induction col as [| x col IH]; intros [| y r] Hlen;
    simpl in *; try discriminate; try reflexivity.
  rewrite ndiv_one. f_equal. apply IH. lia.
Qed.

Lemma divide_inplace_same (self : Chart) (name : string) (ratio col : list num) :
  df_getitem (df self) name = inr col ->
  series_div col ratio = col ->
  divide_inplace name ratio self = (self, inr tt).
Proof.
  intros Hcol Hdiv. unfold divide_inplace, bindM, getM, liftM, putM.
  rewrite Hcol, Hdiv, (@df_setitem_same _ _ _ Hcol), set_df_same. reflexivity.
Qed.

(** C9 (amended). On a well-formed table with distinct labels that has the
    four OHLC columns and an adjusted-close column equal to the close column,
    every close being finite and not zero, [adjust] leaves the table as it
    is, in an arithmetic where [x / x] is one for such an [x] and [x / 1] is
    [x]: in place the receiver is unchanged, and the copy path constructs
    the new [Chart] on a table equal to the original. *)
Theorem adjust_close_equal_adjusted_close (L : ArithLaws A) (self : Chart)
    (col : list num) :
  wf_DataFrame (df self) ->
  NoDup (labels (df self)) ->
  has_OHLC self = true ->
  df_getitem (df self) (cl self) = inr col ->
  df_getitem (df self) (acl self) = inr col ->
  Forall (fun x => regular x = true) col ->
  adjust env true self = (self, inr None) /\
  adjust env false self =
    (self, c <- Chart_init env (df self) SrcNone PNone PNone PNone ;; ok (Some c)).
Proof.
  intros Hwf Hnd Hohlc Hcl Hacl Hreg.
  pose proof Hohlc as Hcols.
  apply (has_OHLC_distinct_labels self Hnd) in Hcols.
  destruct Hcols as [Ho [Hh [Hl _]]].
  destruct (df_getitem_present _ _ Ho) as [co Hco].
  destruct (df_getitem_present _ _ Hh) as [ch Hch].
  destruct (df_getitem_present _ _ Hl) as [cw Hcw].
  set (ones := map (fun _ : num => of_int 1) col).
  assert (Hr : ratio_of self = inr ones).
  { unfold ratio_of. rewrite Hcl, Hacl. simpl.
    rewrite (@series_div_self L _ Hreg). reflexivity. }
  assert (Hsame : forall name c,
             df_getitem (df self) name = inr c -> series_div c ones = c).
  { intros name c Hc. apply (@series_div_ones L).
    rewrite (@wf_column_length _ _ _ Hwf Hc), (@wf_column_length _ _ _ Hwf Hcl).
    reflexivity. }
  split.
  - unfold adjust, bindM at 1, getM. rewrite Hohlc. simpl.
    unfold bindM at 1, liftM at 1. rewrite Hr.
    unfold bindM, retM.
    rewrite (@divide_inplace_same self _ ones _ Hco (Hsame _ _ Hco)).
    rewrite (@divide_inplace_same self _ ones _ Hch (Hsame _ _ Hch)).
    rewrite (@divide_inplace_same self _ ones _ Hcw (Hsame _ _ Hcw)).
    rewrite (@divide_inplace_same self _ ones _ Hcl (Hsame _ _ Hcl)).
    reflexivity.
  - assert (Hcopy : adjust_copy self ones = inr (df self)).
    { unfold adjust_copy, divide_into.
      rewrite Hco. simpl.
      rewrite (Hsame _ _ Hco), (@df_setitem_same _ _ _ Hco).
      rewrite Hch. simpl.
      rewrite (Hsame _ _ Hch), (@df_setitem_same _ _ _ Hch).
      rewrite Hcw. simpl.
      rewrite (Hsame _ _ Hcw), (@df_setitem_same _ _ _ Hcw).
      rewrite Hcl. simpl.
      rewrite (Hsame _ _ Hcl), (@df_setitem_same _ _ _ Hcl).
      reflexivity. }
    unfold adjust, bindM, getM, liftM, retM. rewrite Hohlc. simpl.
    rewrite Hr, Hcopy.
    destruct (Chart_init env (df self) SrcNone PNone PNone PNone); reflexivity.
Qed.

(** ** Dicts: reading after writing *)

Lemma py_setitem_inr (o : pyobj) (k : string) (v o' : pyobj) :
  py_setitem o k v = inr o' ->
  exists d, o = PDict d /\ o' = PDict (assoc_set k v d).
Proof.
  destruct o; simpl; intros H; try discriminate.
  inversion H. exists d. split; reflexivity.
Qed.

Lemma py_getitem_setitem_same (o : pyobj) (k : string) (v o' : pyobj) :
  py_setitem o k v = inr o' -> py_getitem o' k = inr v.
Proof.
  intros H. apply py_setitem_inr in H. destruct H as [d [-> ->]].
  simpl. rewrite assoc_get_set_same. reflexivity.
Qed.

Lemma py_getitem_setitem_other (o : pyobj) (k k' : string) (v o' : pyobj) :
  py_setitem o k v = inr o' -> k' <> k -> py_getitem o' k' = py_getitem o k'.
Proof.
  intros H Hne. apply py_setitem_inr in H. destruct H as [d [-> ->]].
  simpl. rewrite (assoc_get_set_other v d Hne). reflexivity.
Qed.

Lemma py_getitem_inr_key (o : pyobj) (k : string) (v : pyobj) :
  py_getitem o k = inr v -> exists d, o = PDict d /\ mem_str k (keys d) = true.
Proof.
  destruct o; simpl; intros H; try discriminate.
  exists d. split; [reflexivity |].
  destruct (assoc_get k d) as [w |] eqn:Hw; [| discriminate].
  apply mem_str_In. apply assoc_get_In. exists w. exact Hw.
Qed.

(** An assignment through a path is an assignment to its first key, which
    a longer path requires to be present. *)
Lemma py_setpath_head (o : pyobj) (k : string) (p : list string) (v o' : pyobj) :
  py_setpath o (k :: p) v = inr o' ->
  exists w, py_setitem o k w = inr o' /\
            (p <> [] -> exists inner, py_getitem o k = inr inner).
Proof.
  destruct p as [| k2 p].
  - simpl. intros H. exists v. split; [exact H | intros Hp; contradiction].
  - change (py_setpath o (k :: k2 :: p) v)
      with (inner <- py_getitem o k ;;
            inner' <- py_setpath inner (k2 :: p) v ;;
            py_setitem o k inner').
    intros H. bind_inv H as inner Hinner. bind_inv H as inner' Hset.
    exists inner'. split; [exact H | intros _; exists inner; exact Hinner].
Qed.

Lemma py_getpath_setpath (p : list string) :
  forall (o v o' : pyobj),
    p <> [] -> py_setpath o p v = inr o' -> py_getpath o' p = inr v.
Proof.
  induction p as [| k p IH]; intros o v o' Hp H; [contradiction |].
  destruct p as [| k2 p].
  - simpl in H. simpl. rewrite (@py_getitem_setitem_same o k v o' H). reflexivity.
  - change (py_setpath o (k :: k2 :: p) v)
      with (inner <- py_getitem o k ;;
            inner' <- py_setpath inner (k2 :: p) v ;;
            py_setitem o k inner') in H.
    bind_inv H as inner Hinner. bind_inv H as inner' Hset.
    change (py_getpath o' (k :: k2 :: p))
      with (inner <- py_getitem o' k ;; py_getpath inner (k2 :: p)).
    rewrite (@py_getitem_setitem_same o k inner' o' H). simpl bind.
    apply (IH inner v inner'); [discriminate | exact Hset].
Qed.

Lemma py_getpath_head (o o' : pyobj) (k : string) (p : list string) :
  py_getitem o' k = py_getitem o k ->
  py_getpath o' (k :: p) = py_getpath o (k :: p).
Proof. intros H. simpl. rewrite H. reflexivity. Qed.

(** ** The y-axes of a layout *)

Lemma filter_app_one {T : Type} (f : T -> bool) (l : list T) (x : T) :
  filter f (l ++ [x]) = (filter f l ++ if f x then [x] else [])%list.
Proof.
  induction l as [| y l IH]; simpl.
  - destruct (f x); reflexivity.
  - rewrite IH. destruct (f y); reflexivity.
Qed.

Lemma mem_str_filter (f : string -> bool) (k : string) (l : list string) :
  f k = true -> mem_str k (filter f l) = mem_str k l.
Proof.
  intros Hk. unfold mem_str. induction l as [| x l IH]; simpl.
  - reflexivity.
  - destruct (f x) eqn:Hx; simpl.
    + rewrite IH. reflexivity.
    + rewrite IH. destruct (String.eqb_spec k x) as [-> | Hne];
        [congruence | reflexivity].
Qed.

Lemma yaxes_setitem (o : pyobj) (k : string) (v o' : pyobj) :
  py_setitem o k v = inr o' ->
  yaxes o' =
  if String.prefix "yaxis" k && negb (mem_str k (yaxes o))
  then (yaxes o ++ [k])%list else yaxes o.
Proof.
  intros H. apply py_setitem_inr in H. destruct H as [d [-> ->]].
  unfold yaxes. rewrite keys_assoc_set.
  destruct (String.prefix "yaxis" k) eqn:Hk; simpl.
  - rewrite (mem_str_filter _ _ (keys d) Hk).
    destruct (mem_str k (keys d)); simpl; [reflexivity |].
    rewrite filter_app_one, Hk. reflexivity.
  - destruct (mem_str k (keys d)); [reflexivity |].
    rewrite filter_app_one, Hk. apply app_nil_r.
Qed.

Lemma yaxes_setitem_present (o : pyobj) (k : string) (v w o' : pyobj) :
  py_getitem o k = inr w -> py_setitem o k v = inr o' -> yaxes o' = yaxes o.
Proof.
  intros Hget H. apply py_getitem_inr_key in Hget.
  destruct Hget as [d [-> Hmem]]. simpl in H. inversion H.
  unfold yaxes. rewrite keys_assoc_set, Hmem. reflexivity.
Qed.

Lemma same_axes_refl (o : pyobj) : same_axes o o.
Proof. split; [intros k _; reflexivity | reflexivity]. Qed.

Lemma same_axes_trans (o1 o2 o3 : pyobj) :
  same_axes o1 o2 -> same_axes o2 o3 -> same_axes o1 o3.
Proof.
  intros [G1 Y1] [G2 Y2]. split.
  - intros k Hk. rewrite (G2 k Hk). apply G1. exact Hk.
  - rewrite Y2. exact Y1.
Qed.

(** Writing under a key that is not an axis keeps the axes. *)
Lemma same_axes_setitem (o : pyobj) (k : string) (v o' : pyobj) :
  String.prefix "yaxis" k = false ->
  py_setitem o k v = inr o' -> same_axes o o'.
Proof.
  intros Hk H. split.
  - intros k' Hk'. apply (@py_getitem_setitem_other o k k' v o' H). congruence.
  - rewrite (@yaxes_setitem o k v o' H), Hk. reflexivity.
Qed.

Lemma same_axes_setpath (o : pyobj) (k : string) (p : list string) (v o' : pyobj) :
  String.prefix "yaxis" k = false ->
  py_setpath o (k :: p) v = inr o' -> same_axes o o'.
Proof.
  intros Hk H. apply py_setpath_head in H. destruct H as [w [H _]].
  apply (@same_axes_setitem o k w o' Hk H).
Qed.

(** ** The stages of [to_figure] *)

Unset Implicit Arguments.

Lemma resolve_arguments_volume (self : Chart) (a : figure_args) (r : resolved) :
  resolve_arguments env self a = inr r ->
  resolve_volume self a = PBool (r_volume r).
Proof.
  unfold resolve_arguments. intros H.
  bind_inv H as u Hu. cbv zeta in H.
  bind_inv H as dims Hdims. bind_inv H as ty Hty. bind_inv H as ti Hti.
  bind_inv H as ty2 Hty2. bind_inv H as vol Hvol. bind_inv H as sub Hsub.
  inversion H. simpl.
  destruct (resolve_volume self a); try discriminate.
  inversion Hvol. reflexivity.
Qed.

Lemma stacked_guard (self : Chart) (v : bool) (n : nat) :
  stacked self v = S n ->
  v || negb (Nat.eqb (length (sec self)) 0) = true.
Proof.
  unfold stacked, delta. destruct v; [reflexivity |].
  destruct (sec self); simpl; [intros H; discriminate | reflexivity].
Qed.

(** Lines 617-618, common to every branch. *)
Lemma axis_layout_inr (self : Chart) (r : resolved) (additions L0 : pyobj)
    (out out1 : list string) (L1 : pyobj) :
  axis_layout self r additions L0 out = (out1, inr L1) ->
  exists x y La Lb,
    py_setitem L0 "xaxis" x = inr La /\
    py_getitem additions "yaxis" = inr y /\
    py_setitem La "yaxis" y = inr Lb /\
    (if r_volume r || negb (Nat.eqb (length (sec self)) 0) then
       if Nat.eqb (stacked self (r_volume r)) 1 then
         liftM (layout <- new_yaxis additions Lb "yaxis2" ;;
                layout <- py_setpath layout ["yaxis"; "domain"]
                            (domain (lit 30 2) (lit 10 1)) ;;
                py_setpath layout ["yaxis2"; "domain"]
                  (domain (lit 0 1) (lit 25 2)))
       else if Nat.eqb (stacked self (r_volume r)) 2 then
         liftM (layout <- new_yaxis additions Lb "yaxis2" ;;
                layout <- new_yaxis additions layout "yaxis3" ;;
                layout <- py_setpath layout ["yaxis"; "domain"]
                            (domain (lit 5 1) (lit 10 1)) ;;
                layout <- py_setpath layout ["yaxis2"; "domain"]
                            (domain (lit 25 2) (lit 45 2)) ;;
                py_setpath layout ["yaxis3"; "domain"]
                  (domain (lit 0 1) (lit 20 2)))
       else
         print "Quantmod does not yet support plotting 3+ indicators." ~;;
         retM Lb
     else retM Lb) out = (out1, inr L1).
Proof.
  unfold axis_layout. intros H.
  bindM_inv H as La s1 H1. apply liftM_inr in H1. destruct H1 as [-> H1].
  bind_inv H1 as x Hx.
  bindM_inv H as Lb s2 H2. apply liftM_inr in H2. destruct H2 as [-> H2].
  unfold new_yaxis in H2. bind_inv H2 as y Hy.
  exists x, y, La, Lb. repeat split; assumption.
Qed.

Lemma yaxes_after_base (L0 x y La Lb : pyobj) :
  yaxes L0 = [] ->
  py_setitem L0 "xaxis" x = inr La ->
  py_setitem La "yaxis" y = inr Lb ->
  yaxes Lb = ["yaxis"].
Proof.
  intros H0 Hx Hy.
  rewrite (@yaxes_setitem _ _ _ _ Hy), (@yaxes_setitem _ _ _ _ Hx), H0.
  reflexivity.
Qed.

(** One stacked sub-series: lines 623-626. *)
Lemma axis_layout_one (self : Chart) (r : resolved) (additions L0 : pyobj)
    (out out1 : list string) (L1 : pyobj) :
  stacked self (r_volume r) = 1 ->
  axis_layout self r additions L0 out = (out1, inr L1) ->
  py_getpath L1 ["yaxis"; "domain"] = inr (domain (lit 30 2) (lit 10 1)) /\
  py_getpath L1 ["yaxis2"; "domain"] = inr (domain (lit 0 1) (lit 25 2)) /\
  (yaxes L0 = [] -> yaxes L1 = ["yaxis"; "yaxis2"]).
Proof.
  intros Hst H. apply axis_layout_inr in H.
  destruct H as [x [y [La [Lb [Hx [Hy [Hb H]]]]]]].
  rewrite (stacked_guard _ _ _ Hst), Hst in H.
  change (Nat.eqb 1 1) with true in H. cbv iota in H.
  apply liftM_inr in H. destruct H as [_ H].
  bind_inv H as Lc Hc. bind_inv H as Ld Hd.
  unfold new_yaxis in Hc. bind_inv Hc as y2 Hy2.
  destruct (@py_setpath_head _ _ _ _ _ Hd) as [w1 [Hw1 _]].
  destruct (@py_setpath_head _ _ _ _ _ H) as [w2 [Hw2 _]].
  split; [| split].
  - rewrite (@py_getpath_head Ld L1 "yaxis" ["domain"]).
    + apply (@py_getpath_setpath ["yaxis"; "domain"] Lc); [discriminate | exact Hd].
    + apply (@py_getitem_setitem_other _ _ _ _ _ Hw2). discriminate.
  - apply (@py_getpath_setpath ["yaxis2"; "domain"] Ld); [discriminate | exact H].
  - intros H0.
    rewrite (@yaxes_setitem _ _ _ _ Hw2), (@yaxes_setitem _ _ _ _ Hw1),
      (@yaxes_setitem _ _ _ _ Hc), (yaxes_after_base _ _ _ _ _ H0 Hx Hb).
    reflexivity.
Qed.

(** Two stacked sub-series: lines 628-633. *)
Lemma axis_layout_two (self : Chart) (r : resolved) (additions L0 : pyobj)
    (out out1 : list string) (L1 : pyobj) :
  stacked self (r_volume r) = 2 ->
  axis_layout self r additions L0 out = (out1, inr L1) ->
  py_getpath L1 ["yaxis"; "domain"] = inr (domain (lit 5 1) (lit 10 1)) /\
  py_getpath L1 ["yaxis2"; "domain"] = inr (domain (lit 25 2) (lit 45 2)) /\
  py_getpath L1 ["yaxis3"; "domain"] = inr (domain (lit 0 1) (lit 20 2)) /\
  (yaxes L0 = [] -> yaxes L1 = ["yaxis"; "yaxis2"; "yaxis3"]).
Proof.
  intros Hst H. apply axis_layout_inr in H.
  destruct H as [x [y [La [Lb [Hx [Hy [Hb H]]]]]]].
  rewrite (stacked_guard _ _ _ Hst), Hst in H.
  change (Nat.eqb 2 1) with false in H. change (Nat.eqb 2 2) with true in H.
  cbv iota in H.
  apply liftM_inr in H. destruct H as [_ H].
  bind_inv H as Lc Hc. bind_inv H as Ld Hd.
  bind_inv H as Le He. bind_inv H as Lf Hf.
  unfold new_yaxis in Hc, Hd. bind_inv Hc as y2 Hy2. bind_inv Hd as y3 Hy3.
  destruct (@py_setpath_head _ _ _ _ _ He) as [w1 [Hw1 _]].
  destruct (@py_setpath_head _ _ _ _ _ Hf) as [w2 [Hw2 _]].
  destruct (@py_setpath_head _ _ _ _ _ H) as [w3 [Hw3 _]].
  split; [| split; [| split]].
  - rewrite (@py_getpath_head Lf L1 "yaxis" ["domain"]).
    + rewrite (@py_getpath_head Le Lf "yaxis" ["domain"]).
      * apply (@py_getpath_setpath ["yaxis"; "domain"] Ld); [discriminate | exact He].
      * apply (@py_getitem_setitem_other _ _ _ _ _ Hw2). discriminate.
    + apply (@py_getitem_setitem_other _ _ _ _ _ Hw3). discriminate.
  - rewrite (@py_getpath_head Lf L1 "yaxis2" ["domain"]).
    + apply (@py_getpath_setpath ["yaxis2"; "domain"] Le); [discriminate | exact Hf].
    + apply (@py_getitem_setitem_other _ _ _ _ _ Hw3). discriminate.
  - apply (@py_getpath_setpath ["yaxis3"; "domain"] Lf); [discriminate | exact H].
  - intros H0.
    rewrite (@yaxes_setitem _ _ _ _ Hw3), (@yaxes_setitem _ _ _ _ Hw2),
      (@yaxes_setitem _ _ _ _ Hw1), (@yaxes_setitem _ _ _ _ Hd),
      (@yaxes_setitem _ _ _ _ Hc), (yaxes_after_base _ _ _ _ _ H0 Hx Hb).
    reflexivity.
Qed.

(** Three or more: lines 635-636 print and leave the layout with the
    price axis alone. *)
Lemma axis_layout_unsupported (self : Chart) (r : resolved)
    (additions L0 : pyobj) (out out1 : list string) (L1 : pyobj) :
  3 <= stacked self (r_volume r) ->
  axis_layout self r additions L0 out = (out1, inr L1) ->
  out1 = (out ++ ["Quantmod does not yet support plotting 3+ indicators."])%list /\
  (yaxes L0 = [] -> yaxes L1 = ["yaxis"]).
Proof.
  intros Hst H. apply axis_layout_inr in H.
  destruct H as [x [y [La [Lb [Hx [Hy [Hb H]]]]]]].
  destruct (stacked self (r_volume r)) as [| [| [| n]]] eqn:Hn; try lia.
  rewrite (stacked_guard _ _ _ Hn) in H. simpl in H.
  unfold bindM, print, retM in H. inversion H. subst.
  split; [reflexivity |].
  intros H0. apply (yaxes_after_base _ _ _ _ _ H0 Hx Hb).
Qed.

Lemma margin_layout_axes (L L' : pyobj) :
  margin_layout L = inr L' -> same_axes L L'.
Proof.
  unfold margin_layout. intros H.
  bind_inv H as title Ht. bind_inv H as has_title Hh.
  destruct (negb has_title).
  - bind_inv H as b Hb.
    apply (@same_axes_setpath _ "margin" _ _ _ eq_refl H).
  - inversion H. apply same_axes_refl.
Qed.

Lemma last_price_annotation_axes (self : Chart) (color L L' : pyobj) :
  last_price_annotation env self color L = inr L' -> same_axes L L'.
Proof.
  unfold last_price_annotation. intros H.
  bind_inv H as x Hx. bind_inv H as xa Hxa. bind_inv H as y Hy.
  bind_inv H as ya Hya. bind_inv H as c Hc. cbv zeta in H.
  bind_inv H as anns Hanns. bind_inv H as anns' Happ.
  bind_inv H as La Hset. bind_inv H as ly Hly. bind_inv H as ly' Hsub.
  apply (@same_axes_trans _ La _).
  - apply (@same_axes_setitem _ "annotations" _ _ eq_refl Hset).
  - apply (@same_axes_setpath _ "legend" _ _ _ eq_refl H).
Qed.

Lemma last_volume_annotation_axes (self : Chart) (color L L' : pyobj) :
  last_volume_annotation env self color L = inr L' -> same_axes L L'.
Proof.
  unfold last_volume_annotation. intros H.
  bind_inv H as x Hx. bind_inv H as xa Hxa. bind_inv H as dom Hdom.
  bind_inv H as top Htop. bind_inv H as y Hy. bind_inv H as ya Hya.
  bind_inv H as v Hv. cbv zeta in H.
  bind_inv H as anns Hanns. bind_inv H as anns' Happ.
  apply (@same_axes_setitem _ "annotations" _ _ eq_refl H).
Qed.

Lemma subtitle_layout_axes (self : Chart) (r : resolved) (colors L L' : pyobj) :
  subtitle_layout env self r colors L = inr L' -> same_axes L L'.
Proof.
  unfold subtitle_layout. intros H.
  bind_inv H as showlegend Hs. bind_inv H as shown Hshown.
  destruct (shown && r_subtitle r).
  - bind_inv H as present Hp. bind_inv H as La Ha.
    bind_inv H as color Hcolor. bind_inv H as Lb Hb.
    assert (HLa : same_axes L La).
    { destruct (negb present).
      - apply (@same_axes_setitem _ "annotations" _ _ eq_refl Ha).
      - inversion Ha. apply same_axes_refl. }
    apply (@same_axes_trans _ La _ HLa).
    apply last_price_annotation_axes in Hb.
    destruct (r_volume r).
    + apply last_volume_annotation_axes in H.
      apply (@same_axes_trans _ Lb _ Hb H).
    + inversion H. subst. exact Hb.
  - inversion H. apply same_axes_refl.
Qed.

(** What a successful call went through. *)
Lemma to_figure_inr (self : Chart) (a : figure_args) (out out' : list string)
    (fig : pyobj) :
  to_figure env self a out = (out', inr fig) ->
  exists r template additions L0 L1 L3 data,
    resolve_arguments env self a = inr r /\
    load_template env a r = inr template /\
    py_getitem template "layout" = inr L0 /\
    axis_layout self r additions L0 out = (out', inr L1) /\
    same_axes L1 L3 /\
    fig = PDict [("data", PList data); ("layout", L3)].
Proof.
  unfold to_figure. intros H.
  bindM_inv H as r s1 Hr. apply liftM_inr in Hr. destruct Hr as [-> Hr].
  bindM_inv H as template s2 Ht. apply liftM_inr in Ht. destruct Ht as [-> Ht].
  bindM_inv H as colors s3 Hc. apply liftM_inr in Hc. destruct Hc as [-> Hc].
  bindM_inv H as traces s4 Htr. apply liftM_inr in Htr. destruct Htr as [-> Htr].
  bindM_inv H as additions s5 Had. apply liftM_inr in Had. destruct Had as [-> Had].
  bindM_inv H as L0 s6 HL0. apply liftM_inr in HL0. destruct HL0 as [-> HL0].
  bindM_inv H as data s7 Hd. apply liftM_inr in Hd. destruct Hd as [-> Hd].
  bindM_inv H as L1 s8 Hax.
  bindM_inv H as L2 s9 Hm. apply liftM_inr in Hm. destruct Hm as [-> Hm].
  bindM_inv H as L3 s10 Hs. apply liftM_inr in Hs. destruct Hs as [-> Hs].
  unfold retM in H. inversion H. subst.
  exists r, template, additions, L0, L1, L3, data.
  repeat split; try assumption.
  - intros k Hk.
    destruct (subtitle_layout_axes _ _ _ _ _ Hs) as [G2 _].
    destruct (margin_layout_axes _ _ Hm) as [G1 _].
    rewrite (G2 k Hk). apply G1. exact Hk.
  - destruct (subtitle_layout_axes _ _ _ _ _ Hs) as [_ Y2].
    destruct (margin_layout_axes _ _ Hm) as [_ Y1].
    rewrite Y2. exact Y1.
Qed.

(** ** The axes of the assembled figure *)

Lemma figure_layout_path (data L : pyobj) (p : list string) :
  py_getpath (PDict [("data", data); ("layout", L)]) ("layout" :: p) =
  py_getpath L p.
Proof. reflexivity. Qed.

(** C7. When [to_figure] returns a figure and the number of stacked
    sub-series (the volume toggle after defaulting, plus the secondary
    indicators) is exactly one, the price axis has domain [[0.30, 1.0]] and
    the stacked axis [[0.0, 0.25]]; when it is exactly two, the price axis
    has [[0.5, 1.0]], the first stacked axis [[0.25, 0.45]] and the second
    [[0.0, 0.20]]. *)
Theorem to_figure_stacked_domains (self : Chart) (a : figure_args)
    (out out' : list string) (fig : pyobj) (v : bool) :
  to_figure env self a out = (out', inr fig) ->
  resolve_volume self a = PBool v ->
  (stacked self v = 1 ->
   py_getpath fig ["layout"; "yaxis"; "domain"]
     = inr (domain (lit 30 2) (lit 10 1)) /\
   py_getpath fig ["layout"; "yaxis2"; "domain"]
     = inr (domain (lit 0 1) (lit 25 2))) /\
  (stacked self v = 2 ->
   py_getpath fig ["layout"; "yaxis"; "domain"]
     = inr (domain (lit 5 1) (lit 10 1)) /\
   py_getpath fig ["layout"; "yaxis2"; "domain"]
     = inr (domain (lit 25 2) (lit 45 2)) /\
   py_getpath fig ["layout"; "yaxis3"; "domain"]
     = inr (domain (lit 0 1) (lit 20 2))).
Proof.
  intros H Hv. apply to_figure_inr in H.
  destruct H as [r [template [additions [L0 [L1 [L3 [data H]]]]]]].
  destruct H as [Hr [Ht [HL0 [Hax [[G _] ->]]]]].
  rewrite (resolve_arguments_volume _ _ _ Hr) in Hv.
  injection Hv as Hvol. subst v.
  repeat rewrite figure_layout_path.
  split; intros Hst.
  - destruct (axis_layout_one _ _ _ _ _ _ _ Hst Hax) as [D1 [D2 _]].
    rewrite (@py_getpath_head L1 L3 "yaxis" ["domain"] (G "yaxis" eq_refl)).
    rewrite (@py_getpath_head L1 L3 "yaxis2" ["domain"] (G "yaxis2" eq_refl)).
    split; assumption.
  - destruct (axis_layout_two _ _ _ _ _ _ _ Hst Hax) as [D1 [D2 [D3 _]]].
    rewrite (@py_getpath_head L1 L3 "yaxis" ["domain"] (G "yaxis" eq_refl)).
    rewrite (@py_getpath_head L1 L3 "yaxis2" ["domain"] (G "yaxis2" eq_refl)).
    rewrite (@py_getpath_head L1 L3 "yaxis3" ["domain"] (G "yaxis3" eq_refl)).
    repeat split; assumption.
Qed.




(** ** Calls that return no figure *)

Lemma to_figure_resolve_error (self : Chart) (a : figure_args)
    (out : list string) (e : exn) :
  resolve_arguments env self a = inl e ->
  to_figure env self a out = (out, inl e).
Proof.
  intros H. unfold to_figure, bindM, liftM. rewrite H. reflexivity.
Qed.

(** Lines 412-416: with a ticker and no title the call raises. *)
Lemma to_figure_ticker_raises (self : Chart) (a : figure_args)
    (out : list string) :
  arg_title a = PNone -> truthy (ticker self) = inr true ->
  exists e, to_figure env self a out = (out, inl e).
Proof.
  intros Ht Htk.
  assert (H : exists e, resolve_arguments env self a = inl e).
  { unfold resolve_arguments.
    destruct (check_kwargs env (kwargs a)) as [e | u]; simpl;
      [exists e; reflexivity |].
    match goal with
    | |- exists e, bind ?m _ = inl e =>
        destruct m as [e | dims]; simpl; [exists e; reflexivity |]
    end.
    match goal with
    | |- exists e, bind ?m _ = inl e =>
        destruct m as [e | ty]; simpl; [exists e; reflexivity |]
    end.
    unfold resolve_title. rewrite Ht, Htk. simpl.
    exists (NameError "ticker"). reflexivity. }
  destruct H as [e He]. exists e. apply to_figure_resolve_error. exact He.
Qed.

Lemma has_OHLC_false (self : Chart) :
  has_OHLC self = false ->
  has_open self = false \/ has_high self = false \/
  has_low self = false \/ has_close self = false.
Proof.
  intros H.
  destruct (has_open self) eqn:Ho; [| left; reflexivity].
  destruct (has_high self) eqn:Hh; [| right; left; reflexivity].
  destruct (has_low self) eqn:Hl; [| right; right; left; reflexivity].
  destruct (has_close self) eqn:Hc; [| right; right; right; reflexivity].
  exfalso. unfold has_OHLC in H. apply Nat.leb_gt in H.
  unfold has_open, has_high, has_low, has_close in *.
  apply mem_str_In in Ho, Hh, Hl, Hc.
  assert (Hle : length (py_set [op self; hi self; lo self; cl self])
                <= sum_bool (isin (labels (df self))
                                  (py_set [op self; hi self; lo self; cl self]))).
  { apply members_reach_count; [apply NoDup_nodup |].
    intros c Hin. apply nodup_In in Hin. simpl in Hin.
    destruct Hin as [<- | [<- | [<- | [<- | []]]]]; assumption. }
  lia.
Qed.

Lemma bind_column_absent (self : Chart) (trace : pyobj) (k name : string) :
  mem_str name (labels (df self)) = false ->
  bind_column self trace k name = inl (KeyError name).
Proof.
  intros H. unfold bind_column. rewrite (df_getitem_absent _ _ H). reflexivity.
Qed.

(** Lines 471-478: an OHLC kind on a chart without OHLC data ends in an
    exception, the [KeyError] of the first missing column at the latest. *)
Lemma main_trace_without_OHLC (self : Chart) (r : resolved) (colors traces : pyobj) :
  mem_str (r_type r) (OHLC_TRACES env) = true ->
  has_OHLC self = false ->
  exists e, main_trace env self r colors traces = inl e.
Proof.
  intros Hk H. apply has_OHLC_false in H.
  unfold main_trace. rewrite Hk.
  unfold has_open, has_high, has_low, has_close in H.
  destruct (py_getitem traces (r_type r)) as [e | t0]; simpl;
    [exists e; reflexivity |].
  destruct (py_setitem t0 "x" (PIndex (index (df self)))) as [e | t1]; simpl;
    [exists e; reflexivity |].
  destruct (bind_column self t1 "open" (op self)) as [e | t2] eqn:E2; simpl;
    [exists e; reflexivity |].
  destruct (bind_column self t2 "high" (hi self)) as [e | t3] eqn:E3; simpl;
    [exists e; reflexivity |].
  destruct (bind_column self t3 "low" (lo self)) as [e | t4] eqn:E4; simpl;
    [exists e; reflexivity |].
  destruct (bind_column self t4 "close" (cl self)) as [e | t5] eqn:E5; simpl;
    [exists e; reflexivity |].
  exfalso. destruct H as [H | [H | [H | H]]].
  - rewrite (bind_column_absent _ _ _ _ H) in E2. discriminate.
  - rewrite (bind_column_absent _ _ _ _ H) in E3. discriminate.
  - rewrite (bind_column_absent _ _ _ _ H) in E4. discriminate.
  - rewrite (bind_column_absent _ _ _ _ H) in E5. discriminate.
Qed.

Lemma close_trace_without_close (self : Chart) (r : resolved) (traces : pyobj) :
  has_close self = false ->
  exists e, close_trace self r traces = inl e.
Proof.
  intros H. unfold close_trace.
  destruct (py_getitem traces (r_type r)) as [e | t0]; simpl;
    [exists e; reflexivity |].
  destruct (py_setitem t0 "x" (PIndex (index (df self)))) as [e | t1]; simpl;
    [exists e; reflexivity |].
  rewrite (bind_column_absent _ _ _ _ H). simpl.
  exists (KeyError (cl self)). reflexivity.
Qed.

(** Lines 496-539: another kind on a chart without a close column. *)
Lemma main_trace_without_close (self : Chart) (r : resolved) (colors traces : pyobj) :
  mem_str (r_type r) (OHLC_TRACES env) = false ->
  has_close self = false ->
  exists e, main_trace env self r colors traces = inl e.
Proof.
  intros Hk H. unfold main_trace. rewrite Hk.
  destruct (close_trace_without_close self r traces H) as [e He].
  destruct (contains "line" (r_type r));
    [rewrite He; exists e; reflexivity |].
  destruct (contains "area" (r_type r));
    [rewrite He; exists e; reflexivity |].
  destruct (contains "scatter" (r_type r));
    [rewrite He; exists e; reflexivity |].
  eexists. reflexivity.
Qed.

(** No figure is produced for a kind whose data the chart lacks, although
    lines 433-442 never run. *)
Lemma to_figure_without_data (self : Chart) (a : figure_args) (r : resolved)
    (out : list string) :
  resolve_arguments env self a = inr r ->
  (if mem_str (r_type r) (OHLC_TRACES env)
   then has_OHLC self else has_close self) = false ->
  exists e, to_figure env self a out = (out, inl e).
Proof.
  intros Hr Hdata. unfold to_figure, bindM, liftM. rewrite Hr.
  destruct (load_template env a r) as [e | template];
    [exists e; reflexivity |].
  destruct (py_getitem template "colors") as [e | colors];
    [exists e; reflexivity |].
  destruct (py_getitem template "traces") as [e | traces];
    [exists e; reflexivity |].
  destruct (py_getitem template "additions") as [e | additions];
    [exists e; reflexivity |].
  destruct (py_getitem template "layout") as [e | L0];
    [exists e; reflexivity |].
  assert (Hmain : exists e, main_trace env self r colors traces = inl e).
  { destruct (mem_str (r_type r) (OHLC_TRACES env)) eqn:Hk.
    - apply main_trace_without_OHLC; assumption.
    - apply main_trace_without_close; assumption. }
  destruct Hmain as [e He]. unfold build_data. rewrite He. simpl.
  exists e. reflexivity.
Qed.

End Properties.

(** ** The two arithmetics *)

Module RationalFacts.
Import QArith Qcanon.

Lemma Qcinv_one : (/ 1 = 1)%Qc.
Proof. apply Qc_is_canon. reflexivity. Qed.

Lemma rational_laws : ArithLaws rational.
Proof.
  split.
  - intros [q |]; unfold regular; simpl; [| discriminate].
    unfold Rational.div. intros H.
    destruct (Qeq_bool (this q) 0) eqn:Hz; [discriminate |].
    change (Rational.of_Z 1%Z) with (Some 1%Qc).
    f_equal. unfold Qcdiv. apply Qcmult_inv_r.
    intros Hq. subst q. discriminate.
  - intros [q |]; simpl; [| reflexivity].
    f_equal. unfold Qcdiv.
    change (Q2Qc (inject_Z 1)) with 1%Qc.
    rewrite Qcinv_one. apply Qcmult_1_r.
Qed.

End RationalFacts.

(** ** The sample environment and charts *)


Lemma sample_labels_distinct {A : Arith} :
  NoDup (labels Sample.ohlcv_adjusted) /\ NoDup (labels Sample.ohlcv_unsplit).
Proof.
  split; simpl; repeat constructor; simpl; intuition discriminate.
Qed.

(** The sample charts are what the constructor builds. *)
Lemma sample_charts_constructed :
  Chart_init Sample.env64 Sample.ohlcv Cases.yahoo_src PNone PNone PNone
    = inr Cases.plain /\
  Chart_init Sample.env64 Sample.ohlcv SrcNone (PStr "AAPL") PNone PNone
    = inr Cases.named /\
  Chart_init Sample.env64 Sample.ohlcv_adjusted SrcNone PNone PNone PNone
    = inr Cases.adjusted /\
  Chart_init Sample.env64 Sample.close_only SrcNone PNone PNone PNone
    = inr Cases.closes /\
  Chart_init Sample.env64 Sample.four_opens SrcNone PNone PNone PNone
    = inr Cases.repeated /\
  Chart_init Sample.env64 Sample.zero_close SrcNone PNone PNone PNone
    = inr Cases.worthless /\
  Chart_init Sample.env64 Sample.no_rows SrcNone PNone (PBool false) (PBool false)
    = inr Cases.rowless /\
  Chart_init Sample.envQ Sample.ohlcv_unsplit SrcNone PNone PNone PNone
    = inr Cases.unsplit.
Proof. repeat split; reflexivity. Qed.

(** The end-to-end scenario of the specification: two traces, the price
    axis on [[0.30, 1.0]], the volume axis on [[0.0, 0.25]], and the two
    annotations. *)
Lemma sample_end_to_end :
  exists candlestick bars layout last_price last_volume t1 t2,
    to_figure Sample.env64 Cases.plain Sample.no_args []
      = ([], inr (PDict [("data", PList [candlestick; bars]); ("layout", layout)])) /\
    py_getitem candlestick "type" = inr (PStr "candlestick") /\
    py_getitem bars "type" = inr (PStr "bar") /\
    py_getitem layout "annotations" = inr (PList [last_price; last_volume]) /\
    py_getitem last_price "text" = inr (PStr t1) /\
    py_getitem last_volume "text" = inr (PStr t2) /\
    t1 = "Last 10.00" /\ t2 = "Volume 1,500".
Proof.
  do 7 eexists. split; [vm_compute; reflexivity |].
  repeat split; reflexivity.
Qed.

(** ** Claims settled on the sample charts *)

(** C1. A chart with the four OHLC columns, a volume column and no
    adjusted-close column: the guards of [adjust] and of [adjust_volume]
    let the call through and the selection of the missing column raises
    [KeyError], not the exception for insufficient data; the receiver is
    unchanged. *)
Theorem adjust_without_adjusted_close_KeyError :
  has_OHLC Cases.plain = true /\
  has_close Cases.plain = true /\
  has_volume Cases.plain = true /\
  has_adjusted_close Cases.plain = false /\
  adjust Sample.env64 false Cases.plain
    = (Cases.plain, inl (KeyError "Adj Close")) /\
  adjust Sample.env64 true Cases.plain
    = (Cases.plain, inl (KeyError "Adj Close")) /\
  adjust_volume Sample.env64 false Cases.plain
    = (Cases.plain, inl (KeyError "Adj Close")) /\
  adjust_volume Sample.env64 true Cases.plain
    = (Cases.plain, inl (KeyError "Adj Close")).
Proof.
  repeat split; vm_compute; reflexivity.
Qed.

(** C2. [to_figure(type='candlestick')] on a chart with a close column
    only: no check of the data runs, the template is fetched, and the
    selection of the open column raises [KeyError]. *)
Theorem to_figure_candlestick_without_OHLC :
  has_OHLC Cases.closes = false /\
  mem_str "candlestick" (OHLC_TRACES Sample.env64) = true /\
  to_figure Sample.env64 Cases.closes (Sample.with_type "candlestick") []
    = ([], inl (KeyError "Open")).
Proof. repeat split; vm_compute; reflexivity. Qed.

(** C3. [to_figure()] on a chart with OHLCV data and two secondary
    indicators, three stacked sub-series with the volume: the warning is
    printed, no stacked axis is allocated, and the volume annotation then
    reads [layout['yaxis2']] and raises [KeyError]. *)
Theorem to_figure_three_stacked_KeyError :
  resolve_volume Cases.two_rsi Sample.no_args = PBool true /\
  stacked Cases.two_rsi true = 3 /\
  to_figure Sample.env64 Cases.two_rsi Sample.no_args []
    = (["Quantmod does not yet support plotting 3+ indicators."],
       inl (KeyError "yaxis2")).
Proof. repeat split; vm_compute; reflexivity. Qed.

(** C5. [to_figure()] on a chart with the ticker ['AAPL']: the default of
    the title reads the unbound name [ticker] and raises [NameError]; on
    the same table without a ticker the title is the empty string. *)
Theorem to_figure_ticker_NameError :
  ticker Cases.named = PStr "AAPL" /\
  to_figure Sample.env64 Cases.named Sample.no_args []
    = ([], inl (NameError "ticker")) /\
  resolve_title Cases.plain Sample.no_args = inr (PStr "").
Proof. repeat split; vm_compute; reflexivity. Qed.

(** C6. A table whose four columns are all labelled [Open]: the count of
    labels in the set reaches the size of the set, so [has_OHLC] is true
    although the high, low and close labels are no columns. *)
Theorem has_OHLC_repeated_label :
  labels (df Cases.repeated) = ["Open"; "Open"; "Open"; "Open"] /\
  has_OHLC Cases.repeated = true /\
  has_high Cases.repeated = false /\
  has_low Cases.repeated = false /\
  has_close Cases.repeated = false.
Proof. repeat split; reflexivity. Qed.


(** C8, counterexample. A chart on a table with every column and no row
    (constructed with [start=False, end=False]) meets the preconditions of
    both methods, and with [inplace=False] both raise [IndexError], from
    the constructor's default of [start], instead of returning a chart. *)
Lemma adjust_copy_path_without_rows :
  Chart_init Sample.env64 Sample.no_rows SrcNone PNone (PBool false) (PBool false)
    = inr Cases.rowless /\
  has_OHLC Cases.rowless = true /\
  has_volume Cases.rowless = true /\
  has_adjusted_close Cases.rowless = true /\
  adjust Sample.env64 false Cases.rowless
    = (Cases.rowless, inl (IndexError "index out of range")) /\
  adjust_volume Sample.env64 false Cases.rowless
    = (Cases.rowless, inl (IndexError "index out of range")).
Proof. repeat split; vm_compute; reflexivity. Qed.

(** C9, counterexample. One row with close and adjusted close both zero:
    the ratio is [0 / 0], not a number, and [adjust] replaces the open of
    [1] by it. *)
Lemma adjust_zero_close :
  has_OHLC Cases.worthless = true /\
  df_getitem (df Cases.worthless) "Close"
    = df_getitem (df Cases.worthless) "Adj Close" /\
  df_getitem (df Cases.worthless) "Open" = inr [float_of_Z 1] /\
  df_getitem (df (fst (adjust Sample.env64 true Cases.worthless))) "Open"
    = inr [PrimFloat.nan] /\
  df (fst (adjust Sample.env64 true Cases.worthless)) <> df Cases.worthless.
Proof.
  split; [reflexivity |]. split; [reflexivity |].
  split; [reflexivity |]. split; [vm_compute; reflexivity |].
  intros H.
  apply (f_equal (fun d => df_getitem (A := float64) d "Open")) in H.
  vm_compute in H.
  assert (Hnan : PrimFloat.nan = float_of_Z 1) by (vm_compute; congruence).
  apply (f_equal PrimFloat.is_nan) in Hnan. vm_compute in Hnan. discriminate.
Qed.

(** ** Witnesses *)

Lemma Chart_init_rejects_datetime_witness :
  rejected_boundary (A := float64) (PTime 1483315200) /\
  exists x,
    Chart_init Sample.env64 Sample.ohlcv SrcNone PNone (PTime 1483315200) PNone
      = inl x.
Proof.
  assert (H : rejected_boundary (A := float64) (PTime 1483315200)).
  { repeat split; discriminate. }
  split; [exact H |].
  exact (@Chart_init_rejects_datetime float64 Sample.env64 Sample.ohlcv
           SrcNone PNone (PTime 1483315200) PNone (or_introl H)).
Defined.

Lemma adjust_copy_path_witness :
  NoDup (labels (df Cases.adjusted)) /\
  has_OHLC Cases.adjusted = true /\
  has_adjusted_close Cases.adjusted = true /\
  exists ratio d2,
    ratio_of Cases.adjusted = inr ratio /\
    adjust Sample.env64 false Cases.adjusted
      = (Cases.adjusted, inr (Some (set_df Cases.adjusted d2))) /\
    index d2 = index (df Cases.adjusted) /\
    labels d2 = labels (df Cases.adjusted) /\
    (forall name col,
       In name ["Open"; "High"; "Low"; "Close"] ->
       df_getitem (df Cases.adjusted) name = inr col ->
       df_getitem d2 name = inr (series_div col ratio)) /\
    (forall name,
       ~ In name ["Open"; "High"; "Low"; "Close"] ->
       df_getitem d2 name = df_getitem (df Cases.adjusted) name).
Proof.
  assert (Hnd : NoDup (labels (df Cases.adjusted)))
    by exact (proj1 (sample_labels_distinct (A := float64))).
  split; [exact Hnd |]. split; [reflexivity |]. split; [reflexivity |].
  exact (proj1 (@adjust_copy_path float64 Sample.env64 Cases.adjusted
                  Cases.adjusted Hnd eq_refl) eq_refl eq_refl).
Defined.

Lemma adjust_close_equal_adjusted_close_witness :
  df_getitem (df Cases.unsplit) "Close" = df_getitem (df Cases.unsplit) "Adj Close" /\
  adjust Sample.envQ true Cases.unsplit = (Cases.unsplit, inr None) /\
  adjust Sample.envQ false Cases.unsplit
    = (Cases.unsplit,
       c <- Chart_init Sample.envQ (df Cases.unsplit) SrcNone PNone PNone PNone ;;
       ok (Some c)).
Proof.
  split; [reflexivity |].
  apply (@adjust_close_equal_adjusted_close rational Sample.envQ
           RationalFacts.rational_laws Cases.unsplit
           (map (of_int (Arith := rational)) [11; 10]%Z)).
  - repeat constructor.
  - exact (proj2 (sample_labels_distinct (A := rational))).
  - reflexivity.
  - reflexivity.
  - reflexivity.
  - repeat constructor.
Defined.

Lemma to_figure_stacked_domains_witness :
  (stacked Cases.plain true = 1 /\
   py_getpath Cases.plain_figure ["layout"; "yaxis"; "domain"]
     = inr (domain (A := float64) (lit 30 2) (lit 10 1)) /\
   py_getpath Cases.plain_figure ["layout"; "yaxis2"; "domain"]
     = inr (domain (A := float64) (lit 0 1) (lit 25 2))) /\
  (stacked Cases.one_rsi true = 2 /\
   py_getpath Cases.one_rsi_figure ["layout"; "yaxis"; "domain"]
     = inr (domain (A := float64) (lit 5 1) (lit 10 1)) /\
   py_getpath Cases.one_rsi_figure ["layout"; "yaxis2"; "domain"]
     = inr (domain (A := float64) (lit 25 2) (lit 45 2)) /\
   py_getpath Cases.one_rsi_figure ["layout"; "yaxis3"; "domain"]
     = inr (domain (A := float64) (lit 0 1) (lit 20 2))).
Proof.
  assert (H1 : to_figure Sample.env64 Cases.plain Sample.no_args []
               = ([], inr Cases.plain_figure)) by (vm_compute; reflexivity).
  assert (H2 : to_figure Sample.env64 Cases.one_rsi Sample.no_args []
               = ([], inr Cases.one_rsi_figure)) by (vm_compute; reflexivity).
  split; (split; [reflexivity |]).
  - exact (proj1 (@to_figure_stacked_domains float64 Sample.env64 Cases.plain
                    Sample.no_args [] [] Cases.plain_figure true H1 eq_refl)
                 eq_refl).
  - exact (proj2 (@to_figure_stacked_domains float64 Sample.env64 Cases.one_rsi
                    Sample.no_args [] [] Cases.one_rsi_figure true H2 eq_refl)
                 eq_refl).
Defined.


(** * Further properties of the code *)

Section Coverage.

Context {A : Arith}.
Variable env : Env.
Variable backend : Backend.

Unset Implicit Arguments.

(** ** The constructor *)

(** Lines 81-88 and 94-103: what the test of a given value lets through. *)
Lemma accepted_value (v v1 : pyobj) (x : exn) :
  (is_false <- py_eq_False v ;;
   if is_false then ok v else if is_str v then ok v else raise x) = inr v1 ->
  v1 = v /\ (py_eq_False v = inr true \/ is_str v = true).
Proof.
  intros H. bind_inv H as b Hb.
  destruct b.
  - injection H as <-. split; [reflexivity | left; exact Hb].
  - destruct (is_str v) eqn:Hs; [| discriminate].
    injection H as <-. split; [reflexivity | right; reflexivity].
Qed.

Lemma check_boundary_inr (v v1 : pyobj) (default : result pyobj) :
  check_boundary v default = inr v1 ->
  (v = PNone /\ default = inr v1) \/
  (v <> PNone /\ v1 = v /\ (py_eq_False v = inr true \/ is_str v = true)).
Proof.
  unfold check_boundary. intros H.
  destruct v; try (left; split; [reflexivity | exact H]);
    right; (split; [discriminate |]);
    apply (accepted_value _ _
             (AttributeError "module 'datetime' has no attribute 'dateime'") H).
Qed.

(** X1. A [Chart] the constructor returns wraps the table it was given and
    has no indicator; its ten column names are the entries of the source
    mapping; its ticker is the one given, [False] by default, and then a
    string or a value equal to [False]; its start and end are those given
    or, by default, the first and the last entry of a non-empty index. *)
Theorem Chart_init_postcondition (d : DataFrame) (src : src_arg)
    (tk s e : pyobj) (c : Chart) :
  Chart_init env d src tk s e = inr c ->
  df c = d /\
  ind c = {| index := index d; columns := [] |} /\
  pri c = [] /\ sec c = [] /\
  (exists m,
     resolved_source env src m /\
     map (fun k => assoc_get k m) source_keys
     = map Some [op c; hi c; lo c; cl c; aop c; ahi c; alo c; acl c; vo c; di c]) /\
  (tk = PNone -> ticker c = PBool false) /\
  (tk <> PNone ->
   ticker c = tk /\ (py_eq_False tk = inr true \/ is_str tk = true)) /\
  (s = PNone -> exists t, hd_error (index d) = Some t /\ start c = PTime t) /\
  (s <> PNone -> start c = s) /\
  (e = PNone -> exists t, last_opt (index d) = Some t /\ end_ c = PTime t) /\
  (e <> PNone -> end_ c = e).
Proof.
  unfold Chart_init. intros H.
  bind_inv H as m Hm. bind_inv H as tk1 Htk.
  bind_inv H as s1 Hs. bind_inv H as e1 He.
  bind_inv H as op1 Hop. bind_inv H as hi1 Hhi. bind_inv H as lo1 Hlo.
  bind_inv H as cl1 Hcl. bind_inv H as aop1 Haop. bind_inv H as ahi1 Hahi.
  bind_inv H as alo1 Halo. bind_inv H as acl1 Hacl. bind_inv H as vo1 Hvo.
  bind_inv H as di1 Hdi.
  inversion H. subst c. clear H. simpl.
  split; [reflexivity |]. split; [reflexivity |].
  split; [reflexivity |]. split; [reflexivity |].
  split; [| split; [| split; [| split; [| split; [| split]]]]].
  - exists m. split.
    + destruct src as [| n | m0 | o]; simpl.
      * bind_inv Hm as cfg Hcfg. bind_inv Hm as name Hname.
        exists cfg, name. repeat split; assumption.
      * exact Hm.
      * inversion Hm. reflexivity.
      * discriminate.
    + unfold src_getitem in *. simpl.
      repeat match goal with
             | Hk : match assoc_get ?k m with _ => _ end = inr _ |- _ =>
                 destruct (assoc_get k m); [inversion Hk; subst; clear Hk
                                           | discriminate Hk]
             end.
      reflexivity.
  - intros ->. inversion Htk. reflexivity.
  - intros Hne. destruct tk; try contradiction;
      apply (accepted_value _ _
               (TypeError "Invalid ticker '{0}'. It should be string or dict.")
               Htk).
  - intros ->. simpl in Hs. destruct (index d) as [| t rest]; [discriminate |].
    inversion Hs. exists t. split; reflexivity.
  - intros Hne. apply check_boundary_inr in Hs.
    destruct Hs as [[Hn _] | [_ [Heq _]]]; [contradiction | exact Heq].
  - intros ->. simpl in He.
    destruct (last_opt (index d)) as [t |]; [| discriminate].
    inversion He. exists t. split; reflexivity.
  - intros Hne. apply check_boundary_inr in He.
    destruct He as [[Hn _] | [_ [Heq _]]]; [contradiction | exact Heq].
Qed.

(** Peels the next step of a constructor that is to fail. *)
Ltac fails_or_next :=
  match goal with
  | |- exists x, bind ?m _ = inl x =>
      let x0 := fresh "x" in
      let v := fresh "v" in
      destruct m as [x0 | v] eqn:?; simpl; [exists x0; reflexivity |]
  end.

(** X2. On a table without rows the constructor raises as soon as [start]
    or [end] is left to its default, whatever the other arguments. *)
Theorem Chart_init_empty_index (d : DataFrame) (src : src_arg) (tk s e : pyobj) :
  index d = [] ->
  s = PNone \/ e = PNone ->
  exists x, Chart_init env d src tk s e = inl x.
Proof.
  intros Hidx H. unfold Chart_init. rewrite Hidx.
  fails_or_next. fails_or_next.
  destruct H as [-> | ->].
  - simpl. eexists. reflexivity.
  - fails_or_next. simpl. eexists. reflexivity.
Qed.

(** X3. With a dict for [src] that lacks one of the ten keys the
    constructor raises, whatever the other arguments. *)
Theorem Chart_init_missing_key (d : DataFrame) (m : list (string * string))
    (tk s e : pyobj) (k : string) :
  In k source_keys ->
  assoc_get k m = None ->
  exists x, Chart_init env d (SrcDict m) tk s e = inl x.
Proof.
  intros Hk Hnone. unfold Chart_init. simpl bind at 1.
  assert (Hget : src_getitem m k = inl (KeyError k))
    by (unfold src_getitem; rewrite Hnone; reflexivity).
  fails_or_next. fails_or_next. fails_or_next.
  do 10 fails_or_next.
  exfalso. simpl in Hk.
  repeat match goal with
         | Hor : _ \/ _ |- _ => destruct Hor as [<- | Hor]
         end;
    try contradiction; congruence.
Qed.

(** X4. A [ticker] that is neither [None], nor a string, nor equal to
    [False] is never accepted: the constructor raises. *)
Theorem Chart_init_rejects_ticker (d : DataFrame) (src : src_arg)
    (tk s e : pyobj) :
  tk <> PNone -> is_str tk = false -> py_eq_False tk <> inr true ->
  exists x, Chart_init env d src tk s e = inl x.
Proof.
  intros Hn Hs Hf. unfold Chart_init.
  fails_or_next.
  match goal with
  | |- exists x, bind ?m _ = inl x =>
      destruct m as [x1 | tk1] eqn:Htk; simpl; [exists x1; reflexivity |]
  end.
  exfalso. destruct tk; try contradiction;
    apply (accepted_value _ _
             (TypeError "Invalid ticker '{0}'. It should be string or dict."))
      in Htk;
    destruct Htk as [_ [Hfalse | Hstr]]; congruence.
Qed.

(** ** Column presence *)

(** X5. Whatever the table, repeated labels included, [has_OHLC] is true
    when the open, high, low and close columns are all there, and
    [has_OHLCV] when the volume column is there too: the two properties
    never miss data that is present. *)
Theorem has_OHLC_when_columns_present (self : Chart) :
  has_open self = true -> has_high self = true ->
  has_low self = true -> has_close self = true ->
  has_OHLC self = true /\ (has_volume self = true -> has_OHLCV self = true).
Proof.
  intros Ho Hh Hl Hc. split.
  - destruct (has_OHLC self) eqn:H; [reflexivity |].
    apply has_OHLC_false in H.
    destruct H as [H | [H | [H | H]]]; congruence.
  - intros Hv. unfold has_OHLCV. apply Nat.leb_le.
    unfold has_open, has_high, has_low, has_close, has_volume in *.
    apply mem_str_In in Ho, Hh, Hl, Hc, Hv.
    apply members_reach_count; [apply NoDup_nodup |].
    intros c Hin. apply nodup_In in Hin. simpl in Hin.
    destruct Hin as [<- | [<- | [<- | [<- | [<- | []]]]]]; assumption.
Qed.

(** X6. On a table with distinct labels [has_OHLCV] is true exactly when
    the open, high, low, close and volume columns are all there. *)
Theorem has_OHLCV_iff_columns (self : Chart) :
  NoDup (labels (df self)) ->
  has_OHLCV self = true <->
  has_open self = true /\ has_high self = true /\ has_low self = true /\
  has_close self = true /\ has_volume self = true.
Proof.
  intros Hnd.
  rewrite (@has_OHLCV_distinct_labels A self Hnd).
  rewrite (@has_OHLC_distinct_labels A self Hnd).
  tauto.
Qed.

(** ** The in-place path of the adjustment *)

Lemma divide_inplace_inr (s : Chart) (name : string) (ratio col : list num) :
  df_getitem (df s) name = inr col ->
  divide_inplace name ratio s
  = (set_df s (df_setitem (df s) name (series_div col ratio)), inr tt).
Proof.
  intros H. unfold divide_inplace, bindM, getM, liftM, putM.
  rewrite H. reflexivity.
Qed.

Lemma divide_inplace_inl (s : Chart) (name : string) (ratio : list num) (x : exn) :
  df_getitem (df s) name = inl x ->
  divide_inplace name ratio s = (s, inl x).
Proof.
  intros H. unfold divide_inplace, bindM, getM, liftM, putM.
  rewrite H. reflexivity.
Qed.

(** A column that is there is divided, and the labels stay. *)
Lemma divide_inplace_present (s : Chart) (name : string) (ratio : list num) :
  mem_str name (labels (df s)) = true ->
  exists d',
    divide_inplace name ratio s = (set_df s d', inr tt) /\
    labels d' = labels (df s).
Proof.
  intros H. destruct (@df_getitem_present A _ _ H) as [col Hcol].
  exists (df_setitem (df s) name (series_div col ratio)). split.
  - apply divide_inplace_inr. exact Hcol.
  - apply (@labels_df_setitem A). exact H.
Qed.

(** X7. In place, [adjust] on a table with distinct labels and
    [adjust_volume] on any table are all or nothing: a call that raises
    leaves the receiver as it was. *)
Theorem adjust_inplace_all_or_nothing (self : Chart) :
  (NoDup (labels (df self)) ->
   forall (s' : Chart) (x : exn),
     adjust env true self = (s', inl x) -> s' = self) /\
  (forall (s' : Chart) (x : exn),
     adjust_volume env true self = (s', inl x) -> s' = self).
Proof.
  split.
  - intros Hnd s' x. unfold adjust, bindM at 1, getM.
    destruct (negb (has_OHLC self) && has_adjusted_close self) eqn:G.
    + unfold raiseM. intros H. inversion H. reflexivity.
    + unfold bindM at 1, liftM at 1.
      destruct (ratio_of self) as [x0 | ratio] eqn:R.
      * intros H. inversion H. reflexivity.
      * assert (Hacl : has_adjusted_close self = true).
        { unfold ratio_of in R. bind_inv R as c Hc. bind_inv R as a Ha.
          apply (@df_getitem_labels A _ _ _ Ha). }
        rewrite Hacl, andb_true_r in G. apply negb_false_iff in G.
        apply (@has_OHLC_distinct_labels A self Hnd) in G.
        destruct G as [Ho [Hh [Hl Hc]]].
        unfold bindM, retM.
        destruct (divide_inplace_present self (op self) ratio Ho)
          as [d1 [E1 L1]].
        rewrite E1.
        assert (Hh1 : mem_str (hi self) (labels (df (set_df self d1))) = true)
          by (simpl; rewrite L1; exact Hh).
        destruct (divide_inplace_present _ (hi self) ratio Hh1) as [d2 [E2 L2]].
        change (hi (set_df self d1)) with (hi self).
        rewrite E2.
        assert (Hl2 : mem_str (lo self)
                        (labels (df (set_df (set_df self d1) d2))) = true)
          by (simpl; simpl in L2; rewrite L2, L1; exact Hl).
        destruct (divide_inplace_present _ (lo self) ratio Hl2) as [d3 [E3 L3]].
        rewrite E3.
        assert (Hc3 : mem_str (cl self)
                        (labels (df (set_df (set_df (set_df self d1) d2) d3)))
                      = true)
          by (simpl; simpl in L3, L2; rewrite L3, L2, L1; exact Hc).
        destruct (divide_inplace_present _ (cl self) ratio Hc3) as [d4 [E4 L4]].
        rewrite E4. intros H. discriminate.
  - intros s' x. unfold adjust_volume, bindM at 1, getM.
    destruct (negb (has_volume self) && has_close self
              && has_adjusted_close self).
    + unfold raiseM. intros H. inversion H. reflexivity.
    + unfold bindM at 1, liftM at 1.
      destruct (ratio_of self) as [x0 | ratio].
      * intros H. inversion H. reflexivity.
      * unfold bindM, retM.
        destruct (df_getitem (df self) (vo self)) as [x1 | col] eqn:Hv.
        -- rewrite (divide_inplace_inl _ _ _ _ Hv).
           intros H. inversion H. reflexivity.
        -- rewrite (divide_inplace_inr _ _ _ _ Hv). intros H. discriminate.
Qed.

Lemma set_df_again (s : Chart) (d d' : DataFrame) :
  set_df (set_df s d) d' = set_df s d'.
Proof. reflexivity. Qed.

Lemma df_getitem_after_other (d : DataFrame) (k n : string) (v : list num) :
  n <> k -> df_getitem (df_setitem d k v) n = df_getitem d n.
Proof.
  intros Hne. rewrite (@df_getitem_setitem A).
  destruct (String.eqb_spec n k); [contradiction | reflexivity].
Qed.

(** X8. When the four resolved names are distinct, [adjust] computes one
    table on both paths: on a table with distinct labels that has OHLC and
    an adjusted close, the in-place call returns [None] and leaves in the
    receiver the very table the copy path hands to the constructor. *)
Theorem adjust_inplace_agrees_with_copy (self : Chart) :
  NoDup (labels (df self)) ->
  NoDup [op self; hi self; lo self; cl self] ->
  has_OHLC self = true -> has_adjusted_close self = true ->
  exists ratio d2,
    ratio_of self = inr ratio /\
    adjust_copy self ratio = inr d2 /\
    adjust env true self = (set_df self d2, inr None) /\
    adjust env false self
    = (self, c <- Chart_init env d2 SrcNone PNone PNone PNone ;; ok (Some c)).
Proof.
  intros Hnd Hnames Hohlc Hacl.
  pose proof Hohlc as Hcols.
  apply (@has_OHLC_distinct_labels A self Hnd) in Hcols.
  destruct Hcols as [Ho [Hh [Hl Hc]]].
  destruct (@ratio_of_inr A self Hc Hacl) as [c [a [Hcc [Haa Hr]]]].
  destruct (@df_getitem_present A _ _ Ho) as [co Hco].
  destruct (@df_getitem_present A _ _ Hh) as [ch Hch].
  destruct (@df_getitem_present A _ _ Hl) as [cw Hcw].
  set (ratio := series_div c a) in *.
  set (d1 := df_setitem (df self) (op self) (series_div co ratio)).
  set (d2 := df_setitem d1 (hi self) (series_div ch ratio)).
  set (d3 := df_setitem d2 (lo self) (series_div cw ratio)).
  set (d4 := df_setitem d3 (cl self) (series_div c ratio)).
  assert (Hneq : hi self <> op self /\ lo self <> op self /\ cl self <> op self /\
                 lo self <> hi self /\ cl self <> hi self /\ cl self <> lo self).
  { inversion Hnames as [| ? ? N1 Hrest]. inversion Hrest as [| ? ? N2 Hrest2].
    inversion Hrest2 as [| ? ? N3 _]. subst. simpl in N1, N2, N3.
    repeat split; intros E; rewrite E in *; intuition. }
  destruct Hneq as [Nho [Nlo [Nco [Nlh [Nch Ncl]]]]].
  assert (Hcopy : adjust_copy self ratio = inr d4).
  { unfold adjust_copy, divide_into.
    rewrite Hco. simpl. rewrite Hch. simpl. rewrite Hcw. simpl.
    rewrite Hcc. reflexivity. }
  exists ratio, d4. split; [exact Hr |]. split; [exact Hcopy |]. split.
  - unfold adjust, bindM at 1, getM. rewrite Hohlc. simpl.
    unfold bindM at 1, liftM at 1. rewrite Hr.
    unfold bindM, retM.
    rewrite (divide_inplace_inr self _ ratio co Hco).
    fold d1.
    assert (H1 : df_getitem (df (set_df self d1)) (hi self) = inr ch).
    { simpl. unfold d1. rewrite (df_getitem_after_other _ _ _ _ Nho). exact Hch. }
    rewrite (divide_inplace_inr (set_df self d1) _ ratio ch H1).
    rewrite set_df_again. change (df (set_df self d1)) with d1. fold d2.
    assert (H2 : df_getitem (df (set_df self d2)) (lo self) = inr cw).
    { simpl. unfold d2, d1.
      rewrite (df_getitem_after_other _ _ _ _ Nlh).
      rewrite (df_getitem_after_other _ _ _ _ Nlo). exact Hcw. }
    rewrite (divide_inplace_inr (set_df self d2) _ ratio cw H2).
    rewrite set_df_again. change (df (set_df self d2)) with d2. fold d3.
    assert (H3 : df_getitem (df (set_df self d3)) (cl self) = inr c).
    { simpl. unfold d3, d2, d1.
      rewrite (df_getitem_after_other _ _ _ _ Ncl).
      rewrite (df_getitem_after_other _ _ _ _ Nch).
      rewrite (df_getitem_after_other _ _ _ _ Nco). exact Hcc. }
    rewrite (divide_inplace_inr (set_df self d3) _ ratio c H3).
    rewrite set_df_again. reflexivity.
  - unfold adjust, bindM, getM, liftM, retM. rewrite Hohlc. simpl.
    rewrite Hr, Hcopy.
    destruct (Chart_init env d4 SrcNone PNone PNone PNone); reflexivity.
Qed.

(** X9. [adjust_volume] computes one table on both paths: on a table with
    distinct labels that has a volume, a close and an adjusted-close
    column, the in-place call returns [None] and leaves in the receiver the
    table the copy path hands to the constructor, in which the volume
    column is the old one divided by the ratio and every other column is
    untouched. *)
Theorem adjust_volume_inplace_agrees_with_copy (self : Chart) :
  NoDup (labels (df self)) ->
  has_volume self = true -> has_close self = true ->
  has_adjusted_close self = true ->
  exists ratio col d2,
    ratio_of self = inr ratio /\
    df_getitem (df self) (vo self) = inr col /\
    d2 = df_setitem (df self) (vo self) (series_div col ratio) /\
    adjust_volume env true self = (set_df self d2, inr None) /\
    adjust_volume env false self
    = (self, c <- Chart_init env d2 SrcNone PNone PNone PNone ;; ok (Some c)) /\
    df_getitem d2 (vo self) = inr (series_div col ratio) /\
    (forall name, name <> vo self ->
                  df_getitem d2 name = df_getitem (df self) name) /\
    labels d2 = labels (df self) /\ index d2 = index (df self).
Proof.
  intros _ Hv Hc Hacl.
  destruct (@ratio_of_inr A self Hc Hacl) as [c [a [Hcc [Haa Hr]]]].
  destruct (@df_getitem_present A _ _ Hv) as [col Hcol].
  exists (series_div c a), col,
    (df_setitem (df self) (vo self) (series_div col (series_div c a))).
  split; [exact Hr |]. split; [exact Hcol |]. split; [reflexivity |].
  split; [| split; [| split; [| split; [| split]]]].
  - unfold adjust_volume, bindM at 1, getM. rewrite Hv, Hc, Hacl. simpl.
    unfold bindM at 1, liftM at 1. rewrite Hr. unfold bindM, retM.
    rewrite (divide_inplace_inr self _ _ col Hcol). reflexivity.
  - unfold adjust_volume, bindM, getM, liftM, retM.
    rewrite Hv, Hc, Hacl. simpl. rewrite Hr.
    unfold divide_into. rewrite Hcol. simpl.
    match goal with
    | |- context [Chart_init env ?d _ _ _ _] =>
        destruct (Chart_init env d SrcNone PNone PNone PNone)
    end; reflexivity.
  - rewrite (@df_getitem_setitem A), String.eqb_refl. reflexivity.
  - intros name Hne. apply df_getitem_after_other. exact Hne.
  - apply (@labels_df_setitem A). exact Hv.
  - reflexivity.
Qed.

(** One in-place division either raises and leaves the receiver, or
    replaces one column. *)
Lemma divide_inplace_cases (s : Chart) (name : string) (ratio : list num) :
  (exists x, divide_inplace name ratio s = (s, inl x)) \/
  (exists col, divide_inplace name ratio s
               = (set_df s (df_setitem (df s) name (series_div col ratio)),
                  inr tt)).
Proof.
  destruct (df_getitem (df s) name) as [x | col] eqn:H.
  - left. exists x. apply divide_inplace_inl. exact H.
  - right. exists col. apply divide_inplace_inr. exact H.
Qed.

(** X10. Whatever the outcome, a raise half-way included, [adjust] and
    [adjust_volume] change nothing of the receiver but columns of its
    table: the ticker, the range, the column mapping and the indicators
    stay, the time index stays, and so does every column whose label is
    not one of the names being adjusted. *)
Theorem adjust_changes_adjusted_columns_only (self : Chart) (inplace : bool) :
  (exists d',
     fst (adjust env inplace self) = set_df self d' /\
     index d' = index (df self) /\
     forall name, ~ In name [op self; hi self; lo self; cl self] ->
                  df_getitem d' name = df_getitem (df self) name) /\
  (exists d',
     fst (adjust_volume env inplace self) = set_df self d' /\
     index d' = index (df self) /\
     forall name, name <> vo self ->
                  df_getitem d' name = df_getitem (df self) name).
Proof.
  assert (Hself : forall P : DataFrame -> Prop, P (df self) ->
            exists d', self = set_df self d' /\ P d').
  { intros P HP. exists (df self). split; [| exact HP].
    symmetry. apply (@set_df_same A). }
  destruct inplace.
  - split.
    + unfold adjust, bindM at 1, getM.
      destruct (negb (has_OHLC self) && has_adjusted_close self);
        [apply (Hself (fun d => _ /\ _)); split; reflexivity |].
      unfold bindM at 1, liftM at 1.
      destruct (ratio_of self) as [x | ratio];
        [apply (Hself (fun d => _ /\ _)); split; reflexivity |].
      unfold bindM, retM.
      assert (Hstep : forall (d : DataFrame) (k : string) (v : list num),
                 In k [op self; hi self; lo self; cl self] ->
                 (index d = index (df self) /\
                  forall name, ~ In name [op self; hi self; lo self; cl self] ->
                               df_getitem d name = df_getitem (df self) name) ->
                 index (df_setitem d k v) = index (df self) /\
                 forall name, ~ In name [op self; hi self; lo self; cl self] ->
                              df_getitem (df_setitem d k v) name
                              = df_getitem (df self) name).
      { intros d k v Hk [Hi Hf]. split; [exact Hi |].
        intros name Hn. rewrite df_getitem_after_other; [apply Hf; exact Hn |].
        intros ->. contradiction. }
      assert (H0 : index (df self) = index (df self) /\
                   forall name, ~ In name [op self; hi self; lo self; cl self] ->
                                df_getitem (df self) name
                                = df_getitem (df self) name)
        by (split; reflexivity).
      destruct (divide_inplace_cases self (op self) ratio) as [[x E] | [c1 E]];
        rewrite E; [apply (Hself (fun d => _ /\ _)); exact H0 |].
      pose proof (Hstep _ (op self) (series_div c1 ratio)
                    (or_introl eq_refl) H0) as H1.
      match goal with
      | |- context [set_df self ?d] => set (d1 := d) in *
      end.
      destruct (divide_inplace_cases (set_df self d1) (hi self) ratio)
        as [[x E2] | [c2 E2]]; rewrite E2;
        [exists d1; split; [reflexivity | exact H1] |].
      rewrite set_df_again. change (df (set_df self d1)) with d1.
      pose proof (Hstep d1 (hi self) (series_div c2 ratio)
                    (or_intror (or_introl eq_refl)) H1) as H2.
      match goal with
      | |- context [set_df self ?d] => set (d2 := d) in *
      end.
      destruct (divide_inplace_cases (set_df self d2) (lo self) ratio)
        as [[x E3] | [c3 E3]]; rewrite E3;
        [exists d2; split; [reflexivity | exact H2] |].
      rewrite set_df_again. change (df (set_df self d2)) with d2.
      pose proof (Hstep d2 (lo self) (series_div c3 ratio)
                    (or_intror (or_intror (or_introl eq_refl))) H2) as H3.
      match goal with
      | |- context [set_df self ?d] => set (d3 := d) in *
      end.
      destruct (divide_inplace_cases (set_df self d3) (cl self) ratio)
        as [[x E4] | [c4 E4]]; rewrite E4;
        [exists d3; split; [reflexivity | exact H3] |].
      rewrite set_df_again. change (df (set_df self d3)) with d3.
      pose proof (Hstep d3 (cl self) (series_div c4 ratio)
                    (or_intror (or_intror (or_intror (or_introl eq_refl)))) H3)
        as H4.
      eexists. split; [reflexivity | exact H4].
    + unfold adjust_volume, bindM at 1, getM.
      destruct (negb (has_volume self) && has_close self
                && has_adjusted_close self);
        [apply (Hself (fun d => _ /\ _)); split; reflexivity |].
      unfold bindM at 1, liftM at 1.
      destruct (ratio_of self) as [x | ratio];
        [apply (Hself (fun d => _ /\ _)); split; reflexivity |].
      unfold bindM, retM.
      destruct (divide_inplace_cases self (vo self) ratio) as [[x E] | [c1 E]];
        rewrite E; [apply (Hself (fun d => _ /\ _)); split; reflexivity |].
      eexists. split; [reflexivity |]. split; [reflexivity |].
      intros name Hne. apply df_getitem_after_other. exact Hne.
  - destruct (@adjust_copy_path_state A env self) as [E1 E2].
    rewrite E1, E2.
    split; apply (Hself (fun d => _ /\ _)); split; reflexivity.
Qed.

(** ** The arguments of [to_figure] *)

Lemma check_kwargs_invalid (kw : list (string * pyobj)) (k : string) :
  In k (keys kw) -> mem_str k (VALID_FIGURE_KWARGS env) = false ->
  check_kwargs env kw = inl (Exception "Invalid keyword '{0}'.").
Proof.
  unfold check_kwargs. intros Hin Hk.
  induction kw as [| [k0 v0] kw IH]; simpl in *; [contradiction |].
  destruct (mem_str k0 (VALID_FIGURE_KWARGS env)) eqn:H0; simpl.
  - destruct Hin as [-> | Hin]; [congruence |].
    specialize (IH Hin).
    destruct (traverse _ kw) as [x | ys]; simpl in *; [exact IH | discriminate].
  - reflexivity.
Qed.

Lemma check_kwargs_valid (kw : list (string * pyobj)) :
  Forall (fun k => mem_str k (VALID_FIGURE_KWARGS env) = true) (keys kw) ->
  check_kwargs env kw = inr tt.
Proof.
  unfold check_kwargs. intros H.
  induction kw as [| [k0 v0] kw IH]; simpl in *; [reflexivity |].
  inversion H as [| ? ? Hk Hrest]; subst. rewrite Hk. simpl.
  specialize (IH Hrest).
  destruct (traverse _ kw) as [x | ys]; simpl in *; [discriminate | reflexivity].
Qed.

(** X11. A keyword that is not one of [VALID_FIGURE_KWARGS] stops
    [to_figure] before anything else: the call raises the invalid-keyword
    exception and prints nothing. *)
Theorem to_figure_unknown_keyword (self : Chart) (a : figure_args)
    (out : list string) (k : string) :
  In k (keys (kwargs a)) ->
  mem_str k (VALID_FIGURE_KWARGS env) = false ->
  to_figure env self a out = (out, inl (Exception "Invalid keyword '{0}'.")).
Proof.
  intros Hin Hk. apply (@to_figure_resolve_error A).
  unfold resolve_arguments.
  rewrite (check_kwargs_invalid _ _ Hin Hk). reflexivity.
Qed.

(** X12. With valid keywords, a [figsize] that is not a tuple raises
    [TypeError] and a tuple of another length than two raises an
    exception, in both cases with nothing printed; a pair of ints is
    scaled by 80 and replaces [dimensions]. *)
Theorem to_figure_figsize (self : Chart) (a : figure_args) (out : list string)
    (figsize : pyobj) :
  valid_kwargs env a ->
  assoc_get "figsize" (kwargs a) = Some figsize ->
  ((forall l, figsize <> PTuple l) ->
   to_figure env self a out
   = (out, inl (TypeError "Invalid figsize '{0}'. It should be tuple."))) /\
  (forall l, figsize = PTuple l -> length l <> 2 ->
   to_figure env self a out
   = (out, inl (Exception "Invalid figsize '{0}'. It should be tuple of len 2."))) /\
  (forall w h r, figsize = PTuple [PInt w; PInt h] ->
   resolve_arguments env self a = inr r ->
   r_dimensions r = PTuple [PInt (80 * w); PInt (80 * h)]).
Proof.
  intros Hkw Hfig.
  pose proof (check_kwargs_valid _ Hkw) as Hck.
  split; [| split].
  - intros Hnot. apply (@to_figure_resolve_error A).
    unfold resolve_arguments. rewrite Hck, Hfig. simpl.
    destruct figsize; try reflexivity.
    exfalso. apply (Hnot l). reflexivity.
  - intros l -> Hlen. apply (@to_figure_resolve_error A).
    unfold resolve_arguments. rewrite Hck, Hfig. simpl.
    destruct (Nat.eqb_spec (length l) 2); [contradiction | reflexivity].
  - intros w h r -> Hr. unfold resolve_arguments in Hr.
    rewrite Hck, Hfig in Hr. simpl in Hr.
    bind_inv Hr as ty Hty. bind_inv Hr as ti Hti.
    bind_inv Hr as ty2 Hty2. bind_inv Hr as vol Hvol. bind_inv Hr as sub Hsub.
    injection Hr as <-. simpl.
    reflexivity.
Qed.

(** Peels the next step of an argument resolution that is to fail. *)
Ltac resolve_fails_or_next :=
  match goal with
  | |- exists x, bind ?m _ = inl x =>
      let x0 := fresh "x" in
      let v := fresh "v" in
      destruct m as [x0 | v] eqn:?; simpl bind; [exists x0; reflexivity |]
  end.

(** X13. [to_figure] returns no figure, and prints nothing, when the kind
    given (by [type] or [kind]) is not a string, or the volume or the
    subtitle given is not a bool. *)
Theorem to_figure_rejects_mistyped (self : Chart) (a : figure_args)
    (out : list string) :
  (given_type a <> PNone /\ is_str (given_type a) = false) \/
  (arg_volume a <> PNone /\ is_bool (arg_volume a) = false) \/
  (arg_subtitle a <> PNone /\ is_bool (arg_subtitle a) = false) ->
  exists x, to_figure env self a out = (out, inl x).
Proof.
  intros H.
  assert (Hr : exists x, resolve_arguments env self a = inl x).
  { unfold resolve_arguments.
    resolve_fails_or_next. cbv zeta.
    resolve_fails_or_next.
    fold (given_type a) in *.
    resolve_fails_or_next.
    resolve_fails_or_next.
    resolve_fails_or_next.
    resolve_fails_or_next.
    resolve_fails_or_next.
    exfalso.
    destruct H as [[Hn Hs] | [[Hn Hb] | [Hn Hb]]].
    - destruct (given_type a); try contradiction; simpl in *;
        try discriminate;
        repeat match goal with
               | E : ok _ = inr _ |- _ => injection E as <-
               end; discriminate.
    - unfold resolve_volume in *.
      destruct (arg_volume a); try contradiction; simpl in *; discriminate.
    - destruct (arg_subtitle a); try contradiction; simpl in *; discriminate. }
  destruct Hr as [x Hx]. exists x.
  apply (@to_figure_resolve_error A). exact Hx.
Qed.

(** X14. The defaults of [to_figure] (lines 397-422), for every call whose
    arguments resolve: without a kind the chart is a candlestick chart if
    [has_OHLC] and else a line chart of a chart that has a close; a kind
    given is kept; the volume toggle defaults to [has_volume], the
    subtitle to [True], the legend to [True]; the title given is kept, and
    it defaults to the empty string, on a chart without a ticker only. *)
Theorem resolve_arguments_defaults (self : Chart) (a : figure_args) (r : resolved) :
  resolve_arguments env self a = inr r ->
  (given_type a = PNone ->
   (has_OHLC self = true /\ r_type r = "candlestick") \/
   (has_OHLC self = false /\ has_close self = true /\ r_type r = "line")) /\
  (forall s, given_type a = PStr s -> r_type r = s) /\
  (arg_volume a = PNone -> r_volume r = has_volume self) /\
  (forall b, arg_volume a = PBool b -> r_volume r = b) /\
  (arg_subtitle a = PNone -> r_subtitle r = true) /\
  (forall b, arg_subtitle a = PBool b -> r_subtitle r = b) /\
  (given_legend a = PNone -> r_legend r = PBool true) /\
  (given_legend a <> PNone -> r_legend r = given_legend a) /\
  (arg_title a = PNone ->
   r_title r = PStr "" /\ truthy (ticker self) = inr false) /\
  (arg_title a <> PNone -> r_title r = arg_title a).
Proof.
  unfold resolve_arguments. intros H.
  bind_inv H as u Hu. cbv zeta in H.
  bind_inv H as dims Hdims. bind_inv H as ty Hty. bind_inv H as ti Hti.
  bind_inv H as ty2 Hty2. bind_inv H as vol Hvol. bind_inv H as sub Hsub.
  injection H as <-. simpl.
  fold (given_type a) in Hty. fold (given_legend a).
  split; [| split; [| split; [| split; [| split; [| split;
    [| split; [| split; [| split]]]]]]]].
  - intros Hnone. rewrite Hnone in Hty.
    destruct (has_OHLC self).
    + injection Hty as <-. injection Hty2 as <-. left. split; reflexivity.
    + destruct (has_close self); [| discriminate].
      injection Hty as <-. injection Hty2 as <-.
      right. repeat split; reflexivity.
  - intros s0 Hs. rewrite Hs in Hty. injection Hty as <-.
    injection Hty2 as <-. reflexivity.
  - intros Hnone. unfold resolve_volume in Hvol. rewrite Hnone in Hvol.
    injection Hvol as <-. reflexivity.
  - intros b Hb. unfold resolve_volume in Hvol. rewrite Hb in Hvol.
    injection Hvol as <-. reflexivity.
  - intros Hnone. rewrite Hnone in Hsub. injection Hsub as <-. reflexivity.
  - intros b Hb. rewrite Hb in Hsub. injection Hsub as <-. reflexivity.
  - intros ->. reflexivity.
  - intros Hne. destruct (given_legend a); try contradiction; reflexivity.
  - intros Hnone. unfold resolve_title in Hti. rewrite Hnone in Hti.
    bind_inv Hti as t Ht. destruct t; [discriminate |].
    injection Hti as <-. split; [reflexivity | exact Ht].
  - intros Hne. unfold resolve_title in Hti.
    destruct (arg_title a); try contradiction; injection Hti as <-; reflexivity.
Qed.

(** X15. A call without a kind on a chart that has neither OHLC nor a
    close column (valid keywords, no [figsize]) raises the exception of
    line 404 and prints nothing. *)
Theorem to_figure_without_kind_or_data (self : Chart) (a : figure_args)
    (out : list string) :
  valid_kwargs env a ->
  assoc_get "figsize" (kwargs a) = None ->
  given_type a = PNone ->
  has_OHLC self = false -> has_close self = false ->
  to_figure env self a out
  = (out, inl (Exception "Chart has neither OLHC nor close data.")).
Proof.
  intros Hkw Hfig Hty Ho Hc. apply (@to_figure_resolve_error A).
  unfold resolve_arguments.
  rewrite (check_kwargs_valid _ Hkw), Hfig. simpl.
  fold (given_type a). rewrite Hty, Ho, Hc. reflexivity.
Qed.

(** ** Loops *)

Lemma traverse_nth {T U : Type} (f : T -> result U) (l : list T) :
  forall ys, traverse f l = inr ys ->
  length ys = length l /\
  forall i y, nth_error ys i = Some y ->
              exists x, nth_error l i = Some x /\ f x = inr y.
Proof.
  induction l as [| x l IH]; simpl; intros ys H.
  - injection H as <-. split; [reflexivity |].
    intros [| i] y Hy; discriminate.
  - bind_inv H as y0 Hy0. bind_inv H as ys0 Hys0. injection H as <-.
    destruct (IH ys0 Hys0) as [Hlen Hnth]. split; [simpl; lia |].
    intros [| i] y Hy; simpl in *.
    + injection Hy as <-. exists x. split; [reflexivity | exact Hy0].
    + apply Hnth. exact Hy.
Qed.

Lemma enumerate_from_nth {T : Type} (l : list T) :
  forall k i p, nth_error (enumerate_from k l) i = Some p ->
                exists x, nth_error l i = Some x /\ p = (k + i, x).
Proof.
  induction l as [| x l IH]; simpl; intros k i p H.
  - destruct i; discriminate.
  - destruct i as [| i]; simpl in *.
    + injection H as <-. exists x. split; [reflexivity |].
      f_equal. lia.
    + destruct (IH (S k) i p H) as [x0 [Hx0 ->]].
      exists x0. split; [exact Hx0 |]. f_equal. lia.
Qed.

Lemma enumerate_from_length {T : Type} (l : list T) :
  forall k, length (enumerate_from k l) = length l.
Proof.
  induction l as [| x l IH]; simpl; intros k; [reflexivity |].
  rewrite IH. reflexivity.
Qed.

(** ** Keys that an assignment leaves alone *)

Lemma py_setpath_frame (o : pyobj) (k : string) (p : list string) (v o' : pyobj) :
  py_setpath o (k :: p) v = inr o' ->
  forall k', k' <> k -> py_getitem o' k' = py_getitem o k'.
Proof.
  intros H k' Hne. apply (@py_setpath_head A) in H.
  destruct H as [w [H _]].
  apply (@py_getitem_setitem_other A o k k' w o' H Hne).
Qed.

Lemma bind_color_frame (colors t : pyobj) (k : string) (p : list string)
    (key : string) (t' : pyobj) :
  bind_color colors t (k :: p) key = inr t' ->
  forall k', k' <> k -> py_getitem t' k' = py_getitem t k'.
Proof.
  unfold bind_color. intros H. bind_inv H as c Hc.
  apply (py_setpath_frame _ _ _ _ _ H).
Qed.

Lemma bind_column_inr (self : Chart) (t : pyobj) (k name : string) (t' : pyobj) :
  bind_column self t k name = inr t' ->
  exists col, df_getitem (df self) name = inr col /\
              py_setitem t k (PSeries col) = inr t'.
Proof.
  unfold bind_column. intros H. bind_inv H as col Hcol.
  exists col. split; assumption.
Qed.

(** Reads [k] in [t'] back to an earlier object across one assignment to
    another key. *)
Ltac back_over H :=
  first
    [ rewrite (@py_getitem_setitem_other A _ _ _ _ _ H) by discriminate
    | rewrite (py_setpath_frame _ _ _ _ _ H) by discriminate
    | rewrite (bind_color_frame _ _ _ _ _ _ H) by discriminate ].

(** ** The traces *)

(** Lines 499-503. *)
Lemma close_trace_fields (self : Chart) (r : resolved) (traces t : pyobj) :
  close_trace self r traces = inr t ->
  exists col,
    df_getitem (df self) (cl self) = inr col /\
    py_getitem t "x" = inr (PIndex (index (df self))) /\
    py_getitem t "y" = inr (PSeries col) /\
    py_getitem t "name" = inr (r_title r) /\
    py_getitem t "yaxis" = inr (PStr "y1") /\
    py_getitem t "showlegend" = inr (PBool false).
Proof.
  unfold close_trace. intros H.
  bind_inv H as t0 H0. bind_inv H as t1 H1. bind_inv H as t2 H2.
  bind_inv H as t3 H3. bind_inv H as t4 H4.
  apply bind_column_inr in H2. destruct H2 as [col [Hcol H2]].
  exists col. split; [exact Hcol |].
  repeat split.
  - back_over H. back_over H4. back_over H3. back_over H2.
    apply (@py_getitem_setitem_same A _ _ _ _ H1).
  - back_over H. back_over H4. back_over H3.
    apply (@py_getitem_setitem_same A _ _ _ _ H2).
  - back_over H. back_over H4.
    apply (@py_getitem_setitem_same A _ _ _ _ H3).
  - back_over H. apply (@py_getitem_setitem_same A _ _ _ _ H4).
  - apply (@py_getitem_setitem_same A _ _ _ _ H).
Qed.

(** Lines 470-539: what the main trace carries whatever its colours. *)
Lemma main_trace_fields (self : Chart) (r : resolved) (colors traces t : pyobj) :
  main_trace env self r colors traces = inr t ->
  py_getitem t "x" = inr (PIndex (index (df self))) /\
  py_getitem t "name" = inr (r_title r) /\
  py_getitem t "yaxis" = inr (PStr "y1") /\
  py_getitem t "showlegend" = inr (PBool false) /\
  (mem_str (r_type r) (OHLC_TRACES env) = true ->
   exists o h l c,
     df_getitem (df self) (op self) = inr o /\
     df_getitem (df self) (hi self) = inr h /\
     df_getitem (df self) (lo self) = inr l /\
     df_getitem (df self) (cl self) = inr c /\
     py_getitem t "open" = inr (PSeries o) /\
     py_getitem t "high" = inr (PSeries h) /\
     py_getitem t "low" = inr (PSeries l) /\
     py_getitem t "close" = inr (PSeries c)) /\
  (mem_str (r_type r) (OHLC_TRACES env) = false ->
   exists c,
     df_getitem (df self) (cl self) = inr c /\
     py_getitem t "y" = inr (PSeries c)).
Proof.
  unfold main_trace. intros H.
  destruct (mem_str (r_type r) (OHLC_TRACES env)) eqn:Hk.
  - bind_inv H as t0 H0. bind_inv H as t1 H1. bind_inv H as t2 H2.
    bind_inv H as t3 H3. bind_inv H as t4 H4. bind_inv H as t5 H5.
    bind_inv H as t6 H6. bind_inv H as t7 H7. bind_inv H as t8 H8.
    bind_inv H as t9 H9.
    apply bind_column_inr in H2. destruct H2 as [o [Ho H2]].
    apply bind_column_inr in H3. destruct H3 as [h [Hh H3]].
    apply bind_column_inr in H4. destruct H4 as [l [Hl H4]].
    apply bind_column_inr in H5. destruct H5 as [c [Hc H5]].
    assert (F9 : forall k, k <> "increasing" -> k <> "decreasing" ->
                           py_getitem t9 k = py_getitem t8 k).
    { intros k N1 N2.
      destruct (String.eqb (r_type r) "candlestick").
      - bind_inv H9 as u1 U1. bind_inv H9 as u2 U2. bind_inv H9 as u3 U3.
        rewrite (bind_color_frame _ _ _ _ _ _ H9 k N2).
        rewrite (bind_color_frame _ _ _ _ _ _ U3 k N2).
        rewrite (bind_color_frame _ _ _ _ _ _ U2 k N1).
        apply (bind_color_frame _ _ _ _ _ _ U1 k N1).
      - injection H9 as <-. reflexivity. }
    assert (F : forall k, k <> "increasing" -> k <> "decreasing" ->
                          py_getitem t k = py_getitem t8 k).
    { intros k N1 N2.
      destruct (String.eqb (r_type r) "ohlc").
      - bind_inv H as u1 U1.
        rewrite (bind_color_frame _ _ _ _ _ _ H k N2).
        rewrite (bind_color_frame _ _ _ _ _ _ U1 k N1).
        apply F9; assumption.
      - injection H as <-. apply F9; assumption. }
    split; [| split; [| split; [| split; [| split]]]].
    + rewrite F by discriminate.
      back_over H8. back_over H7. back_over H6. back_over H5. back_over H4.
      back_over H3. back_over H2.
      apply (@py_getitem_setitem_same A _ _ _ _ H1).
    + rewrite F by discriminate. back_over H8. back_over H7.
      apply (@py_getitem_setitem_same A _ _ _ _ H6).
    + rewrite F by discriminate. back_over H8.
      apply (@py_getitem_setitem_same A _ _ _ _ H7).
    + rewrite F by discriminate.
      apply (@py_getitem_setitem_same A _ _ _ _ H8).
    + intros _. exists o, h, l, c.
      split; [exact Ho |]. split; [exact Hh |].
      split; [exact Hl |]. split; [exact Hc |].
      repeat split; rewrite F by discriminate.
      * back_over H8. back_over H7. back_over H6. back_over H5.
        back_over H4. back_over H3.
        apply (@py_getitem_setitem_same A _ _ _ _ H2).
      * back_over H8. back_over H7. back_over H6. back_over H5. back_over H4.
        apply (@py_getitem_setitem_same A _ _ _ _ H3).
      * back_over H8. back_over H7. back_over H6. back_over H5.
        apply (@py_getitem_setitem_same A _ _ _ _ H4).
      * back_over H8. back_over H7. back_over H6.
        apply (@py_getitem_setitem_same A _ _ _ _ H5).
    + intros Hfalse. discriminate.
  - assert (Hclose : exists t0 head key,
               close_trace self r traces = inr t0 /\
               head <> "x" /\ head <> "y" /\ head <> "name" /\
               head <> "yaxis" /\ head <> "showlegend" /\
               bind_color colors t0 [head; "color"] key = inr t).
    { destruct (contains "line" (r_type r)).
      - bind_inv H as t0 H0. exists t0, "line", "primary".
        repeat split; try discriminate; assumption.
      - destruct (contains "area" (r_type r)).
        + bind_inv H as t0 H0. exists t0, "line", "primary".
          repeat split; try discriminate; assumption.
        + destruct (contains "scatter" (r_type r)); [| discriminate].
          bind_inv H as t0 H0. exists t0, "scatter", "primary".
          repeat split; try discriminate; assumption. }
    destruct Hclose as [t0 [head [key [H0 [N1 [N2 [N3 [N4 [N5 Hc]]]]]]]]].
    destruct (close_trace_fields _ _ _ _ H0) as [c [Hcol [Fx [Fy [Fn [Fa Fs]]]]]].
    pose proof (bind_color_frame _ _ _ _ _ _ Hc) as F.
    split; [| split; [| split; [| split; [| split]]]].
    + rewrite F; [exact Fx | congruence].
    + rewrite F; [exact Fn | congruence].
    + rewrite F; [exact Fa | congruence].
    + rewrite F; [exact Fs | congruence].
    + intros Htrue. discriminate.
    + intros _. exists c. split; [exact Hcol |].
      rewrite F; [exact Fy | congruence].
Qed.

(** Lines 542-558 and 597-612: what the trace of an indicator carries. *)
Lemma indicator_trace_fields (self : Chart) (colors traces : pyobj)
    (yaxis name : string) (i : Indicator) (t : pyobj) :
  indicator_trace self colors traces yaxis name i = inr t ->
  exists col,
    df_getitem (ind self) name = inr col /\
    py_getitem t "x" = inr (PIndex (index (ind self))) /\
    py_getitem t "y" = inr (PSeries col) /\
    py_getitem t "name" = inr (PStr name) /\
    py_getitem t "yaxis" = inr (PStr yaxis).
Proof.
  unfold indicator_trace. intros H.
  bind_inv H as t0 H0. bind_inv H as t1 H1. bind_inv H as col Hcol.
  bind_inv H as t2 H2. bind_inv H as t3 H3. bind_inv H as t4 H4.
  bind_inv H as t5 H5.
  assert (F : forall k, k <> "fillcolor" -> py_getitem t k = py_getitem t5 k).
  { intros k Nk.
    destruct (contains "area" (ind_type i)); [| injection H as <-; reflexivity].
    destruct (ind_fillcolor i); [| injection H as <-; reflexivity].
    apply (bind_color_frame _ _ _ _ _ _ H k Nk). }
  exists col. split; [exact Hcol |].
  repeat split; rewrite F by discriminate.
  - back_over H5. back_over H4. back_over H3. back_over H2.
    apply (@py_getitem_setitem_same A _ _ _ _ H1).
  - back_over H5. back_over H4. back_over H3.
    apply (@py_getitem_setitem_same A _ _ _ _ H2).
  - back_over H5. back_over H4.
    apply (@py_getitem_setitem_same A _ _ _ _ H3).
  - back_over H5. apply (@py_getitem_setitem_same A _ _ _ _ H4).
Qed.

(** Lines 561-588: the volume trace, present exactly when the volume is
    enabled. *)
Lemma volume_trace_fields (self : Chart) (r : resolved) (colors traces : pyobj)
    (ts : list pyobj) :
  volume_trace env self r colors traces = inr ts ->
  length ts = delta (r_volume r) /\
  forall t, In t ts ->
    exists col,
      df_getitem (df self) (vo self) = inr col /\
      py_getitem t "x" = inr (PIndex (index (df self))) /\
      py_getitem t "y" = inr (PSeries col) /\
      py_getitem t "name" = inr (PStr "Volume") /\
      py_getitem t "yaxis" = inr (PStr "y2") /\
      py_getitem t "showlegend" = inr (PBool false).
Proof.
  unfold volume_trace. intros H.
  destruct (r_volume r).
  - bind_inv H as t0 H0. bind_inv H as t1 H1. bind_inv H as t2 H2.
    bind_inv H as t3 H3. bind_inv H as t4 H4. bind_inv H as t5 H5.
    bind_inv H as color Hcolor. bind_inv H as t6 H6.
    injection H as <-. split; [reflexivity |].
    intros t [<- | []].
    apply bind_column_inr in H2. destruct H2 as [col [Hcol H2]].
    assert (F : forall k, k <> "marker" -> py_getitem t6 k = py_getitem t5 k).
    { intros k Nk.
      destruct (String.eqb (r_type r) "candlestick");
        bind_inv H6 as u1 U1.
      - rewrite (bind_color_frame _ _ _ _ _ _ H6 k Nk).
        apply (py_setpath_frame _ _ _ _ _ U1 k Nk).
      - rewrite (py_setpath_frame _ _ _ _ _ H6 k Nk).
        apply (py_setpath_frame _ _ _ _ _ U1 k Nk). }
    exists col. split; [exact Hcol |].
    repeat split; rewrite F by discriminate.
    + back_over H5. back_over H4. back_over H3. back_over H2.
      apply (@py_getitem_setitem_same A _ _ _ _ H1).
    + back_over H5. back_over H4. back_over H3.
      apply (@py_getitem_setitem_same A _ _ _ _ H2).
    + back_over H5. back_over H4.
      apply (@py_getitem_setitem_same A _ _ _ _ H3).
    + back_over H5. apply (@py_getitem_setitem_same A _ _ _ _ H4).
    + apply (@py_getitem_setitem_same A _ _ _ _ H5).
  - injection H as <-. split; [reflexivity |]. intros t [].
Qed.

(** Every stage a successful call went through. *)
Lemma to_figure_stages (self : Chart) (a : figure_args) (out out' : list string)
    (fig : pyobj) :
  to_figure env self a out = (out', inr fig) ->
  exists r template colors traces additions L0 data L1 L2 L3,
    resolve_arguments env self a = inr r /\
    load_template env a r = inr template /\
    py_getitem template "colors" = inr colors /\
    py_getitem template "traces" = inr traces /\
    py_getitem template "additions" = inr additions /\
    py_getitem template "layout" = inr L0 /\
    build_data env self r colors traces = inr data /\
    axis_layout self r additions L0 out = (out', inr L1) /\
    margin_layout L1 = inr L2 /\
    subtitle_layout env self r colors L2 = inr L3 /\
    fig = PDict [("data", PList data); ("layout", L3)].
Proof.
  unfold to_figure. intros H.
  bindM_inv H as r s1 Hr. apply liftM_inr in Hr. destruct Hr as [-> Hr].
  bindM_inv H as template s2 Ht. apply liftM_inr in Ht. destruct Ht as [-> Ht].
  bindM_inv H as colors s3 Hc. apply liftM_inr in Hc. destruct Hc as [-> Hc].
  bindM_inv H as traces s4 Htr. apply liftM_inr in Htr. destruct Htr as [-> Htr].
  bindM_inv H as additions s5 Had. apply liftM_inr in Had. destruct Had as [-> Had].
  bindM_inv H as L0 s6 HL0. apply liftM_inr in HL0. destruct HL0 as [-> HL0].
  bindM_inv H as data s7 Hd. apply liftM_inr in Hd. destruct Hd as [-> Hd].
  bindM_inv H as L1 s8 Hax.
  bindM_inv H as L2 s9 Hm. apply liftM_inr in Hm. destruct Hm as [-> Hm].
  bindM_inv H as L3 s10 Hs. apply liftM_inr in Hs. destruct Hs as [-> Hs].
  unfold retM in H. injection H as <- <-.
  exists r, template, colors, traces, additions, L0, data, L1, L2, L3.
  repeat split; assumption.
Qed.

(** X16. The traces of a figure, in their order: the main trace on [y1]
    without a legend entry, one trace per primary indicator on [y1], the
    volume bars on [y2] exactly when the volume is enabled, and one trace
    per secondary indicator, the [i]-th on the axis [y(i + delta + 2)];
    each indicator trace carries the name and the series of its
    indicator. *)
Theorem to_figure_traces (self : Chart) (a : figure_args)
    (out out' : list string) (fig : pyobj) (v : bool) :
  to_figure env self a out = (out', inr fig) ->
  resolve_volume self a = PBool v ->
  exists main primary vol secondary,
    py_getitem fig "data"
    = inr (PList (main :: primary ++ vol ++ secondary)%list) /\
    length primary = length (pri self) /\
    length vol = delta v /\
    length secondary = length (sec self) /\
    py_getitem main "yaxis" = inr (PStr "y1") /\
    py_getitem main "showlegend" = inr (PBool false) /\
    (forall i t, nth_error primary i = Some t ->
       exists e col,
         nth_error (pri self) i = Some e /\
         df_getitem (ind self) (fst e) = inr col /\
         py_getitem t "name" = inr (PStr (fst e)) /\
         py_getitem t "y" = inr (PSeries col) /\
         py_getitem t "yaxis" = inr (PStr "y1")) /\
    (forall t, In t vol ->
       py_getitem t "name" = inr (PStr "Volume") /\
       py_getitem t "yaxis" = inr (PStr "y2") /\
       py_getitem t "showlegend" = inr (PBool false)) /\
    (forall i t, nth_error secondary i = Some t ->
       exists e col,
         nth_error (sec self) i = Some e /\
         df_getitem (ind self) (fst e) = inr col /\
         py_getitem t "name" = inr (PStr (fst e)) /\
         py_getitem t "y" = inr (PSeries col) /\
         py_getitem t "yaxis" = inr (PStr ("y" ++ str_of_nat (i + delta v + 2)))).
Proof.
  intros H Hv. apply to_figure_stages in H.
  destruct H as [r [template [colors [traces [additions [L0 [data H]]]]]]].
  destruct H as [L1 [L2 [L3 [Hr [_ [_ [_ [_ [_ [Hd [_ [_ [_ ->]]]]]]]]]]]]].
  rewrite (@resolve_arguments_volume A env _ _ _ Hr) in Hv.
  injection Hv as Hvol.
  unfold build_data in Hd.
  bind_inv Hd as main Hmain. bind_inv Hd as primary Hpri.
  bind_inv Hd as vol Hvt. bind_inv Hd as secondary Hsec.
  injection Hd as <-.
  exists main, primary, vol, secondary.
  destruct (main_trace_fields _ _ _ _ _ Hmain) as [_ [_ [Hy [Hs _]]]].
  unfold primary_traces in Hpri. apply traverse_nth in Hpri.
  destruct Hpri as [Lp Np].
  unfold secondary_traces in Hsec. apply traverse_nth in Hsec.
  destruct Hsec as [Ls Ns]. rewrite enumerate_from_length in Ls.
  destruct (volume_trace_fields _ _ _ _ _ Hvt) as [Lv Nv].
  rewrite Hvol in *.
  split; [reflexivity |]. split; [exact Lp |]. split; [exact Lv |].
  split; [exact Ls |]. split; [exact Hy |]. split; [exact Hs |].
  split; [| split].
  - intros i t Ht. destruct (Np i t Ht) as [e [He Hf]].
    destruct (indicator_trace_fields _ _ _ _ _ _ _ Hf)
      as [col [Hcol [_ [Fy [Fn Fa]]]]].
    exists e, col. repeat split; assumption.
  - intros t Ht. destruct (Nv t Ht) as [col [_ [_ [_ [Fn [Fa Fs]]]]]].
    repeat split; assumption.
  - intros i t Ht. destruct (Ns i t Ht) as [p [Hp Hf]].
    apply enumerate_from_nth in Hp. destruct Hp as [e [He ->]].
    simpl in Hf.
    destruct (indicator_trace_fields _ _ _ _ _ _ _ Hf)
      as [col [Hcol [_ [Fy [Fn Fa]]]]].
    exists e, col. repeat split; assumption.
Qed.

(** X17. The data of the main trace: it is drawn over the time index of
    the table and named by the title; for a kind of [OHLC_TRACES] its
    open, high, low and close are the four columns of the table, and for
    any other kind its [y] is the close column. *)
Theorem to_figure_main_trace (self : Chart) (a : figure_args)
    (out out' : list string) (fig : pyobj) :
  to_figure env self a out = (out', inr fig) ->
  exists r main rest,
    resolve_arguments env self a = inr r /\
    py_getitem fig "data" = inr (PList (main :: rest)) /\
    py_getitem main "x" = inr (PIndex (index (df self))) /\
    py_getitem main "name" = inr (r_title r) /\
    (mem_str (r_type r) (OHLC_TRACES env) = true ->
     exists o h l c,
       df_getitem (df self) (op self) = inr o /\
       df_getitem (df self) (hi self) = inr h /\
       df_getitem (df self) (lo self) = inr l /\
       df_getitem (df self) (cl self) = inr c /\
       py_getitem main "open" = inr (PSeries o) /\
       py_getitem main "high" = inr (PSeries h) /\
       py_getitem main "low" = inr (PSeries l) /\
       py_getitem main "close" = inr (PSeries c)) /\
    (mem_str (r_type r) (OHLC_TRACES env) = false ->
     exists c,
       df_getitem (df self) (cl self) = inr c /\
       py_getitem main "y" = inr (PSeries c)).
Proof.
  intros H. apply to_figure_stages in H.
  destruct H as [r [template [colors [traces [additions [L0 [data H]]]]]]].
  destruct H as [L1 [L2 [L3 [Hr [_ [_ [_ [_ [_ [Hd [_ [_ [_ ->]]]]]]]]]]]]].
  unfold build_data in Hd.
  bind_inv Hd as main Hmain. bind_inv Hd as primary Hpri.
  bind_inv Hd as vol Hvt. bind_inv Hd as secondary Hsec.
  injection Hd as <-.
  destruct (main_trace_fields _ _ _ _ _ Hmain) as [Fx [Fn [_ [_ [Fo Fc]]]]].
  exists r, main, (primary ++ vol ++ secondary)%list.
  split; [exact Hr |]. split; [reflexivity |].
  split; [exact Fx |]. split; [exact Fn |]. split; assumption.
Qed.

(** ** What a call prints *)

Lemma bindM_cases {S T U : Type} (m : M S T) (k : T -> M S U) (s s' : S)
    (res : result U) :
  bindM m k s = (s', res) ->
  (exists e, m s = (s', inl e) /\ res = inl e) \/
  (exists x s1, m s = (s1, inr x) /\ k x s1 = (s', res)).
Proof.
  unfold bindM. destruct (m s) as [s1 [e | x]]; intros H.
  - left. exists e. injection H as <- <-. split; reflexivity.
  - right. exists x, s1. split; [reflexivity | exact H].
Qed.

Lemma liftM_state {S T : Type} (r : result T) (s s' : S) (res : result T) :
  liftM r s = (s', res) -> s' = s /\ res = r.
Proof. unfold liftM. intros H. injection H as <- <-. split; reflexivity. Qed.

(** Splits a run of [x <~ liftM m ;; k]: either [m] raised, and the run
    ends in the state it started from, or the run goes on with [k]. *)
Ltac lifted_or_next H x Hx :=
  let e := fresh "e" in let s1 := fresh "s" in let Hs := fresh "Hs" in
  apply bindM_cases in H;
  destruct H as [[e [H _]] | [x [s1 [Hx H]]]];
  [ apply liftM_state in H; destruct H as [H _] |
    apply liftM_inr in Hx; destruct Hx as [Hs Hx]; subst s1 ].

Lemma axis_layout_prints (self : Chart) (r : resolved) (additions L0 : pyobj)
    (out out1 : list string) (res : result pyobj) :
  axis_layout self r additions L0 out = (out1, res) ->
  out1 = out \/
  (3 <= stacked self (r_volume r) /\
   out1 = (out ++ ["Quantmod does not yet support plotting 3+ indicators."])%list).
Proof.
  unfold axis_layout. intros H.
  lifted_or_next H La Ha; [left; exact H |].
  lifted_or_next H Lb Hb; [left; exact H |].
  destruct (r_volume r || negb (Nat.eqb (length (sec self)) 0)) eqn:Hg.
  - destruct (stacked self (r_volume r)) as [| [| [| n]]] eqn:Hn.
    + exfalso. unfold stacked, delta in Hn.
      destruct (r_volume r); [lia |].
      destruct (sec self); simpl in *; [discriminate | lia].
    + simpl in H. apply liftM_state in H. left. apply H.
    + simpl in H. apply liftM_state in H. left. apply H.
    + right. unfold bindM, print, retM in H. simpl in H.
      injection H as <- _. split; [lia | reflexivity].
  - unfold retM in H. injection H as <- _. left. reflexivity.
Qed.

(** X18. The only line [to_figure] ever prints is the warning of line 636,
    at most once, and only when three or more series are stacked; a call
    that returns a figure has printed it exactly when three or more are
    stacked, and nothing otherwise. *)
Theorem to_figure_prints (self : Chart) (a : figure_args)
    (out out' : list string) (res : result pyobj) :
  to_figure env self a out = (out', res) ->
  (out' = out \/
   exists r, resolve_arguments env self a = inr r /\
             3 <= stacked self (r_volume r) /\
             out' = (out ++ ["Quantmod does not yet support plotting 3+ indicators."])%list) /\
  (forall fig v, res = inr fig -> resolve_volume self a = PBool v ->
     (stacked self v <= 2 -> out' = out) /\
     (3 <= stacked self v ->
      out' = (out ++ ["Quantmod does not yet support plotting 3+ indicators."])%list)).
Proof.
  intros H. split.
  - unfold to_figure in H.
    lifted_or_next H r Hr; [left; exact H |].
    lifted_or_next H template Ht; [left; exact H |].
    lifted_or_next H colors Hc; [left; exact H |].
    lifted_or_next H traces Htr; [left; exact H |].
    lifted_or_next H additions Had; [left; exact H |].
    lifted_or_next H L0 HL0; [left; exact H |].
    lifted_or_next H data Hd; [left; exact H |].
    assert (Hax : forall res1, axis_layout self r additions L0 out = (out', res1) ->
              out' = out \/
              exists r, resolve_arguments env self a = inr r /\
                3 <= stacked self (r_volume r) /\
                out' = (out ++ ["Quantmod does not yet support plotting 3+ indicators."])%list).
    { intros res1 H1. apply axis_layout_prints in H1.
      destruct H1 as [H1 | [H1 H2]]; [left; exact H1 |].
      right. exists r. repeat split; assumption. }
    apply bindM_cases in H.
    destruct H as [[e [H _]] | [L1 [s1 [H1 H]]]]; [apply (Hax _ H) |].
    lifted_or_next H L2 Hm; [subst s1; apply (Hax _ H1) |].
    lifted_or_next H L3 Hs; [subst s1; apply (Hax _ H1) |].
    unfold retM in H. injection H as <- _. apply (Hax _ H1).
  - intros fig v -> Hv. apply to_figure_stages in H.
    destruct H as [r [template [colors [traces [additions [L0 [data H]]]]]]].
    destruct H as [L1 [L2 [L3 [Hr [_ [_ [_ [_ [_ [_ [Hax _]]]]]]]]]]].
    rewrite (@resolve_arguments_volume A env _ _ _ Hr) in Hv.
    injection Hv as Hvol. subst v.
    split; intros Hst.
    + apply axis_layout_prints in Hax.
      destruct Hax as [Hax | [Hax _]]; [exact Hax | lia].
    + apply (@axis_layout_unsupported A self r additions L0 out out' L1);
        assumption.
Qed.

(** ** The layout outside the axes *)

Lemma new_yaxis_frame (additions L : pyobj) (k : string) (L' : pyobj) :
  new_yaxis additions L k = inr L' ->
  forall k', k' <> k -> py_getitem L' k' = py_getitem L k'.
Proof.
  unfold new_yaxis. intros H k' Hne. bind_inv H as y Hy.
  apply (@py_getitem_setitem_other A _ _ _ _ _ H Hne).
Qed.

Lemma axis_layout_frame (self : Chart) (r : resolved) (additions L0 : pyobj)
    (out out1 : list string) (L1 : pyobj) :
  axis_layout self r additions L0 out = (out1, inr L1) ->
  forall k, ~ In k ["xaxis"; "yaxis"; "yaxis2"; "yaxis3"] ->
            py_getitem L1 k = py_getitem L0 k.
Proof.
  intros H k Hk.
  assert (Hx : k <> "xaxis") by (intros ->; apply Hk; simpl; tauto).
  assert (H1 : k <> "yaxis") by (intros ->; apply Hk; simpl; tauto).
  assert (H2 : k <> "yaxis2") by (intros ->; apply Hk; simpl; tauto).
  assert (H3 : k <> "yaxis3") by (intros ->; apply Hk; simpl; tauto).
  apply (@axis_layout_inr A) in H.
  destruct H as [x [y [La [Lb [Ha [Hy [Hb H]]]]]]].
  assert (Hbase : py_getitem Lb k = py_getitem L0 k).
  { rewrite (@py_getitem_setitem_other A _ _ _ _ _ Hb H1).
    apply (@py_getitem_setitem_other A _ _ _ _ _ Ha Hx). }
  destruct (r_volume r || negb (Nat.eqb (length (sec self)) 0)).
  - destruct (Nat.eqb (stacked self (r_volume r)) 1).
    + apply liftM_inr in H. destruct H as [_ H].
      bind_inv H as Lc Hc. bind_inv H as Ld Hd.
      rewrite (py_setpath_frame _ _ _ _ _ H k H2).
      rewrite (py_setpath_frame _ _ _ _ _ Hd k H1).
      rewrite (new_yaxis_frame _ _ _ _ Hc k H2). exact Hbase.
    + destruct (Nat.eqb (stacked self (r_volume r)) 2).
      * apply liftM_inr in H. destruct H as [_ H].
        bind_inv H as Lc Hc. bind_inv H as Ld Hd.
        bind_inv H as Le He. bind_inv H as Lf Hf.
        rewrite (py_setpath_frame _ _ _ _ _ H k H3).
        rewrite (py_setpath_frame _ _ _ _ _ Hf k H2).
        rewrite (py_setpath_frame _ _ _ _ _ He k H1).
        rewrite (new_yaxis_frame _ _ _ _ Hd k H3).
        rewrite (new_yaxis_frame _ _ _ _ Hc k H2). exact Hbase.
      * unfold bindM, print, retM in H. injection H as _ <-. exact Hbase.
  - unfold retM in H. injection H as _ <-. exact Hbase.
Qed.

Lemma margin_layout_frame (L L' : pyobj) :
  margin_layout L = inr L' ->
  forall k, k <> "margin" -> py_getitem L' k = py_getitem L k.
Proof.
  unfold margin_layout. intros H k Hk.
  bind_inv H as title Ht. bind_inv H as has_title Hh.
  destruct (negb has_title).
  - bind_inv H as b Hb. apply (py_setpath_frame _ _ _ _ _ H k Hk).
  - injection H as <-. reflexivity.
Qed.

(** An assignment [o[k][k2]... = v] leaves [o[k][k3]] as it was. *)
Lemma py_setpath_sibling (o : pyobj) (k k2 : string) (p : list string)
    (k3 : string) (v o' : pyobj) :
  py_setpath o (k :: k2 :: p) v = inr o' -> k3 <> k2 ->
  py_getpath o' [k; k3] = py_getpath o [k; k3].
Proof.
  intros H Hne.
  change (py_setpath o (k :: k2 :: p) v)
    with (inner <- py_getitem o k ;;
          inner' <- py_setpath inner (k2 :: p) v ;;
          py_setitem o k inner') in H.
  bind_inv H as inner Hi. bind_inv H as inner' Hi'.
  simpl. rewrite (@py_getitem_setitem_same A _ _ _ _ H), Hi. simpl.
  rewrite (py_setpath_frame _ _ _ _ _ Hi' k3 Hne). reflexivity.
Qed.

Lemma margin_layout_inr (L L' : pyobj) :
  margin_layout L = inr L' ->
  exists title has,
    py_getitem L "title" = inr title /\ truthy title = inr has /\
    (has = true -> L' = L) /\
    (has = false ->
     exists b, py_getpath L ["margin"; "b"] = inr b /\
               py_getpath L' ["margin"; "t"] = inr b /\
               py_getpath L' ["margin"; "b"] = inr b).
Proof.
  unfold margin_layout. intros H.
  bind_inv H as title Ht. bind_inv H as has Hh.
  exists title, has. split; [exact Ht |]. split; [exact Hh |].
  destruct has; simpl in H.
  - injection H as <-. split; [reflexivity | discriminate].
  - split; [discriminate |]. intros _.
    apply bind_inr in H. destruct H as [b [Hb H]].
    exists b. split; [exact Hb |]. split.
    + apply (@py_getpath_setpath A ["margin"; "t"] L b L');
        [discriminate | exact H].
    + rewrite (py_setpath_sibling L "margin" "t" [] "b" b L' H);
        [exact Hb | discriminate].
Qed.

Lemma py_append_inr (o v o' : pyobj) :
  py_append o v = inr o' ->
  exists l, o = PList l /\ o' = PList (l ++ [v])%list.
Proof.
  destruct o; simpl; intros H; try discriminate.
  injection H as <-. exists l. split; reflexivity.
Qed.

Lemma last_price_annotation_inr (self : Chart) (color L L' : pyobj) :
  last_price_annotation env self color L = inr L' ->
  exists anns c y p,
    py_getitem L "annotations" = inr (PList anns) /\
    last_value self (cl self) = inr c /\
    py_getpath L ["legend"; "y"] = inr y /\
    py_getitem p "text" = inr (PStr ("Last " ++ format_price env c)) /\
    py_getpath p ["font"; "color"] = inr color /\
    py_getitem p "y" = inr y /\
    py_getitem L' "annotations" = inr (PList (anns ++ [p])%list) /\
    py_getpath L' ["legend"; "y"] = py_sub_float y (lit 3 2) /\
    (forall k, k <> "annotations" -> k <> "legend" ->
               py_getitem L' k = py_getitem L k).
Proof.
  unfold last_price_annotation. intros H.
  bind_inv H as x Hx. bind_inv H as xa Hxa. bind_inv H as y Hy.
  bind_inv H as ya Hya. bind_inv H as c Hc. cbv zeta in H.
  bind_inv H as anns Hanns. bind_inv H as anns' Happ.
  bind_inv H as La Hset. bind_inv H as ly Hly. bind_inv H as ly' Hsub.
  apply py_append_inr in Happ. destruct Happ as [l [-> ->]].
  assert (Hleg : py_getpath La ["legend"; "y"] = py_getpath L ["legend"; "y"]).
  { apply (@py_getpath_head A).
    apply (@py_getitem_setitem_other A _ _ _ _ _ Hset). discriminate. }
  rewrite Hleg, Hy in Hly. injection Hly as <-.
  exists l, c, y,
    (PDict [("x", x); ("xanchor", xa); ("xref", PStr "paper");
            ("y", y); ("yanchor", ya); ("yref", PStr "paper");
            ("showarrow", PBool false);
            ("text", PStr ("Last " ++ format_price env c));
            ("font", PDict [("color", color)])]).
  split; [exact Hanns |]. split; [exact Hc |]. split; [exact Hy |].
  split; [reflexivity |]. split; [reflexivity |]. split; [reflexivity |].
  split; [| split].
  - rewrite (py_setpath_frame _ _ _ _ _ H "annotations"); [| discriminate].
    apply (@py_getitem_setitem_same A _ _ _ _ Hset).
  - rewrite (@py_getpath_setpath A ["legend"; "y"] La ly' L');
      [symmetry; exact Hsub | discriminate | exact H].
  - intros k Ha Hl.
    rewrite (py_setpath_frame _ _ _ _ _ H k Hl).
    apply (@py_getitem_setitem_other A _ _ _ _ _ Hset Ha).
Qed.

Lemma last_volume_annotation_inr (self : Chart) (color L L' : pyobj) :
  last_volume_annotation env self color L = inr L' ->
  exists anns v dom top q,
    py_getitem L "annotations" = inr (PList anns) /\
    last_value self (vo self) = inr v /\
    py_getpath L ["yaxis2"; "domain"] = inr dom /\
    py_last dom = inr top /\
    py_getitem q "text" = inr (PStr ("Volume " ++ format_volume env v)) /\
    py_getpath q ["font"; "color"] = inr color /\
    py_getitem q "y" = py_sub_float top (lit 1 2) /\
    py_getitem L' "annotations" = inr (PList (anns ++ [q])%list) /\
    (forall k, k <> "annotations" -> py_getitem L' k = py_getitem L k).
Proof.
  unfold last_volume_annotation. intros H.
  bind_inv H as x Hx. bind_inv H as xa Hxa. bind_inv H as dom Hdom.
  bind_inv H as top Htop. bind_inv H as y Hy. bind_inv H as ya Hya.
  bind_inv H as v Hv. cbv zeta in H.
  bind_inv H as anns Hanns. bind_inv H as anns' Happ.
  apply py_append_inr in Happ. destruct Happ as [l [-> ->]].
  exists l, v, dom, top,
    (PDict [("x", x); ("xanchor", xa); ("xref", PStr "paper");
            ("y", y); ("yanchor", ya); ("yref", PStr "paper");
            ("showarrow", PBool false);
            ("text", PStr ("Volume " ++ format_volume env v));
            ("font", PDict [("color", color)])]).
  split; [exact Hanns |]. split; [exact Hv |]. split; [exact Hdom |].
  split; [exact Htop |]. split; [reflexivity |]. split; [reflexivity |].
  split; [symmetry; exact Hy |]. split.
  - apply (@py_getitem_setitem_same A _ _ _ _ H).
  - intros k Hk. apply (@py_getitem_setitem_other A _ _ _ _ _ H Hk).
Qed.

Lemma subtitle_layout_frame (self : Chart) (r : resolved) (colors L L' : pyobj) :
  subtitle_layout env self r colors L = inr L' ->
  forall k, k <> "annotations" -> k <> "legend" ->
            py_getitem L' k = py_getitem L k.
Proof.
  unfold subtitle_layout. intros H k Ha Hl.
  bind_inv H as showlegend Hs. bind_inv H as shown Hshown.
  destruct (shown && r_subtitle r).
  - bind_inv H as present Hp. bind_inv H as La Hset.
    bind_inv H as color Hcolor. bind_inv H as Lb Hb.
    assert (HLa : py_getitem La k = py_getitem L k).
    { destruct (negb present).
      - apply (@py_getitem_setitem_other A _ _ _ _ _ Hset Ha).
      - injection Hset as <-. reflexivity. }
    apply last_price_annotation_inr in Hb.
    destruct Hb as [anns [c [y [p [_ [_ [_ [_ [_ [_ [_ [_ Hb]]]]]]]]]]]].
    destruct (r_volume r).
    + apply last_volume_annotation_inr in H.
      destruct H as [anns' [v [dom [top [q [_ [_ [_ [_ [_ [_ [_ [_ H]]]]]]]]]]]]].
      rewrite (H k Ha), (Hb k Ha Hl). exact HLa.
    + injection H as <-. rewrite (Hb k Ha Hl). exact HLa.
  - injection H as <-. reflexivity.
Qed.

(** X19. Keys of the layout [to_figure] never touches: whatever the
    template put under a key other than [xaxis], [yaxis], [yaxis2],
    [yaxis3], [margin], [annotations] and [legend] is in the figure
    unchanged (the title, [showlegend], the hover mode, the sizes, ...),
    and a key the template did not set is not added. *)
Theorem to_figure_layout_frame (self : Chart) (a : figure_args)
    (out out' : list string) (fig : pyobj) :
  to_figure env self a out = (out', inr fig) ->
  exists r template L0,
    resolve_arguments env self a = inr r /\
    load_template env a r = inr template /\
    py_getitem template "layout" = inr L0 /\
    forall k,
      ~ In k ["xaxis"; "yaxis"; "yaxis2"; "yaxis3"; "margin"; "annotations"; "legend"] ->
      py_getpath fig ["layout"; k] = py_getitem L0 k.
Proof.
  intros H. apply to_figure_stages in H.
  destruct H as [r [template [colors [traces [additions [L0 [data H]]]]]]].
  destruct H as [L1 [L2 [L3 [Hr [Ht [_ [_ [_ [HL0 [_ [Hax [Hm [Hs ->]]]]]]]]]]]]].
  exists r, template, L0.
  split; [exact Hr |]. split; [exact Ht |]. split; [exact HL0 |].
  intros k Hk.
  change (py_getpath (PDict [("data", PList data); ("layout", L3)]) ["layout"; k])
    with (py_getpath L3 [k]).
  assert (E : forall o, py_getpath o [k] = py_getitem o k).
  { intros o. simpl. destruct (py_getitem o k); reflexivity. }
  rewrite E.
  rewrite (subtitle_layout_frame _ _ _ _ _ Hs k);
    [| intros ->; apply Hk; simpl; tauto | intros ->; apply Hk; simpl; tauto].
  rewrite (margin_layout_frame _ _ Hm k);
    [| intros ->; apply Hk; simpl; tauto].
  apply (axis_layout_frame _ _ _ _ _ _ _ Hax k).
  intros Hin. apply Hk. simpl in *. tauto.
Qed.

(** X20. The top margin (lines 639-640): when the title of the layout is
    empty (or otherwise false) the figure's top margin is the bottom margin
    of the template, and the bottom margin is kept; when there is a title
    the margins are the template's. *)
Theorem to_figure_margin (self : Chart) (a : figure_args)
    (out out' : list string) (fig : pyobj) :
  to_figure env self a out = (out', inr fig) ->
  exists r template L0 title has,
    resolve_arguments env self a = inr r /\
    load_template env a r = inr template /\
    py_getitem template "layout" = inr L0 /\
    py_getitem L0 "title" = inr title /\
    truthy title = inr has /\
    (has = true ->
     py_getpath fig ["layout"; "margin"] = py_getpath L0 ["margin"]) /\
    (has = false ->
     exists b, py_getpath L0 ["margin"; "b"] = inr b /\
               py_getpath fig ["layout"; "margin"; "t"] = inr b /\
               py_getpath fig ["layout"; "margin"; "b"] = inr b).
Proof.
  intros H. apply to_figure_stages in H.
  destruct H as [r [template [colors [traces [additions [L0 [data H]]]]]]].
  destruct H as [L1 [L2 [L3 [Hr [Ht [_ [_ [_ [HL0 [_ [Hax [Hm [Hs ->]]]]]]]]]]]]].
  assert (F1 : forall k, ~ In k ["xaxis"; "yaxis"; "yaxis2"; "yaxis3"] ->
                         py_getitem L1 k = py_getitem L0 k)
    by apply (axis_layout_frame _ _ _ _ _ _ _ Hax).
  assert (F3 : py_getitem L3 "margin" = py_getitem L2 "margin")
    by (apply (subtitle_layout_frame _ _ _ _ _ Hs); discriminate).
  assert (M1 : py_getitem L1 "margin" = py_getitem L0 "margin").
  { apply F1. simpl. intros [E | [E | [E | [E | []]]]]; discriminate. }
  assert (T1 : py_getitem L1 "title" = py_getitem L0 "title").
  { apply F1. simpl. intros [E | [E | [E | [E | []]]]]; discriminate. }
  apply margin_layout_inr in Hm.
  destruct Hm as [title [has [Htitle [Hhas [Hyes Hno]]]]].
  rewrite T1 in Htitle.
  exists r, template, L0, title, has.
  split; [exact Hr |]. split; [exact Ht |]. split; [exact HL0 |].
  split; [exact Htitle |]. split; [exact Hhas |]. split.
  - intros E. rewrite (Hyes E) in F3.
    rewrite figure_layout_path.
    rewrite (@py_getpath_head A L1 L3 "margin" []); [| exact F3].
    apply (@py_getpath_head A L0 L1 "margin" []). exact M1.
  - intros E. destruct (Hno E) as [b [Hb [Gt Gb]]].
    exists b. split; [| split].
    + rewrite <- Hb. symmetry.
      apply (@py_getpath_head A L0 L1 "margin" ["b"]). exact M1.
    + rewrite figure_layout_path, <- Gt.
      apply (@py_getpath_head A L2 L3 "margin" ["t"]). exact F3.
    + rewrite figure_layout_path, <- Gb.
      apply (@py_getpath_head A L2 L3 "margin" ["b"]). exact F3.
Qed.

Lemma py_contains_dict (k : string) (L v : pyobj) (k0 : string) (present : bool) :
  py_getitem L k0 = inr v ->
  py_contains k L = inr present ->
  (present = true -> exists w, py_getitem L k = inr w) /\
  (present = false -> py_getitem L k = inl (KeyError k)).
Proof.
  intros Hv H. apply (@py_getitem_inr_key A) in Hv.
  destruct Hv as [d [-> _]]. simpl in H. injection H as <-.
  split; intros E.
  - apply (@mem_str_In k (keys d)) in E. apply (@assoc_get_In pyobj k d) in E.
    destruct E as [w Hw]. exists w. simpl. rewrite Hw. reflexivity.
  - simpl. destruct (assoc_get k d) as [w |] eqn:Hw; [| reflexivity].
    exfalso. apply (@mem_str_false k (keys d)) in E. apply E.
    apply (@assoc_get_In pyobj k d). exists w. exact Hw.
Qed.

Lemma subtitle_layout_inr (self : Chart) (r : resolved) (colors L L' : pyobj) :
  subtitle_layout env self r colors L = inr L' ->
  exists showlegend shown,
    py_getitem L "showlegend" = inr showlegend /\
    truthy showlegend = inr shown /\
    (shown && r_subtitle r = false -> L' = L) /\
    (shown && r_subtitle r = true ->
     exists anns0 color c y p more,
       (py_getitem L "annotations" = inr (PList anns0) \/
        (py_getitem L "annotations" = inl (KeyError "annotations") /\ anns0 = [])) /\
       annotations_color env self r colors = inr color /\
       last_value self (cl self) = inr c /\
       py_getpath L ["legend"; "y"] = inr y /\
       py_getitem p "text" = inr (PStr ("Last " ++ format_price env c)) /\
       py_getpath p ["font"; "color"] = inr color /\
       py_getitem L' "annotations" = inr (PList (anns0 ++ p :: more)%list) /\
       py_getpath L' ["legend"; "y"] = py_sub_float y (lit 3 2) /\
       (r_volume r = false -> more = []) /\
       (r_volume r = true ->
        exists v q,
          last_value self (vo self) = inr v /\ more = [q] /\
          py_getitem q "text" = inr (PStr ("Volume " ++ format_volume env v)) /\
          py_getpath q ["font"; "color"] = inr color)).
Proof.
  unfold subtitle_layout. intros H.
  bind_inv H as showlegend Hs. bind_inv H as shown Hshown.
  exists showlegend, shown. split; [exact Hs |]. split; [exact Hshown |].
  destruct (shown && r_subtitle r).
  - split; [discriminate |]. intros _.
    bind_inv H as present Hp. bind_inv H as La Hset.
    bind_inv H as color Hcolor. bind_inv H as Lb Hb.
    apply last_price_annotation_inr in Hb.
    destruct Hb as [anns [c [y [p [Hanns [Hc [Hy [Ptext [Pcol [_ [Hb [Hleg Hfr]]]]]]]]]]]].
    assert (H0 : (py_getitem L "annotations" = inr (PList anns) \/
                  (py_getitem L "annotations" = inl (KeyError "annotations") /\
                   anns = [])) /\
                 py_getpath L ["legend"; "y"] = inr y).
    { destruct (py_contains_dict "annotations" _ _ _ _ Hs Hp) as [Pyes Pno].
      destruct present; simpl in Hset.
      - injection Hset as <-. split; [left; exact Hanns | exact Hy].
      - split.
        + right. split; [apply Pno; reflexivity |].
          rewrite (@py_getitem_setitem_same A _ _ _ _ Hset) in Hanns.
          injection Hanns as <-. reflexivity.
        + rewrite <- Hy. symmetry. apply (@py_getpath_head A).
          apply (@py_getitem_setitem_other A _ _ _ _ _ Hset). discriminate. }
    destruct H0 as [H0 H1].
    destruct (r_volume r).
    + apply last_volume_annotation_inr in H.
      destruct H as [anns' [v [dom [top [q [Ha' [Hv [_ [_ [Qtext [Qcol [_ [HL' Hfr']]]]]]]]]]]]].
      rewrite Hb in Ha'. injection Ha' as <-.
      exists anns, color, c, y, p, [q].
      split; [exact H0 |]. split; [exact Hcolor |]. split; [exact Hc |].
      split; [exact H1 |]. split; [exact Ptext |]. split; [exact Pcol |].
      split; [| split; [| split]].
      * rewrite HL', <- app_assoc. reflexivity.
      * rewrite <- Hleg. apply (@py_getpath_head A).
        apply Hfr'. discriminate.
      * discriminate.
      * intros _. exists v, q. repeat split; assumption.
    + injection H as <-.
      exists anns, color, c, y, p, [].
      split; [exact H0 |]. split; [exact Hcolor |]. split; [exact Hc |].
      split; [exact H1 |]. split; [exact Ptext |]. split; [exact Pcol |].
      split; [exact Hb |]. split; [exact Hleg |].
      split; [reflexivity | discriminate].
  - injection H as <-. split; [reflexivity | discriminate].
Qed.

(** X21. The subtitle (lines 643-682).  Unless the layout shows a legend
    and the subtitle is on, the annotations and the legend of the figure
    are the template's.  Otherwise the figure's annotations are the
    template's (none, if it has no such key) followed by the annotation
    [Last <price>] of the last close and, with the volume on, by the
    annotation [Volume <volume>] of the last volume, both in one colour;
    and the legend is moved down by 0.03. *)
Theorem to_figure_subtitle (self : Chart) (a : figure_args)
    (out out' : list string) (fig : pyobj) :
  to_figure env self a out = (out', inr fig) ->
  exists r template colors L0 showlegend shown,
    resolve_arguments env self a = inr r /\
    load_template env a r = inr template /\
    py_getitem template "colors" = inr colors /\
    py_getitem template "layout" = inr L0 /\
    py_getitem L0 "showlegend" = inr showlegend /\
    truthy showlegend = inr shown /\
    (shown && r_subtitle r = false ->
     py_getpath fig ["layout"; "annotations"] = py_getpath L0 ["annotations"] /\
     py_getpath fig ["layout"; "legend"] = py_getpath L0 ["legend"]) /\
    (shown && r_subtitle r = true ->
     exists anns0 color c y p more,
       (py_getitem L0 "annotations" = inr (PList anns0) \/
        (py_getitem L0 "annotations" = inl (KeyError "annotations") /\ anns0 = [])) /\
       annotations_color env self r colors = inr color /\
       last_value self (cl self) = inr c /\
       py_getpath L0 ["legend"; "y"] = inr y /\
       py_getitem p "text" = inr (PStr ("Last " ++ format_price env c)) /\
       py_getpath p ["font"; "color"] = inr color /\
       py_getpath fig ["layout"; "annotations"]
       = inr (PList (anns0 ++ p :: more)%list) /\
       py_getpath fig ["layout"; "legend"; "y"] = py_sub_float y (lit 3 2) /\
       (r_volume r = false -> more = []) /\
       (r_volume r = true ->
        exists v q,
          last_value self (vo self) = inr v /\ more = [q] /\
          py_getitem q "text" = inr (PStr ("Volume " ++ format_volume env v)) /\
          py_getpath q ["font"; "color"] = inr color)).
Proof.
  intros H. apply to_figure_stages in H.
  destruct H as [r [template [colors [traces [additions [L0 [data H]]]]]]].
  destruct H as [L1 [L2 [L3 [Hr [Ht [Hc [_ [_ [HL0 [_ [Hax [Hm [Hs ->]]]]]]]]]]]]].
  assert (F : forall k, ~ In k ["xaxis"; "yaxis"; "yaxis2"; "yaxis3"] ->
                        k <> "margin" -> py_getitem L2 k = py_getitem L0 k).
  { intros k Hk Hmk. rewrite (margin_layout_frame _ _ Hm k Hmk).
    apply (axis_layout_frame _ _ _ _ _ _ _ Hax k Hk). }
  assert (Fs : py_getitem L2 "showlegend" = py_getitem L0 "showlegend").
  { apply F; [simpl; intros [E | [E | [E | [E | []]]]] |]; discriminate. }
  assert (Fa : py_getitem L2 "annotations" = py_getitem L0 "annotations").
  { apply F; [simpl; intros [E | [E | [E | [E | []]]]] |]; discriminate. }
  assert (Fl : py_getitem L2 "legend" = py_getitem L0 "legend").
  { apply F; [simpl; intros [E | [E | [E | [E | []]]]] |]; discriminate. }
  apply subtitle_layout_inr in Hs.
  destruct Hs as [showlegend [shown [Hshow [Hshown [Hoff Hon]]]]].
  rewrite Fs in Hshow.
  exists r, template, colors, L0, showlegend, shown.
  split; [exact Hr |]. split; [exact Ht |]. split; [exact Hc |].
  split; [exact HL0 |]. split; [exact Hshow |]. split; [exact Hshown |].
  split.
  - intros E. rewrite (Hoff E). rewrite !figure_layout_path. split.
    + apply (@py_getpath_head A L0 L2 "annotations" []). exact Fa.
    + apply (@py_getpath_head A L0 L2 "legend" []). exact Fl.
  - intros E.
    destruct (Hon E) as [anns0 [color [c [y [p [more H]]]]]].
    destruct H as [H0 [Hcol [Hcl [Hy [Pt [Pc [Hann [Hleg [Hnov Hvol]]]]]]]]].
    exists anns0, color, c, y, p, more.
    rewrite Fa in H0.
    split; [exact H0 |]. split; [exact Hcol |]. split; [exact Hcl |].
    split.
    { rewrite <- Hy. symmetry.
      apply (@py_getpath_head A L0 L2 "legend" ["y"]). exact Fl. }
    split; [exact Pt |]. split; [exact Pc |]. split.
    { rewrite figure_layout_path. simpl. rewrite Hann. reflexivity. }
    split; [rewrite figure_layout_path; exact Hleg |].
    split; assumption.
Qed.

(** ** [plot] and [iplot] *)

Lemma present_without_figure (notebook : bool) (self : Chart) (a : figure_args)
    (filename online : pyobj) (w : World) (out' : list string) (e : exn) :
  to_figure env self a (stdout w) = (out', inl e) ->
  present env backend notebook self a filename online w
  = ({| stdout := out'; rendered := rendered w |}, inl e).
Proof.
  intros H. unfold present, bindM at 1, on_stdout. rewrite H. reflexivity.
Qed.

Lemma present_with_figure (notebook : bool) (self : Chart) (a : figure_args)
    (filename online : pyobj) (w : World) (out' : list string) (fig : pyobj) :
  to_figure env self a (stdout w) = (out', inr fig) ->
  present env backend notebook self a filename online w
  = (name <~ match match filename with
                   | PNone => PStr ("Quantmod Chart " ++ now backend)
                   | f => f
                   end with
             | PStr s => retM s
             | _ => raiseM (TypeError "Invalid filename '{0}'. It should be string.")
             end ;;
     on <~ match match online with PNone => PBool false | o => o end with
           | PBool b => retM b
           | _ => raiseM (TypeError "Invalid online '{0}'. It should be bool.")
           end ;;
     if is_offline backend && negb on then
       show_link <~ liftM (cfg <- get_config_file env ;;
                           py_getitem cfg "offline_show_link") ;;
       link_text <~ liftM (cfg <- get_config_file env ;;
                           py_getitem cfg "offline_link_text") ;;
       render backend (Offline notebook fig name show_link link_text)
     else render backend (Online notebook fig name))
    {| stdout := out'; rendered := rendered w |}.
Proof.
  intros H. unfold present, bindM at 1, on_stdout. rewrite H. reflexivity.
Qed.

Lemma present_rejects_mistyped (self : Chart) (a : figure_args)
    (filename online : pyobj) (w : World) (out' : list string) (fig : pyobj) :
  to_figure env self a (stdout w) = (out', inr fig) ->
  (filename <> PNone /\ is_str filename = false) \/
  (online <> PNone /\ is_bool online = false) ->
  exists msg, forall notebook,
    present env backend notebook self a filename online w
    = ({| stdout := out'; rendered := rendered w |}, inl (TypeError msg)).
Proof.
  intros H Hbad.
  destruct (is_str filename) eqn:Hf.
  - destruct Hbad as [[_ Hbad] | [Hn Hb]]; [discriminate |].
    exists "Invalid online '{0}'. It should be bool.". intros notebook.
    rewrite (present_with_figure _ _ _ _ _ _ _ _ H).
    destruct filename; try discriminate;
      destruct online; try discriminate; try contradiction; reflexivity.
  - destruct filename; try discriminate;
      try (exists "Invalid filename '{0}'. It should be string.";
           intros notebook;
           rewrite (present_with_figure _ _ _ _ _ _ _ _ H); reflexivity).
    destruct Hbad as [[Hn _] | [Hn Hb]]; [contradiction |].
    exists "Invalid online '{0}'. It should be bool.". intros notebook.
    rewrite (present_with_figure _ _ _ _ _ _ _ _ H).
    destruct online; try discriminate; try contradiction; reflexivity.
Qed.

(** X22. [plot] and [iplot] render nothing on an error.  When [to_figure]
    raises, both raise the same exception whatever [filename] and [online]
    are, invalid values included; once the figure is built, a [filename]
    that is neither [None] nor a string, or an [online] that is neither
    [None] nor a bool, makes both raise a [TypeError].  In each case no
    renderer is called, and what has been printed is what [to_figure]
    printed. *)
Theorem plot_error_renders_nothing (self : Chart) (a : figure_args)
    (filename online : pyobj) (w : World) (out' : list string)
    (res : result pyobj) :
  to_figure env self a (stdout w) = (out', res) ->
  (exists e, res = inl e) \/
  (filename <> PNone /\ is_str filename = false) \/
  (online <> PNone /\ is_bool online = false) ->
  exists x,
    plot env backend self a filename online w
    = ({| stdout := out'; rendered := rendered w |}, inl x) /\
    iplot env backend self a filename online w
    = ({| stdout := out'; rendered := rendered w |}, inl x) /\
    (forall e, res = inl e -> x = e) /\
    (forall fig, res = inr fig -> exists msg, x = TypeError msg).
Proof.
  intros H Hbad. unfold plot, iplot.
  destruct res as [e | fig].
  - exists e. split; [apply present_without_figure; exact H |].
    split; [apply present_without_figure; exact H |].
    split; [intros e0 E; injection E as <-; reflexivity | discriminate].
  - destruct Hbad as [[e E] | Hbad]; [discriminate |].
    destruct (present_rejects_mistyped _ _ _ _ _ _ _ H Hbad) as [msg Hmsg].
    exists (TypeError msg). split; [apply Hmsg |]. split; [apply Hmsg |].
    split; [discriminate |]. intros fig0 _. exists msg. reflexivity.
Qed.

Lemma bindM_retM {S T U : Type} (x : T) (k : T -> M S U) (s : S) :
  bindM (retM x) k s = k x s.
Proof. reflexivity. Qed.

(** X23. A call of [plot] or [iplot] that gets its figure, with a file name
    (the given string, or [Quantmod Chart <time of the call>] for [None])
    and an online flag (the given bool, or [False] for [None]), calls
    exactly one renderer, once, and returns what it returns: the online
    renderer unless plotly is offline and the flag is false; the offline
    renderer is given the link settings of the configuration file, and is
    not called when one of the two settings is missing. *)
Theorem plot_renders_once (self : Chart) (a : figure_args)
    (filename online : pyobj) (w : World) (out' : list string) (fig : pyobj)
    (name : string) (on : bool) :
  to_figure env self a (stdout w) = (out', inr fig) ->
  (filename = PNone /\ name = "Quantmod Chart " ++ now backend) \/
  filename = PStr name ->
  (online = PNone /\ on = false) \/ online = PBool on ->
  (is_offline backend && negb on = false ->
   plot env backend self a filename online w
   = ({| stdout := out';
         rendered := (rendered w ++ [Online false fig name])%list |},
      respond backend (Online false fig name)) /\
   iplot env backend self a filename online w
   = ({| stdout := out';
         rendered := (rendered w ++ [Online true fig name])%list |},
      respond backend (Online true fig name))) /\
  (is_offline backend && negb on = true ->
   forall cfg show_link link_text,
     get_config_file env = inr cfg ->
     py_getitem cfg "offline_show_link" = inr show_link ->
     py_getitem cfg "offline_link_text" = inr link_text ->
     plot env backend self a filename online w
     = ({| stdout := out';
           rendered := (rendered w
                        ++ [Offline false fig name show_link link_text])%list |},
        respond backend (Offline false fig name show_link link_text)) /\
     iplot env backend self a filename online w
     = ({| stdout := out';
           rendered := (rendered w
                        ++ [Offline true fig name show_link link_text])%list |},
        respond backend (Offline true fig name show_link link_text))) /\
  (is_offline backend && negb on = true ->
   forall cfg e,
     get_config_file env = inr cfg ->
     py_getitem cfg "offline_show_link" = inl e \/
     (exists v, py_getitem cfg "offline_show_link" = inr v) /\
     py_getitem cfg "offline_link_text" = inl e ->
     plot env backend self a filename online w
     = ({| stdout := out'; rendered := rendered w |}, inl e) /\
     iplot env backend self a filename online w
     = ({| stdout := out'; rendered := rendered w |}, inl e)).
Proof.
  intros H Hf Ho. unfold plot, iplot.
  rewrite !(present_with_figure _ _ _ _ _ _ _ _ H).
  assert (Ef : match match filename with
                     | PNone => PStr ("Quantmod Chart " ++ now backend)
                     | f => f
                     end with
               | PStr s => retM (S := World) s
               | _ => raiseM (TypeError "Invalid filename '{0}'. It should be string.")
               end = retM name).
  { destruct Hf as [[-> ->] | ->]; reflexivity. }
  assert (Eo : match match online with PNone => PBool false | o => o end with
               | PBool b => retM (S := World) b
               | _ => raiseM (TypeError "Invalid online '{0}'. It should be bool.")
               end = retM on).
  { destruct Ho as [[-> ->] | ->]; reflexivity. }
  rewrite Ef, Eo. repeat (rewrite bindM_retM; cbv beta).
  split; [| split].
  - intros ->. split; reflexivity.
  - intros -> cfg show_link link_text Hcfg Hs Hl.
    unfold bindM, liftM, render. rewrite Hcfg. simpl. rewrite Hs, Hl.
    split; reflexivity.
  - intros -> cfg e Hcfg [Hs | [[v Hs] Hl]];
      unfold bindM, liftM, render; rewrite Hcfg; simpl; rewrite Hs;
      [| rewrite Hl]; split; reflexivity.
Qed.

(** ** The colours of the volume bars *)

Lemma volume_color_inr (self : Chart) (r : resolved) (colors c : pyobj) :
  volume_color env self r colors = inr c ->
  (mem_str (r_type r) (OHLC_TRACES env) && has_open self && has_close self = false ->
   py_getitem colors "primary" = inr c) /\
  (mem_str (r_type r) (OHLC_TRACES env) && has_open self && has_close self = true ->
   exists closes cs,
     df_getitem (df self) (cl self) = inr closes /\
     c = PList cs /\ length cs = length closes /\
     forall i x, nth_error closes i = Some x ->
       exists o col,
         value_at self (op self) i = inr o /\
         nth_error cs i = Some col /\
         py_getitem colors (if nleb (of_int 0) (nsub x o)
                            then "increasing" else "decreasing") = inr col).
Proof.
  unfold volume_color. intros H.
  destruct (mem_str (r_type r) (OHLC_TRACES env) && has_open self && has_close self).
  - split; [discriminate |]. intros _.
    bind_inv H as closes Hcl. bind_inv H as cs Hcs. injection H as <-.
    apply traverse_nth in Hcs. destruct Hcs as [Hlen Hnth].
    rewrite enumerate_from_length in Hlen.
    exists closes, cs. split; [exact Hcl |]. split; [reflexivity |].
    split; [exact Hlen |].
    intros i x Hx.
    assert (Hi : i < length cs).
    { rewrite Hlen. apply nth_error_Some. rewrite Hx. discriminate. }
    destruct (nth_error cs i) as [col |] eqn:Hcol;
      [| apply nth_error_Some in Hi; contradiction].
    destruct (Hnth i col Hcol) as [p [Hp Hf]].
    apply enumerate_from_nth in Hp. destruct Hp as [x' [Hx' ->]].
    rewrite Hx in Hx'. injection Hx' as <-. simpl in Hf.
    bind_inv Hf as o Ho.
    exists o, col. split; [exact Ho |]. split; [reflexivity |].
    destruct (nleb (of_int 0) (nsub x o)); exact Hf.
  - split; [intros _; exact H | discriminate].
Qed.

Lemma volume_trace_color (self : Chart) (r : resolved) (colors traces : pyobj)
    (ts : list pyobj) :
  volume_trace env self r colors traces = inr ts ->
  r_volume r = true ->
  exists t c,
    ts = [t] /\ volume_color env self r colors = inr c /\
    py_getpath t ["marker"; "color"] = inr c.
Proof.
  unfold volume_trace. intros H Hv. rewrite Hv in H.
  bind_inv H as t0 H0. bind_inv H as t1 H1. bind_inv H as t2 H2.
  bind_inv H as t3 H3. bind_inv H as t4 H4. bind_inv H as t5 H5.
  bind_inv H as color Hcolor. bind_inv H as t6 H6.
  injection H as <-. exists t6, color.
  split; [reflexivity |]. split; [exact Hcolor |].
  destruct (String.eqb (r_type r) "candlestick"); bind_inv H6 as u U.
  - unfold bind_color in H6. bind_inv H6 as b Hb.
    rewrite (py_setpath_sibling _ _ _ _ "color" _ _ H6); [| discriminate].
    apply (@py_getpath_setpath A ["marker"; "color"] t5 color u);
      [discriminate | exact U].
  - rewrite (py_setpath_sibling _ _ _ _ "color" _ _ H6); [| discriminate].
    apply (@py_getpath_setpath A ["marker"; "color"] t5 color u);
      [discriminate | exact U].
Qed.

(** X24. The colours of the volume bars (lines 570-583).  The volume trace
    comes right after the primary indicators.  For a kind of
    [OHLC_TRACES] on a chart with an open and a close column its marker
    colour is a list with one colour per row: the increasing colour of the
    template where the close is not below the open, the decreasing colour
    elsewhere.  Otherwise it is the single primary colour. *)
Theorem to_figure_volume_colors (self : Chart) (a : figure_args)
    (out out' : list string) (fig : pyobj) :
  to_figure env self a out = (out', inr fig) ->
  resolve_volume self a = PBool true ->
  exists r template colors data t c,
    resolve_arguments env self a = inr r /\
    load_template env a r = inr template /\
    py_getitem template "colors" = inr colors /\
    py_getitem fig "data" = inr (PList data) /\
    nth_error data (S (length (pri self))) = Some t /\
    py_getpath t ["marker"; "color"] = inr c /\
    (mem_str (r_type r) (OHLC_TRACES env) && has_open self && has_close self = false ->
     py_getitem colors "primary" = inr c) /\
    (mem_str (r_type r) (OHLC_TRACES env) && has_open self && has_close self = true ->
     exists closes cs,
       df_getitem (df self) (cl self) = inr closes /\
       c = PList cs /\ length cs = length closes /\
       forall i x, nth_error closes i = Some x ->
         exists o col,
           value_at self (op self) i = inr o /\
           nth_error cs i = Some col /\
           py_getitem colors (if nleb (of_int 0) (nsub x o)
                              then "increasing" else "decreasing") = inr col).
Proof.
  intros H Hv. apply to_figure_stages in H.
  destruct H as [r [template [colors [traces [additions [L0 [data H]]]]]]].
  destruct H as [L1 [L2 [L3 [Hr [Ht [Hc [_ [_ [_ [Hd [_ [_ [_ ->]]]]]]]]]]]]].
  rewrite (@resolve_arguments_volume A env _ _ _ Hr) in Hv.
  injection Hv as Hvol.
  unfold build_data in Hd.
  bind_inv Hd as main Hmain. bind_inv Hd as primary Hpri.
  bind_inv Hd as vol Hvt. bind_inv Hd as secondary Hsec.
  injection Hd as <-.
  unfold primary_traces in Hpri. apply traverse_nth in Hpri.
  destruct Hpri as [Lp _].
  destruct (volume_trace_color _ _ _ _ _ Hvt Hvol) as [t [c [-> [Hcol Hpath]]]].
  exists r, template, colors,
    ([main] ++ primary ++ [t] ++ secondary)%list, t, c.
  split; [exact Hr |]. split; [exact Ht |]. split; [exact Hc |].
  split; [reflexivity |]. split.
  - simpl. rewrite nth_error_app2 by lia.
    rewrite Lp, Nat.sub_diag. reflexivity.
  - split; [exact Hpath |]. apply volume_color_inr. exact Hcol.
Qed.

End Coverage.

(** ** Witnesses of the further properties *)

Lemma Chart_init_postcondition_witness :
  exists c,
    Chart_init Sample.env64 Sample.ohlcv (SrcName "yahoo") (PStr "AAPL")
      PNone (PStr "2017-01-04") = inr c /\
    df c = Sample.ohlcv /\ pri c = [] /\ sec c = [] /\
    ticker c = PStr "AAPL" /\
    start c = PTime 1483315200 /\
    end_ c = PStr "2017-01-04".
Proof.
  destruct (Chart_init Sample.env64 Sample.ohlcv (SrcName "yahoo") (PStr "AAPL")
              PNone (PStr "2017-01-04")) as [x | c] eqn:H;
    [vm_compute in H; discriminate |].
  exists c. split; [reflexivity |].
  destruct (@Chart_init_postcondition float64 Sample.env64 _ _ _ _ _ c H)
    as [Hdf [_ [Hp [Hs [_ [_ [Ht [Hst [_ [_ He]]]]]]]]]].
  split; [exact Hdf |]. split; [exact Hp |]. split; [exact Hs |].
  split; [apply Ht; discriminate |]. split.
  - destruct (Hst eq_refl) as [t [Ht0 Hstart]].
    injection Ht0 as <-. exact Hstart.
  - apply He. discriminate.
Defined.

Lemma Chart_init_empty_index_witness :
  exists x,
    Chart_init Sample.env64 Sample.no_rows SrcNone PNone PNone (PBool false)
    = inl x.
Proof.
  exact (@Chart_init_empty_index float64 Sample.env64 Sample.no_rows SrcNone
           PNone PNone (PBool false) eq_refl (or_introl eq_refl)).
Defined.

Lemma Chart_init_missing_key_witness :
  exists x,
    Chart_init Sample.env64 Sample.ohlcv
      (SrcDict [("op", "Open"); ("cl", "Close")]) PNone PNone PNone
    = inl x.
Proof.
  exact (@Chart_init_missing_key float64 Sample.env64 Sample.ohlcv
           [("op", "Open"); ("cl", "Close")] PNone PNone PNone "hi"
           (or_intror (or_introl eq_refl)) eq_refl).
Defined.

Lemma Chart_init_rejects_ticker_witness :
  exists x,
    Chart_init Sample.env64 Sample.ohlcv SrcNone (PInt 7) PNone PNone = inl x.
Proof.
  apply (@Chart_init_rejects_ticker float64 Sample.env64 Sample.ohlcv SrcNone
           (PInt 7) PNone PNone).
  - discriminate.
  - reflexivity.
  - discriminate.
Defined.

Lemma has_OHLC_when_columns_present_witness :
  has_OHLC Cases.plain = true /\ has_OHLCV Cases.plain = true.
Proof.
  destruct (@has_OHLC_when_columns_present float64 Cases.plain
              eq_refl eq_refl eq_refl eq_refl) as [H1 H2].
  split; [exact H1 | exact (H2 eq_refl)].
Defined.

Lemma plain_labels_distinct : NoDup (labels (df Cases.plain)).
Proof. simpl. repeat constructor; simpl; intuition discriminate. Defined.

Lemma adjusted_labels_distinct : NoDup (labels (df Cases.adjusted)).
Proof. simpl. repeat constructor; simpl; intuition discriminate. Defined.

Lemma has_OHLCV_iff_columns_witness :
  NoDup (labels (df Cases.plain)) /\ has_OHLCV Cases.plain = true.
Proof.
  split; [exact plain_labels_distinct |].
  apply (@has_OHLCV_iff_columns float64 Cases.plain plain_labels_distinct).
  repeat split; reflexivity.
Defined.

Lemma adjust_inplace_all_or_nothing_witness :
  snd (adjust Sample.env64 true Cases.plain) = inl (KeyError "Adj Close") /\
  fst (adjust Sample.env64 true Cases.plain) = Cases.plain /\
  snd (adjust_volume Sample.env64 true Cases.plain) = inl (KeyError "Adj Close") /\
  fst (adjust_volume Sample.env64 true Cases.plain) = Cases.plain.
Proof.
  split; [vm_compute; reflexivity |]. split; [| split; [vm_compute; reflexivity |]].
  - apply (proj1 (@adjust_inplace_all_or_nothing float64 Sample.env64 Cases.plain)
             plain_labels_distinct _ (KeyError "Adj Close")).
    vm_compute. reflexivity.
  - apply (proj2 (@adjust_inplace_all_or_nothing float64 Sample.env64 Cases.plain)
             _ (KeyError "Adj Close")).
    vm_compute. reflexivity.
Defined.

Lemma adjust_inplace_agrees_with_copy_witness :
  exists ratio d2,
    ratio_of Cases.adjusted = inr ratio /\
    adjust_copy Cases.adjusted ratio = inr d2 /\
    adjust Sample.env64 true Cases.adjusted
    = (set_df Cases.adjusted d2, inr None) /\
    adjust Sample.env64 false Cases.adjusted
    = (Cases.adjusted,
       c <- Chart_init Sample.env64 d2 SrcNone PNone PNone PNone ;; ok (Some c)).
Proof.
  apply (@adjust_inplace_agrees_with_copy float64 Sample.env64 Cases.adjusted).
  - exact adjusted_labels_distinct.
  - simpl. repeat constructor; simpl; intuition discriminate.
  - reflexivity.
  - reflexivity.
Defined.

Lemma adjust_volume_inplace_agrees_with_copy_witness :
  NoDup (labels (df Cases.adjusted)) /\
  exists d2,
    adjust_volume Sample.env64 true Cases.adjusted
    = (set_df Cases.adjusted d2, inr None) /\
    adjust_volume Sample.env64 false Cases.adjusted
    = (Cases.adjusted,
       c <- Chart_init Sample.env64 d2 SrcNone PNone PNone PNone ;; ok (Some c)) /\
    labels d2 = labels (df Cases.adjusted) /\
    df_getitem d2 "Close" = df_getitem (df Cases.adjusted) "Close".
Proof.
  split; [exact adjusted_labels_distinct |].
  destruct (@adjust_volume_inplace_agrees_with_copy float64 Sample.env64
              Cases.adjusted adjusted_labels_distinct eq_refl eq_refl eq_refl)
    as [ratio [col [d2 [_ [_ [_ [H1 [H2 [_ [H3 [H4 _]]]]]]]]]]].
  exists d2. split; [exact H1 |]. split; [exact H2 |]. split; [exact H4 |].
  apply H3. discriminate.
Defined.

Lemma to_figure_unknown_keyword_witness :
  to_figure Sample.env64 Cases.plain
    (Scenes.with_kwargs [("kind", PStr "ohlc"); ("colour", PStr "red")]) []
  = ([], inl (Exception "Invalid keyword '{0}'.")).
Proof.
  apply (@to_figure_unknown_keyword float64 Sample.env64 Cases.plain
           (Scenes.with_kwargs [("kind", PStr "ohlc"); ("colour", PStr "red")])
           [] "colour").
  - simpl. right. left. reflexivity.
  - reflexivity.
Defined.

Lemma to_figure_figsize_witness :
  to_figure Sample.env64 Cases.plain
    (Scenes.with_kwargs [("figsize", PInt 10)]) []
  = ([], inl (TypeError "Invalid figsize '{0}'. It should be tuple.")) /\
  to_figure Sample.env64 Cases.plain
    (Scenes.with_kwargs [("figsize", PTuple [PInt 10])]) []
  = ([], inl (Exception "Invalid figsize '{0}'. It should be tuple of len 2.")) /\
  exists r,
    resolve_arguments Sample.env64 Cases.plain
      (Scenes.with_kwargs [("figsize", PTuple [PInt 10; PInt 5])]) = inr r /\
    r_dimensions r = PTuple [PInt 800; PInt 400].
Proof.
  split; [| split].
  - apply (proj1 (@to_figure_figsize float64 Sample.env64 Cases.plain
                    (Scenes.with_kwargs [("figsize", PInt 10)]) [] (PInt 10)
                    ltac:(repeat constructor) eq_refl)).
    intros l. discriminate.
  - apply (proj1 (proj2 (@to_figure_figsize float64 Sample.env64 Cases.plain
                    (Scenes.with_kwargs [("figsize", PTuple [PInt 10])]) []
                    (PTuple [PInt 10]) ltac:(repeat constructor) eq_refl))
             [PInt 10] eq_refl).
    simpl. discriminate.
  - destruct (resolve_arguments Sample.env64 Cases.plain
                (Scenes.with_kwargs [("figsize", PTuple [PInt 10; PInt 5])]))
      as [x | r] eqn:H; [vm_compute in H; discriminate |].
    exists r. split; [reflexivity |].
    apply (proj2 (proj2 (@to_figure_figsize float64 Sample.env64 Cases.plain
                    (Scenes.with_kwargs [("figsize", PTuple [PInt 10; PInt 5])]) []
                    (PTuple [PInt 10; PInt 5]) ltac:(repeat constructor) eq_refl))
             10%Z 5%Z r eq_refl H).
Defined.

Lemma to_figure_rejects_mistyped_witness :
  exists x,
    to_figure Sample.env64 Cases.plain (Scenes.with_volume (PStr "yes")) []
    = ([], inl x).
Proof.
  apply (@to_figure_rejects_mistyped float64 Sample.env64 Cases.plain
           (Scenes.with_volume (PStr "yes")) []).
  right. left. split; [discriminate | reflexivity].
Defined.

Lemma resolve_arguments_defaults_witness :
  exists r,
    resolve_arguments Sample.env64 Cases.plain Sample.no_args = inr r /\
    r_type r = "candlestick" /\ r_volume r = true /\ r_subtitle r = true /\
    r_legend r = PBool true /\ r_title r = PStr "".
Proof.
  destruct (resolve_arguments Sample.env64 Cases.plain Sample.no_args)
    as [x | r] eqn:H; [vm_compute in H; discriminate |].
  exists r. split; [reflexivity |].
  destruct (@resolve_arguments_defaults float64 Sample.env64 Cases.plain
              Sample.no_args r H)
    as [Ht [_ [Hv [_ [Hs [_ [Hl [_ [Hti _]]]]]]]]].
  split.
  - destruct (Ht eq_refl) as [[_ E] | [E _]]; [exact E | discriminate E].
  - split; [exact (Hv eq_refl) |]. split; [exact (Hs eq_refl) |].
    split; [exact (Hl eq_refl) | exact (proj1 (Hti eq_refl))].
Defined.

Lemma to_figure_without_kind_or_data_witness :
  to_figure Sample.env64 Scenes.volumes Sample.no_args []
  = ([], inl (Exception "Chart has neither OLHC nor close data.")).
Proof.
  apply (@to_figure_without_kind_or_data float64 Sample.env64 Scenes.volumes
           Sample.no_args []).
  - constructor.
  - reflexivity.
  - reflexivity.
  - reflexivity.
  - reflexivity.
Defined.

Lemma to_figure_traces_witness :
  resolve_volume Scenes.studied Sample.no_args = PBool true /\
  exists main p v s,
    py_getitem Scenes.studied_figure "data" = inr (PList [main; p; v; s]) /\
    py_getitem main "yaxis" = inr (PStr "y1") /\
    py_getitem p "name" = inr (PStr "SMA20") /\
    py_getitem p "yaxis" = inr (PStr "y1") /\
    py_getitem v "name" = inr (PStr "Volume") /\
    py_getitem v "yaxis" = inr (PStr "y2") /\
    py_getitem s "name" = inr (PStr "RSI14") /\
    py_getitem s "yaxis" = inr (PStr "y3").
Proof.
  assert (H : to_figure Sample.env64 Scenes.studied Sample.no_args []
              = ([], inr Scenes.studied_figure)) by (vm_compute; reflexivity).
  split; [reflexivity |].
  destruct (@to_figure_traces float64 Sample.env64 Scenes.studied Sample.no_args
              [] [] Scenes.studied_figure true H eq_refl)
    as [main [primary [vol [secondary
         [Hd [Lp [Lv [Ls [Hm [_ [Hp [Hv Hs]]]]]]]]]]]].
  destruct primary as [| p [| ? ?]]; try discriminate Lp.
  destruct vol as [| v [| ? ?]]; try discriminate Lv.
  destruct secondary as [| s [| ? ?]]; try discriminate Ls.
  exists main, p, v, s. split; [exact Hd |]. split; [exact Hm |].
  destruct (Hp 0 p eq_refl) as [e1 [c1 [E1 [_ [N1 [_ Y1]]]]]].
  injection E1 as <-.
  destruct (Hv v (or_introl eq_refl)) as [N2 [Y2 _]].
  destruct (Hs 0 s eq_refl) as [e3 [c3 [E3 [_ [N3 [_ Y3]]]]]].
  injection E3 as <-.
  repeat split; assumption.
Defined.

Lemma to_figure_main_trace_witness :
  exists main rest,
    py_getitem Cases.plain_figure "data" = inr (PList (main :: rest)) /\
    py_getitem main "x" = inr (PIndex Sample.two_days) /\
    py_getitem main "name" = inr (PStr "") /\
    py_getitem main "open"
    = inr (PSeries (map (of_int (Arith := float64)) [10; 11]%Z)) /\
    py_getitem main "close"
    = inr (PSeries (map (of_int (Arith := float64)) [11; 10]%Z)).
Proof.
  assert (H : to_figure Sample.env64 Cases.plain Sample.no_args []
              = ([], inr Cases.plain_figure)) by (vm_compute; reflexivity).
  destruct (@to_figure_main_trace float64 Sample.env64 Cases.plain Sample.no_args
              [] [] Cases.plain_figure H)
    as [r [main [rest [Hr [Hd [Hx [Hn [Hohlc _]]]]]]]].
  vm_compute in Hr. injection Hr as <-.
  destruct (Hohlc eq_refl) as [o [h [l [c [Ho [_ [_ [Hc [Mo [_ [_ Mc]]]]]]]]]]].
  assert (Eo : df_getitem (df Cases.plain) (op Cases.plain)
               = inr (map (of_int (Arith := float64)) [10; 11]%Z))
    by reflexivity.
  assert (Ec : df_getitem (df Cases.plain) (cl Cases.plain)
               = inr (map (of_int (Arith := float64)) [11; 10]%Z))
    by reflexivity.
  rewrite Eo in Ho. injection Ho as <-.
  rewrite Ec in Hc. injection Hc as <-.
  exists main, rest. repeat split; assumption.
Defined.

Lemma to_figure_prints_witness :
  stacked Cases.two_rsi true = 3 /\
  fst (to_figure Sample.env64 Cases.two_rsi (Sample.with_subtitle false) [])
  = ["Quantmod does not yet support plotting 3+ indicators."] /\
  stacked Cases.one_rsi true = 2 /\
  fst (to_figure Sample.env64 Cases.one_rsi Sample.no_args ["seen"]) = ["seen"].
Proof.
  split; [reflexivity |]. split; [| split; [reflexivity |]].
  - apply (proj2 (@to_figure_prints float64 Sample.env64 Cases.two_rsi
                    (Sample.with_subtitle false) [] _ _
                    (surjective_pairing _))
             Cases.two_rsi_figure true).
    + vm_compute. reflexivity.
    + reflexivity.
    + vm_compute. lia.
  - apply (proj2 (@to_figure_prints float64 Sample.env64 Cases.one_rsi
                    Sample.no_args ["seen"] _ _ (surjective_pairing _))
             Cases.one_rsi_figure true).
    + vm_compute. reflexivity.
    + reflexivity.
    + vm_compute. lia.
Defined.

Lemma to_figure_layout_frame_witness :
  py_getpath Scenes.titled_figure ["layout"; "title"] = inr (PStr "Apple") /\
  py_getpath Scenes.titled_figure ["layout"; "showlegend"] = inr (PBool true) /\
  py_getpath Scenes.titled_figure ["layout"; "shapes"] = inl (KeyError "shapes").
Proof.
  assert (H : to_figure Sample.env64 Cases.plain (Scenes.with_title "Apple") []
              = ([], inr Scenes.titled_figure)) by (vm_compute; reflexivity).
  destruct (@to_figure_layout_frame float64 Sample.env64 Cases.plain
              (Scenes.with_title "Apple") [] [] Scenes.titled_figure H)
    as [r [template [L0 [Hr [Ht [HL0 F]]]]]].
  vm_compute in Hr. injection Hr as <-.
  vm_compute in Ht. injection Ht as <-.
  vm_compute in HL0. injection HL0 as <-.
  repeat split; (rewrite F; [reflexivity | simpl; intuition discriminate]).
Defined.

Lemma to_figure_margin_witness :
  py_getpath Cases.plain_figure ["layout"; "margin"; "t"]
  = inr (PNum (of_int (Arith := float64) 30)) /\
  py_getpath Cases.plain_figure ["layout"; "margin"; "b"]
  = inr (PNum (of_int (Arith := float64) 30)) /\
  py_getpath Scenes.titled_figure ["layout"; "margin"; "t"]
  = inr (PNum (of_int (Arith := float64) 60)).
Proof.
  assert (H1 : to_figure Sample.env64 Cases.plain Sample.no_args []
               = ([], inr Cases.plain_figure)) by (vm_compute; reflexivity).
  assert (H2 : to_figure Sample.env64 Cases.plain (Scenes.with_title "Apple") []
               = ([], inr Scenes.titled_figure)) by (vm_compute; reflexivity).
  destruct (@to_figure_margin float64 Sample.env64 Cases.plain Sample.no_args
              [] [] Cases.plain_figure H1)
    as [r [template [L0 [title [has [Hr [Ht [HL0 [Hti [Hhas [_ Hno]]]]]]]]]]].
  vm_compute in Hr. injection Hr as <-.
  vm_compute in Ht. injection Ht as <-.
  vm_compute in HL0. injection HL0 as <-.
  vm_compute in Hti. injection Hti as <-.
  vm_compute in Hhas. injection Hhas as <-.
  destruct (Hno eq_refl) as [b [Hb [Gt Gb]]].
  vm_compute in Hb. injection Hb as <-.
  split; [exact Gt |]. split; [exact Gb |].
  destruct (@to_figure_margin float64 Sample.env64 Cases.plain
              (Scenes.with_title "Apple") [] [] Scenes.titled_figure H2)
    as [r' [template' [L0' [title' [has' [Hr' [Ht' [HL0' [Hti' [Hhas' [Hyes _]]]]]]]]]]].
  vm_compute in Hr'. injection Hr' as <-.
  vm_compute in Ht'. injection Ht' as <-.
  vm_compute in HL0'. injection HL0' as <-.
  vm_compute in Hti'. injection Hti' as <-.
  vm_compute in Hhas'. injection Hhas' as <-.
  specialize (Hyes eq_refl).
  change (py_getpath Scenes.titled_figure ["layout"; "margin"; "t"])
    with (m <- py_getpath Scenes.titled_figure ["layout"; "margin"] ;;
          py_getpath m ["t"]).
  rewrite Hyes. reflexivity.
Defined.

Lemma to_figure_subtitle_witness :
  (exists p q,
     py_getpath Cases.plain_figure ["layout"; "annotations"]
     = inr (PList [p; q]) /\
     py_getitem p "text" = inr (PStr "Last 10.00") /\
     py_getitem q "text" = inr (PStr "Volume 1,500") /\
     py_getpath p ["font"; "color"] = inr (PStr "#FF7700") /\
     py_getpath q ["font"; "color"] = inr (PStr "#FF7700")) /\
  py_getpath Scenes.hidden_figure ["layout"; "annotations"]
  = inl (KeyError "annotations") /\
  py_getpath Scenes.hidden_figure ["layout"; "legend"; "y"]
  = inr (PNum (lit (Arith := float64) 99 2)).
Proof.
  assert (H1 : to_figure Sample.env64 Cases.plain Sample.no_args []
               = ([], inr Cases.plain_figure)) by (vm_compute; reflexivity).
  assert (H2 : to_figure Sample.env64 Cases.plain (Sample.with_subtitle false) []
               = ([], inr Scenes.hidden_figure)) by (vm_compute; reflexivity).
  split.
  - destruct (@to_figure_subtitle float64 Sample.env64 Cases.plain Sample.no_args
                [] [] Cases.plain_figure H1)
      as [r [template [colors [L0 [showlegend [shown H]]]]]].
    destruct H as [Hr [Ht [Hc [HL0 [Hshow [Hshown [_ Hon]]]]]]].
    vm_compute in Hr. injection Hr as <-.
    vm_compute in Ht. injection Ht as <-.
    vm_compute in Hc. injection Hc as <-.
    vm_compute in HL0. injection HL0 as <-.
    vm_compute in Hshow. injection Hshow as <-.
    vm_compute in Hshown. injection Hshown as <-.
    destruct (Hon eq_refl) as [anns0 [color [c [y [p [more H]]]]]].
    destruct H as [H0 [Hcol [Hcl [_ [Pt [Pc [Hann [_ [_ Hvol]]]]]]]]].
    destruct H0 as [H0 | [_ ->]]; [vm_compute in H0; discriminate |].
    vm_compute in Hcol. injection Hcol as <-.
    vm_compute in Hcl. injection Hcl as <-.
    destruct (Hvol eq_refl) as [v [q [Hv [-> [Qt Qc]]]]].
    vm_compute in Hv. injection Hv as <-.
    exists p, q. split; [exact Hann |].
    split; [rewrite Pt; vm_compute; reflexivity |].
    split; [rewrite Qt; vm_compute; reflexivity |].
    split; assumption.
  - destruct (@to_figure_subtitle float64 Sample.env64 Cases.plain
                (Sample.with_subtitle false) [] [] Scenes.hidden_figure H2)
      as [r [template [colors [L0 [showlegend [shown H]]]]]].
    destruct H as [Hr [Ht [Hc [HL0 [Hshow [Hshown [Hoff _]]]]]]].
    vm_compute in Hr. injection Hr as <-.
    vm_compute in Ht. injection Ht as <-.
    vm_compute in HL0. injection HL0 as <-.
    vm_compute in Hshow. injection Hshow as <-.
    vm_compute in Hshown. injection Hshown as <-.
    destruct (Hoff eq_refl) as [Ha Hl].
    split; [rewrite Ha; reflexivity |].
    change (py_getpath Scenes.hidden_figure ["layout"; "legend"; "y"])
      with (m <- py_getpath Scenes.hidden_figure ["layout"; "legend"] ;;
            py_getpath m ["y"]).
    rewrite Hl. vm_compute. reflexivity.
Defined.

Lemma plot_error_renders_nothing_witness :
  plot Scenes.desk Scenes.offline Cases.named Sample.no_args
    (PInt 3) PNone Scenes.quiet
  = (Scenes.quiet, inl (NameError "ticker")) /\
  exists msg,
    iplot Scenes.desk Scenes.offline Cases.plain Sample.no_args
      (PInt 3) PNone Scenes.quiet
    = (Scenes.quiet, inl (TypeError msg)).
Proof.
  split.
  - assert (H : to_figure Scenes.desk Cases.named Sample.no_args
                  (stdout Scenes.quiet) = ([], inl (NameError "ticker")))
      by (vm_compute; reflexivity).
    destruct (@plot_error_renders_nothing float64 Scenes.desk Scenes.offline
                Cases.named Sample.no_args (PInt 3) PNone Scenes.quiet [] _ H
                (or_introl (ex_intro _ _ eq_refl)))
      as [x [P [_ [E _]]]].
    rewrite (E _ eq_refl) in P. exact P.
  - assert (H : to_figure Scenes.desk Cases.plain Sample.no_args
                  (stdout Scenes.quiet) = ([], inr Scenes.desk_figure))
      by (vm_compute; reflexivity).
    assert (B : PInt 3 <> PNone (A := float64) /\
                is_str (A := float64) (PInt 3) = false)
      by (split; [discriminate | reflexivity]).
    destruct (@plot_error_renders_nothing float64 Scenes.desk Scenes.offline
                Cases.plain Sample.no_args (PInt 3) PNone Scenes.quiet [] _ H
                (or_intror (or_introl B)))
      as [x [_ [I [_ E]]]].
    destruct (E _ eq_refl) as [msg Hm]. subst x.
    exists msg. exact I.
Defined.

Lemma plot_renders_once_witness :
  plot Scenes.desk Scenes.offline Cases.plain Sample.no_args
    PNone PNone Scenes.quiet
  = ({| stdout := [];
        rendered := [Offline false Scenes.desk_figure
                       "Quantmod Chart 2017-01-03 09:30:00"
                       (PBool false) (PStr "Export to plot.ly")] |},
     inr (PStr "file://Quantmod Chart 2017-01-03 09:30:00.html")) /\
  iplot Scenes.desk Scenes.signed_in Cases.plain Sample.no_args
    (PStr "aapl") (PBool false) Scenes.quiet
  = ({| stdout := []; rendered := [Online true Scenes.desk_figure "aapl"] |},
     inr (PStr "https://plot.ly/~quantmod/aapl")) /\
  plot Sample.env64 Scenes.offline Cases.plain Sample.no_args
    PNone PNone Scenes.quiet
  = (Scenes.quiet, inl (KeyError "offline_show_link")).
Proof.
  assert (H : to_figure Scenes.desk Cases.plain Sample.no_args
                (stdout Scenes.quiet) = ([], inr Scenes.desk_figure))
    by (vm_compute; reflexivity).
  assert (H' : to_figure Sample.env64 Cases.plain Sample.no_args
                 (stdout Scenes.quiet) = ([], inr Cases.plain_figure))
    by (vm_compute; reflexivity).
  split; [| split].
  - destruct (@plot_renders_once float64 Scenes.desk Scenes.offline Cases.plain
                Sample.no_args PNone PNone Scenes.quiet [] Scenes.desk_figure
                "Quantmod Chart 2017-01-03 09:30:00" false H
                (or_introl (conj eq_refl eq_refl))
                (or_introl (conj eq_refl eq_refl)))
      as [_ [Hoff _]].
    exact (proj1 (Hoff eq_refl _ (PBool false) (PStr "Export to plot.ly")
                    eq_refl eq_refl eq_refl)).
  - destruct (@plot_renders_once float64 Scenes.desk Scenes.signed_in Cases.plain
                Sample.no_args (PStr "aapl") (PBool false) Scenes.quiet []
                Scenes.desk_figure "aapl" false H
                (or_intror eq_refl) (or_intror eq_refl))
      as [Hon _].
    exact (proj2 (Hon eq_refl)).
  - destruct (@plot_renders_once float64 Sample.env64 Scenes.offline Cases.plain
                Sample.no_args PNone PNone Scenes.quiet [] Cases.plain_figure
                "Quantmod Chart 2017-01-03 09:30:00" false H'
                (or_introl (conj eq_refl eq_refl))
                (or_introl (conj eq_refl eq_refl)))
      as [_ [_ Hmiss]].
    exact (proj1 (Hmiss eq_refl _ (KeyError "offline_show_link") eq_refl
                    (or_introl eq_refl))).
Defined.

Lemma to_figure_volume_colors_witness :
  exists data t,
    py_getitem Cases.plain_figure "data" = inr (PList data) /\
    nth_error data 1 = Some t /\
    py_getpath t ["marker"; "color"]
    = inr (PList [PStr "#00CC00"; PStr "#FF7700"]).
Proof.
  assert (H : to_figure Sample.env64 Cases.plain Sample.no_args []
              = ([], inr Cases.plain_figure)) by (vm_compute; reflexivity).
  destruct (@to_figure_volume_colors float64 Sample.env64 Cases.plain
              Sample.no_args [] [] Cases.plain_figure H eq_refl)
    as [r [template [colors [data [t [c H0]]]]]].
  destruct H0 as [Hr [Ht [Hc [Hd [Hn [Hp [_ Hper]]]]]]].
  vm_compute in Hr. injection Hr as <-.
  vm_compute in Ht. injection Ht as <-.
  vm_compute in Hc. injection Hc as <-.
  destruct (Hper eq_refl) as [closes [cs [Hcl [-> [Hlen Hall]]]]].
  vm_compute in Hcl. injection Hcl as <-.
  destruct cs as [| c0 [| c1 [| ? ?]]]; try discriminate Hlen.
  destruct (Hall 0 _ eq_refl) as [o0 [col0 [Ho0 [Hc0 Hk0]]]].
  vm_compute in Ho0. injection Ho0 as <-.
  injection Hc0 as <-. vm_compute in Hk0. injection Hk0 as <-.
  destruct (Hall 1 _ eq_refl) as [o1 [col1 [Ho1 [Hc1 Hk1]]]].
  vm_compute in Ho1. injection Ho1 as <-.
  injection Hc1 as <-. vm_compute in Hk1. injection Hk1 as <-.
  exists data, t. split; [exact Hd |]. split; [exact Hn | exact Hp].
Defined.
